(** * The summarisation pipeline of ytsbyai: parsers, steps, stores, executor

    A shallow embedding of [backend/app/langgraph/{types,nodes,workflow,
    neo4j_service}.py] and [backend/app/core/pinecone_service.py].

    Conventions of the embedding.
    - A Python [str] is a [string]; one character is one [ascii].  The
      embedding is exact on ASCII text.  A character outside ASCII is carried
      as its UTF-8 bytes: [len] and the indices of [find] and of slices then
      count bytes where Python counts characters, and [strip] leaves the
      white space outside ASCII (such as U+00A0) in place.
    - A value that Python leaves dynamically typed (whatever [json.loads]
      produced, or [None]) is a [json]; [JNull] is [None].
    - An exception is represented by its message, [str(e)], which is all the
      program ever reads from it.
    - External collaborators (the language model, the tokenizer, the embedding
      service, the vector index, the graph database, the clock) are oracles
      collected in the record [Collaborators]; every theorem quantifies over
      them.
    - Logging calls are not modelled: they are taken to succeed and to have no
      effect on the run.  The expressions a log line formats are evaluated
      where they can raise: the [len] of [finalize_node]. *)

From stdpp Require Import gmap strings list pretty.
From Stdlib Require Import ZArith Ascii String Lia.

Local Open Scope string_scope.
Local Open Scope Z_scope.

(** ** Python string primitives *)

Module Py.

(** [s.find(sub)] scanning from the head of [s], whose first character has
    index [i]; [None] stands for Python's [-1]. *)
Fixpoint find_at (sub s : string) (i : nat) : option nat :=
  if String.prefix sub s then Some i
  else match s with
       | EmptyString => None
       | String _ s' => find_at sub s' (S i)
       end.

Fixpoint drop (n : nat) (s : string) : string :=
  match n, s with
  | O, _ => s
  | S n', String _ s' => drop n' s'
  | S _, EmptyString => EmptyString
  end.

Fixpoint take (n : nat) (s : string) : string :=
  match n, s with
  | S n', String c s' => String c (take n' s')
  | _, _ => EmptyString
  end.

Definition index_or_minus1 (o : option nat) : Z :=
  match o with Some i => Z.of_nat i | None => -1 end.

(** [s.find(sub, start)] for [0 <= start]. *)
Definition find_from (sub s : string) (start : nat) : Z :=
  if (String.length s <? start)%nat then -1
  else index_or_minus1 (find_at sub (drop start s) start).

(** [s.find(sub)] *)
Definition find (sub s : string) : Z := find_from sub s 0.

(** [s.rfind(sub)]: the last index at which [sub] occurs. *)
Fixpoint rfind_at (sub s : string) (i : nat) : option nat :=
  match s with
  | EmptyString => if String.prefix sub s then Some i else None
  | String _ s' =>
      match rfind_at sub s' (S i) with
      | Some j => Some j
      | None => if String.prefix sub s then Some i else None
      end
  end.

Definition rfind (sub s : string) : Z := index_or_minus1 (rfind_at sub s 0).

(** [sub in s] *)
Definition contains (sub s : string) : bool :=
  match find_at sub s 0 with Some _ => true | None => false end.

(** A slice bound as Python normalises it: a negative bound counts from the
    end, and the result is clamped to [0 .. len]. *)
Definition clamp (len i : Z) : Z :=
  let i' := if i <? 0 then i + len else i in
  Z.max 0 (Z.min len i').

(** [s[start:stop]] *)
Definition slice (s : string) (start stop : Z) : string :=
  let len := Z.of_nat (String.length s) in
  let a := clamp len start in
  let b := clamp len stop in
  take (Z.to_nat (b - a)) (drop (Z.to_nat a) s).

(** The characters [str.strip()] removes, of the ASCII ones: the white space
    outside ASCII, which Python strips too, is left in place. *)
Definition is_space (c : ascii) : bool :=
  let n := nat_of_ascii c in
  ((9 <=? n) && (n <=? 13) || (28 <=? n) && (n <=? 32))%nat.

Fixpoint lstrip (s : string) : string :=
  match s with
  | String c s' => if is_space c then lstrip s' else s
  | EmptyString => EmptyString
  end.

Fixpoint rstrip (s : string) : string :=
  match s with
  | EmptyString => EmptyString
  | String c s' =>
      match rstrip s' with
      | EmptyString => if is_space c then EmptyString else String c EmptyString
      | r => String c r
      end
  end.

(** [s.strip()] *)
Definition strip (s : string) : string := rstrip (lstrip s).

End Py.

(** ** Dynamically typed values *)

(** What [json.loads] can return, which is also what the fields of the run
    state can hold; a number is kept as its lexeme. *)
#[warnings="-register-all"] Inductive json : Type :=
| JNull
| JBool (b : bool)
| JNumber (lexeme : string)
| JString (s : string)
| JArray (items : list json)
| JObject (members : list (string * json)).

(** The result of running code that may raise: a value, or the message of the
    exception. *)
Inductive outcome (A : Type) : Type :=
| Ok (a : A)
| Raised (msg : string).
Arguments Ok {A} a.
Arguments Raised {A} msg.

(** [try: body except Exception as e: handler(str(e))] *)
Definition try_except {A : Type} (body : outcome A) (handler : string -> outcome A)
  : outcome A :=
  match body with
  | Ok a => Ok a
  | Raised msg => handler msg
  end.

Definition bind_outcome {A B : Type} (x : outcome A) (k : A -> outcome B) : outcome B :=
  match x with
  | Ok a => k a
  | Raised msg => Raised msg
  end.

(** ** A model of the standard library's [json.loads]

    A recursive-descent decoder for the grammar Python's decoder accepts
    (RFC 8259 plus [NaN], [Infinity] and [-Infinity]); characters outside
    ASCII that a [\u] escape denotes are carried as their UTF-8 bytes.  The
    parsers below take the decoder as a parameter, so their theorems hold for
    any decoder; this one is used to evaluate them on concrete responses. *)

Module Json.

Definition is_ws (c : ascii) : bool :=
  let n := nat_of_ascii c in
  ((n =? 32) || (n =? 9) || (n =? 10) || (n =? 13))%nat.

Fixpoint skip_ws (s : string) : string :=
  match s with
  | String c s' => if is_ws c then skip_ws s' else s
  | EmptyString => EmptyString
  end.

Definition is_digit (c : ascii) : bool :=
  let n := nat_of_ascii c in ((48 <=? n) && (n <=? 57))%nat.

(** The longest prefix of digits, and the rest. *)
Fixpoint span_digits (s : string) : string * string :=
  match s with
  | String c s' =>
      if is_digit c then let '(d, r) := span_digits s' in (String c d, r)
      else (EmptyString, s)
  | EmptyString => (EmptyString, EmptyString)
  end.

(** The integer part of a number: a single zero, or a non-zero digit and
    any digits. *)
Definition scan_natural (s : string) : option (string * string) :=
  match s with
  | String c s' =>
      if Ascii.eqb c "0" then Some ("0", s')
      else if is_digit c then let '(d, r) := span_digits s' in Some (String c d, r)
      else None
  | EmptyString => None
  end.

(** The optional fraction: a dot and at least one digit. *)
Definition scan_fraction (s : string) : string * string :=
  match s with
  | String "." s' =>
      match span_digits s' with
      | (EmptyString, _) => (EmptyString, s)
      | (d, r) => (String "." d, r)
      end
  | _ => (EmptyString, s)
  end.

(** The optional exponent: e or E, an optional sign, at least one digit. *)
Definition scan_exponent (s : string) : string * string :=
  match s with
  | String e s' =>
      if Ascii.eqb e "e" || Ascii.eqb e "E" then
        let '(sign, s'') :=
          match s' with
          | String g t => if Ascii.eqb g "+" || Ascii.eqb g "-"
                          then (String g EmptyString, t) else (EmptyString, s')
          | EmptyString => (EmptyString, s')
          end in
        match span_digits s'' with
        | (EmptyString, _) => (EmptyString, s)
        | (d, r) => (String e (sign +:+ d), r)
        end
      else (EmptyString, s)
  | EmptyString => (EmptyString, s)
  end.

(** A number: optional minus, integer part, optional fraction, optional
    exponent; the longest such prefix is taken. *)
Definition scan_number (s : string) : option (string * string) :=
  let '(sign, s1) :=
    match s with
    | String "-" t => ("-", t)
    | _ => (EmptyString, s)
    end in
  match scan_natural s1 with
  | None => None
  | Some (int, s2) =>
      let '(frac, s3) := scan_fraction s2 in
      let '(exp, s4) := scan_exponent s3 in
      Some (sign +:+ int +:+ frac +:+ exp, s4)
  end.

Definition hex_digit (c : ascii) : option N :=
  let n := N_of_ascii c in
  (if (48 <=? n) && (n <=? 57) then Some (n - 48)
   else if (97 <=? n) && (n <=? 102) then Some (n - 87)
   else if (65 <=? n) && (n <=? 70) then Some (n - 55)
   else None)%N.

(** Four hexadecimal digits, as after [\u]. *)
Definition scan_hex4 (s : string) : option (N * string) :=
  match s with
  | String a (String b (String c (String d r))) =>
      match hex_digit a, hex_digit b, hex_digit c, hex_digit d with
      | Some x, Some y, Some z, Some w => Some (((x * 16 + y) * 16 + z) * 16 + w, r)%N
      | _, _, _, _ => None
      end
  | _ => None
  end.

(** The UTF-8 bytes of a code point. *)
Definition utf8 (n : N) : string :=
  let b (k : N) := ascii_of_N k in
  (if n <? 128 then String (b n) EmptyString
   else if n <? 2048 then
     String (b (192 + n / 64)) (String (b (128 + n mod 64)) EmptyString)
   else if n <? 65536 then
     String (b (224 + n / 4096))
       (String (b (128 + (n / 64) mod 64)) (String (b (128 + n mod 64)) EmptyString))
   else
     String (b (240 + n / 262144))
       (String (b (128 + (n / 4096) mod 64))
          (String (b (128 + (n / 64) mod 64)) (String (b (128 + n mod 64)) EmptyString))))%N.

(** A [\uXXXX] escape whose digits have just been read as [hi]: a high
    surrogate followed by an escaped low surrogate denotes one character. *)
Definition scan_surrogate (hi : N) (s : string) : N * string :=
  (if (55296 <=? hi) && (hi <=? 56319) then
    match s with
    | String "\" (String "u" s') =>
        match scan_hex4 s' with
        | Some (lo, r) =>
            if (56320 <=? lo) && (lo <=? 57343)
            then (65536 + ((hi - 55296) * 1024 + (lo - 56320)), r)
            else (hi, s)
        | None => (hi, s)
        end
    | _ => (hi, s)
    end
  else (hi, s))%N.

Definition simple_escape (c : ascii) : option ascii :=
  let n := nat_of_ascii c in
  if (n =? 34)%nat then Some c            (* the double quote *)
  else if Ascii.eqb c "\" then Some c
  else if Ascii.eqb c "/" then Some c
  else if Ascii.eqb c "b" then Some (ascii_of_nat 8)
  else if Ascii.eqb c "f" then Some (ascii_of_nat 12)
  else if Ascii.eqb c "n" then Some (ascii_of_nat 10)
  else if Ascii.eqb c "r" then Some (ascii_of_nat 13)
  else if Ascii.eqb c "t" then Some (ascii_of_nat 9)
  else None.

(** The characters of a string literal up to its closing quote (the opening
    quote has been read). *)
Fixpoint scan_string (fuel : nat) (s : string) : option (string * string) :=
  match fuel with
  | O => None
  | S fuel' =>
      match s with
      | EmptyString => None
      | String c s' =>
          if (nat_of_ascii c =? 34)%nat then Some (EmptyString, s')
          else if (nat_of_ascii c <? 32)%nat then None
          else if Ascii.eqb c "\" then
            match s' with
            | String "u" s'' =>
                match scan_hex4 s'' with
                | Some (hi, r) =>
                    let '(n, r') := scan_surrogate hi r in
                    match scan_string fuel' r' with
                    | Some (str, rest) => Some (utf8 n +:+ str, rest)
                    | None => None
                    end
                | None => None
                end
            | String e s'' =>
                match simple_escape e with
                | Some x =>
                    match scan_string fuel' s'' with
                    | Some (str, rest) => Some (String x str, rest)
                    | None => None
                    end
                | None => None
                end
            | EmptyString => None
            end
          else
            match scan_string fuel' s' with
            | Some (str, rest) => Some (String c str, rest)
            | None => None
            end
      end
  end.

(** [dict[k] = v]: a repeated key keeps its place and takes the new value. *)
Fixpoint dict_set (k : string) (v : json) (d : list (string * json))
  : list (string * json) :=
  match d with
  | [] => [(k, v)]
  | (k', v') :: d' =>
      if String.eqb k k' then (k, v) :: d' else (k', v') :: dict_set k v d'
  end.

(** The elements of an array after the first has been found to be present:
    values separated by commas, closed by a bracket. *)
Fixpoint scan_items (value : string -> option (json * string)) (fuel : nat)
  (s : string) : option (list json * string) :=
  match fuel with
  | O => None
  | S fuel' =>
      match value s with
      | None => None
      | Some (v, r) =>
          match skip_ws r with
          | String "," r' =>
              match scan_items value fuel' (skip_ws r') with
              | Some (vs, rest) => Some (v :: vs, rest)
              | None => None
              end
          | String "]" r' => Some ([v], r')
          | _ => None
          end
      end
  end.

(** The members of an object, [s] standing at the quote that opens a key:
    key, colon, value, separated by commas, closed by a brace. *)
Fixpoint scan_members (value : string -> option (json * string)) (fuel : nat)
  (s : string) (acc : list (string * json)) : option (list (string * json) * string) :=
  match fuel with
  | O => None
  | S fuel' =>
      match s with
      | String q s1 =>
          if (nat_of_ascii q =? 34)%nat then
            match scan_string (S (String.length s1)) s1 with
            | None => None
            | Some (k, s2) =>
                match skip_ws s2 with
                | String ":" s3 =>
                    match value (skip_ws s3) with
                    | None => None
                    | Some (v, s4) =>
                        let acc' := dict_set k v acc in
                        match skip_ws s4 with
                        | String "," s5 => scan_members value fuel' (skip_ws s5) acc'
                        | String "}" s5 => Some (acc', s5)
                        | _ => None
                        end
                    end
                | _ => None
                end
            end
          else None
      | EmptyString => None
      end
  end.

Definition scan_literal (lit : string) (v : json) (s : string) : option (json * string) :=
  if String.prefix lit s then Some (v, Py.drop (String.length lit) s) else None.

(** One value at the head of [s]. *)
Fixpoint scan_value (fuel : nat) (s : string) : option (json * string) :=
  match fuel with
  | O => None
  | S fuel' =>
      match s with
      | EmptyString => None
      | String c s' =>
          if (nat_of_ascii c =? 34)%nat then
            match scan_string (S (String.length s')) s' with
            | Some (str, r) => Some (JString str, r)
            | None => None
            end
          else if Ascii.eqb c "{" then
            match skip_ws s' with
            | String "}" r => Some (JObject [], r)
            | s1 =>
                match scan_members (scan_value fuel') (S (String.length s1)) s1 [] with
                | Some (kvs, r) => Some (JObject kvs, r)
                | None => None
                end
            end
          else if Ascii.eqb c "[" then
            match skip_ws s' with
            | String "]" r => Some (JArray [], r)
            | s1 =>
                match scan_items (scan_value fuel') (S (String.length s1)) s1 with
                | Some (vs, r) => Some (JArray vs, r)
                | None => None
                end
            end
          else if Ascii.eqb c "n" then scan_literal "null" JNull s
          else if Ascii.eqb c "t" then scan_literal "true" (JBool true) s
          else if Ascii.eqb c "f" then scan_literal "false" (JBool false) s
          else
            match scan_number s with
            | Some (lexeme, r) => Some (JNumber lexeme, r)
            | None =>
                if Ascii.eqb c "N" then scan_literal "NaN" (JNumber "NaN") s
                else if Ascii.eqb c "I" then scan_literal "Infinity" (JNumber "Infinity") s
                else if Ascii.eqb c "-" then scan_literal "-Infinity" (JNumber "-Infinity") s
                else None
            end
      end
  end.

(** [json.loads(s)]: one value, surrounded by optional white space and
    nothing else. *)
Definition loads (s : string) : outcome json :=
  match scan_value (S (String.length s)) (skip_ws s) with
  | Some (v, r) =>
      match skip_ws r with
      | EmptyString => Ok v
      | _ => Raised "Extra data"
      end
  | None => Raised "Expecting value"
  end.

End Json.

(** ** Operations of Python on dynamically typed values *)

Definition contains_char (c : ascii) (s : string) : bool :=
  match String.index 0 (String c EmptyString) s with Some _ => true | None => false end.

(** [type(v).__name__]: a number with a fraction or an exponent, and the
    three special lexemes, are floats. *)
Definition type_name (v : json) : string :=
  match v with
  | JNull => "NoneType"
  | JBool _ => "bool"
  | JNumber lexeme =>
      if contains_char "." lexeme || contains_char "e" lexeme || contains_char "E" lexeme
         || contains_char "N" lexeme || contains_char "I" lexeme
      then "float" else "int"
  | JString _ => "str"
  | JArray _ => "list"
  | JObject _ => "dict"
  end.

Fixpoint assoc (k : string) (d : list (string * json)) : option json :=
  match d with
  | [] => None
  | (k', v) :: d' => if String.eqb k k' then Some v else assoc k d'
  end.

(** [v.get(k, default)]: only a dict has the method. *)
Definition py_get (v : json) (k : string) (default : json) : outcome json :=
  match v with
  | JObject d => Ok (match assoc k d with Some x => x | None => default end)
  | _ => Raised ("'" +:+ type_name v +:+ "' object has no attribute 'get'")
  end.

(** The digits of the mantissa of a number are all zero. *)
Fixpoint zero_mantissa (lexeme : string) : bool :=
  match lexeme with
  | EmptyString => true
  | String c r =>
      if Ascii.eqb c "e" || Ascii.eqb c "E" then true
      else if Ascii.eqb c "-" || Ascii.eqb c "." || Ascii.eqb c "0" then zero_mantissa r
      else false
  end.

(** [bool(v)].  A number is zero when the digits of its mantissa are; a
    lexeme that [json.loads] rounds to [0.0] for its exponent alone (such as
    [1e-400]) is taken as a number that is not zero. *)
Definition truthy (v : json) : bool :=
  match v with
  | JNull => false
  | JBool b => b
  | JNumber lexeme => negb (zero_mantissa lexeme)
  | JString s => negb (String.eqb s "")
  | JArray l => match l with [] => false | _ => true end
  | JObject d => match d with [] => false | _ => true end
  end.

(** [a or b] *)
Definition py_or (a b : json) : json := if truthy a then a else b.

(** [bool(o)] and [o or d] for an [Optional[str]] *)
Definition truthy_str (o : option string) : bool :=
  match o with
  | Some s => negb (String.eqb s "")
  | None => false
  end.

Definition or_str (o : option string) (d : string) : string :=
  match o with
  | Some s => if String.eqb s "" then d else s
  | None => d
  end.

(** [len(v)]; of a string, the number of its [ascii]s. *)
Definition py_len (v : json) : outcome nat :=
  match v with
  | JString s => Ok (String.length s)
  | JArray l => Ok (List.length l)
  | JObject d => Ok (List.length d)
  | _ => Raised ("object of type '" +:+ type_name v +:+ "' has no len()")
  end.

Definition chars (s : string) : list json :=
  List.map (fun c => JString (String c EmptyString)) (list_ascii_of_string s).

(** [iter(v)]: the elements of a list, the characters of a string, the keys
    of a dict; nothing else can be iterated. *)
Definition py_iter (v : json) : option (list json) :=
  match v with
  | JArray l => Some l
  | JString s => Some (chars s)
  | JObject d => Some (List.map (fun kv => JString (fst kv)) d)
  | _ => None
  end.

Fixpoint join_items (sep : string) (i : nat) (l : list json) : outcome string :=
  match l with
  | [] => Ok EmptyString
  | x :: l' =>
      match x with
      | JString s =>
          match l' with
          | [] => Ok s
          | _ => bind_outcome (join_items sep (S i) l') (fun r => Ok (s +:+ sep +:+ r))
          end
      | _ => Raised ("sequence item " +:+ pretty i +:+ ": expected str instance, "
                     +:+ type_name x +:+ " found")
      end
  end.

(** [sep.join(v)] *)
Definition py_join (sep : string) (v : json) : outcome string :=
  match py_iter v with
  | Some l => join_items sep 0 l
  | None => Raised "can only join an iterable"
  end.

(** [v.extend(y)], returning the extended list: only a list has the method,
    and [y] must be iterable. *)
Definition py_extend (v y : json) : outcome json :=
  match v with
  | JArray l =>
      match py_iter y with
      | Some l' => Ok (JArray (l ++ l'))
      | None => Raised ("'" +:+ type_name y +:+ "' object is not iterable")
      end
  | _ => Raised ("'" +:+ type_name v +:+ "' object has no attribute 'extend'")
  end.

(** The first element of a list that cannot be hashed. *)
Fixpoint first_unhashable (l : list json) : option json :=
  match l with
  | [] => None
  | (JArray _ as x) :: _ | (JObject _ as x) :: _ => Some x
  | _ :: l' => first_unhashable l'
  end.

(** [list(set(v))]; which elements count as equal and the order in which a
    set is listed are those of the interpreter, the oracle [set_order]. *)
Definition py_list_set (set_order : list json -> list json) (v : json) : outcome json :=
  match py_iter v with
  | Some l =>
      match first_unhashable l with
      | Some x => Raised ("unhashable type: '" +:+ type_name x +:+ "'")
      | None => Ok (JArray (set_order l))
      end
  | None => Raised ("'" +:+ type_name v +:+ "' object is not iterable")
  end.

(** ** The output parsers ([nodes.py], lines 24-88) *)

Section Parsers.

(** [json.loads] *)
Variable json_loads : string -> outcome json.

Definition SummaryOutputParser_default (text : string) : json :=
  JObject [("summary", JString text);
           ("title", JString "Video Summary");
           ("tone", JString "professional");
           ("key_points", JArray []);
           ("tags", JArray [])].

(** The body of the [try] of [SummaryOutputParser.parse]. *)
Definition SummaryOutputParser_try (text : string) : outcome json :=
  if Py.contains "```json" text then
    let json_start := Py.find "```json" text + 7 in
    let json_end := Py.find_from "```" text (Z.to_nat json_start) in
    let json_str := Py.strip (Py.slice text json_start json_end) in
    json_loads json_str
  else if Py.contains "{" text && Py.contains "}" text then
    let start := Py.find "{" text in
    let end_ := Py.rfind "}" text + 1 in
    let json_str := Py.slice text start end_ in
    json_loads json_str
  else
    Ok (SummaryOutputParser_default text).

(** [SummaryOutputParser.parse] *)
Definition SummaryOutputParser_parse (text : string) : outcome json :=
  try_except (SummaryOutputParser_try text)
    (fun _ => Ok (SummaryOutputParser_default text)).

Definition ClassificationOutputParser_default : json :=
  JObject [("topic", JString "General");
           ("category", JString "Education");
           ("confidence", JNumber "0.5");
           ("subcategories", JArray []);
           ("tags", JArray [])].

(** The body of the [try] of [ClassificationOutputParser.parse]. *)
Definition ClassificationOutputParser_try (text : string) : outcome json :=
  if Py.contains "```json" text then
    let json_start := Py.find "```json" text + 7 in
    let json_end := Py.find_from "```" text (Z.to_nat json_start) in
    let json_str := Py.strip (Py.slice text json_start json_end) in
    json_loads json_str
  else if Py.contains "{" text && Py.contains "}" text then
    let start := Py.find "{" text in
    let end_ := Py.rfind "}" text + 1 in
    let json_str := Py.slice text start end_ in
    json_loads json_str
  else
    Ok ClassificationOutputParser_default.

(** [ClassificationOutputParser.parse] *)
Definition ClassificationOutputParser_parse (text : string) : outcome json :=
  try_except (ClassificationOutputParser_try text)
    (fun _ => Ok ClassificationOutputParser_default).

End Parsers.

(** ** The run state ([types.py]) *)

(** [WorkflowState].  The model does not validate assignments, so a field a
    step writes holds whatever the step wrote; the fields the steps fill from
    a parsed response are therefore [json].  Times are clock readings. *)
Record WorkflowState : Type := {
  (* Input data *)
  youtube_url : option string;
  video_id : option string;
  transcript : option string;
  user_id : option string;
  (* Processing results *)
  summary : json;
  title : json;
  tone : json;
  key_points : json;
  tags : json;
  (* Classification results *)
  topic : json;
  category : json;
  confidence : json;
  subcategories : json;
  (* Storage results *)
  pinecone_id : option string;
  neo4j_id : option string;
  (* Metadata *)
  created_at : option Z;
  processing_time : option Z;
  token_count : option nat;
  (* Error handling *)
  error : option string;
  error_step : option string
}.

(** Field assignments, [state.f = v]. *)
Definition set_summary (v : json) (s : WorkflowState) : WorkflowState :=
  {| youtube_url := youtube_url s; video_id := video_id s;
     transcript := transcript s; user_id := user_id s; summary := v;
     title := title s; tone := tone s; key_points := key_points s; tags := tags s;
     topic := topic s; category := category s; confidence := confidence s;
     subcategories := subcategories s; pinecone_id := pinecone_id s;
     neo4j_id := neo4j_id s; created_at := created_at s;
     processing_time := processing_time s; token_count := token_count s;
     error := error s; error_step := error_step s |}.

Definition set_title (v : json) (s : WorkflowState) : WorkflowState :=
  {| youtube_url := youtube_url s; video_id := video_id s;
     transcript := transcript s; user_id := user_id s; summary := summary s;
     title := v; tone := tone s; key_points := key_points s; tags := tags s;
     topic := topic s; category := category s; confidence := confidence s;
     subcategories := subcategories s; pinecone_id := pinecone_id s;
     neo4j_id := neo4j_id s; created_at := created_at s;
     processing_time := processing_time s; token_count := token_count s;
     error := error s; error_step := error_step s |}.

Definition set_tone (v : json) (s : WorkflowState) : WorkflowState :=
  {| youtube_url := youtube_url s; video_id := video_id s;
     transcript := transcript s; user_id := user_id s; summary := summary s;
     title := title s; tone := v; key_points := key_points s; tags := tags s;
     topic := topic s; category := category s; confidence := confidence s;
     subcategories := subcategories s; pinecone_id := pinecone_id s;
     neo4j_id := neo4j_id s; created_at := created_at s;
     processing_time := processing_time s; token_count := token_count s;
     error := error s; error_step := error_step s |}.

Definition set_key_points (v : json) (s : WorkflowState) : WorkflowState :=
  {| youtube_url := youtube_url s; video_id := video_id s;
     transcript := transcript s; user_id := user_id s; summary := summary s;
     title := title s; tone := tone s; key_points := v; tags := tags s;
     topic := topic s; category := category s; confidence := confidence s;
     subcategories := subcategories s; pinecone_id := pinecone_id s;
     neo4j_id := neo4j_id s; created_at := created_at s;
     processing_time := processing_time s; token_count := token_count s;
     error := error s; error_step := error_step s |}.

Definition set_tags (v : json) (s : WorkflowState) : WorkflowState :=
  {| youtube_url := youtube_url s; video_id := video_id s;
     transcript := transcript s; user_id := user_id s; summary := summary s;
     title := title s; tone := tone s; key_points := key_points s; tags := v;
     topic := topic s; category := category s; confidence := confidence s;
     subcategories := subcategories s; pinecone_id := pinecone_id s;
     neo4j_id := neo4j_id s; created_at := created_at s;
     processing_time := processing_time s; token_count := token_count s;
     error := error s; error_step := error_step s |}.

Definition set_topic (v : json) (s : WorkflowState) : WorkflowState :=
  {| youtube_url := youtube_url s; video_id := video_id s;
     transcript := transcript s; user_id := user_id s; summary := summary s;
     title := title s; tone := tone s; key_points := key_points s; tags := tags s;
     topic := v; category := category s; confidence := confidence s;
     subcategories := subcategories s; pinecone_id := pinecone_id s;
     neo4j_id := neo4j_id s; created_at := created_at s;
     processing_time := processing_time s; token_count := token_count s;
     error := error s; error_step := error_step s |}.

Definition set_category (v : json) (s : WorkflowState) : WorkflowState :=
  {| youtube_url := youtube_url s; video_id := video_id s;
     transcript := transcript s; user_id := user_id s; summary := summary s;
     title := title s; tone := tone s; key_points := key_points s; tags := tags s;
     topic := topic s; category := v; confidence := confidence s;
     subcategories := subcategories s; pinecone_id := pinecone_id s;
     neo4j_id := neo4j_id s; created_at := created_at s;
     processing_time := processing_time s; token_count := token_count s;
     error := error s; error_step := error_step s |}.

Definition set_confidence (v : json) (s : WorkflowState) : WorkflowState :=
  {| youtube_url := youtube_url s; video_id := video_id s;
     transcript := transcript s; user_id := user_id s; summary := summary s;
     title := title s; tone := tone s; key_points := key_points s; tags := tags s;
     topic := topic s; category := category s; confidence := v;
     subcategories := subcategories s; pinecone_id := pinecone_id s;
     neo4j_id := neo4j_id s; created_at := created_at s;
     processing_time := processing_time s; token_count := token_count s;
     error := error s; error_step := error_step s |}.

Definition set_subcategories (v : json) (s : WorkflowState) : WorkflowState :=
  {| youtube_url := youtube_url s; video_id := video_id s;
     transcript := transcript s; user_id := user_id s; summary := summary s;
     title := title s; tone := tone s; key_points := key_points s; tags := tags s;
     topic := topic s; category := category s; confidence := confidence s;
     subcategories := v; pinecone_id := pinecone_id s; neo4j_id := neo4j_id s;
     created_at := created_at s; processing_time := processing_time s;
     token_count := token_count s; error := error s; error_step := error_step s |}.

Definition set_pinecone_id (v : option string) (s : WorkflowState) : WorkflowState :=
  {| youtube_url := youtube_url s; video_id := video_id s;
     transcript := transcript s; user_id := user_id s; summary := summary s;
     title := title s; tone := tone s; key_points := key_points s; tags := tags s;
     topic := topic s; category := category s; confidence := confidence s;
     subcategories := subcategories s; pinecone_id := v; neo4j_id := neo4j_id s;
     created_at := created_at s; processing_time := processing_time s;
     token_count := token_count s; error := error s; error_step := error_step s |}.

Definition set_neo4j_id (v : option string) (s : WorkflowState) : WorkflowState :=
  {| youtube_url := youtube_url s; video_id := video_id s;
     transcript := transcript s; user_id := user_id s; summary := summary s;
     title := title s; tone := tone s; key_points := key_points s; tags := tags s;
     topic := topic s; category := category s; confidence := confidence s;
     subcategories := subcategories s; pinecone_id := pinecone_id s; neo4j_id := v;
     created_at := created_at s; processing_time := processing_time s;
     token_count := token_count s; error := error s; error_step := error_step s |}.

Definition set_created_at (v : option Z) (s : WorkflowState) : WorkflowState :=
  {| youtube_url := youtube_url s; video_id := video_id s;
     transcript := transcript s; user_id := user_id s; summary := summary s;
     title := title s; tone := tone s; key_points := key_points s; tags := tags s;
     topic := topic s; category := category s; confidence := confidence s;
     subcategories := subcategories s; pinecone_id := pinecone_id s;
     neo4j_id := neo4j_id s; created_at := v; processing_time := processing_time s;
     token_count := token_count s; error := error s; error_step := error_step s |}.

Definition set_processing_time (v : option Z) (s : WorkflowState) : WorkflowState :=
  {| youtube_url := youtube_url s; video_id := video_id s;
     transcript := transcript s; user_id := user_id s; summary := summary s;
     title := title s; tone := tone s; key_points := key_points s; tags := tags s;
     topic := topic s; category := category s; confidence := confidence s;
     subcategories := subcategories s; pinecone_id := pinecone_id s;
     neo4j_id := neo4j_id s; created_at := created_at s; processing_time := v;
     token_count := token_count s; error := error s; error_step := error_step s |}.

Definition set_token_count (v : option nat) (s : WorkflowState) : WorkflowState :=
  {| youtube_url := youtube_url s; video_id := video_id s;
     transcript := transcript s; user_id := user_id s; summary := summary s;
     title := title s; tone := tone s; key_points := key_points s; tags := tags s;
     topic := topic s; category := category s; confidence := confidence s;
     subcategories := subcategories s; pinecone_id := pinecone_id s;
     neo4j_id := neo4j_id s; created_at := created_at s;
     processing_time := processing_time s; token_count := v; error := error s;
     error_step := error_step s |}.

Definition set_error (v : option string) (s : WorkflowState) : WorkflowState :=
  {| youtube_url := youtube_url s; video_id := video_id s;
     transcript := transcript s; user_id := user_id s; summary := summary s;
     title := title s; tone := tone s; key_points := key_points s; tags := tags s;
     topic := topic s; category := category s; confidence := confidence s;
     subcategories := subcategories s; pinecone_id := pinecone_id s;
     neo4j_id := neo4j_id s; created_at := created_at s;
     processing_time := processing_time s; token_count := token_count s; error := v;
     error_step := error_step s |}.

Definition set_error_step (v : option string) (s : WorkflowState) : WorkflowState :=
  {| youtube_url := youtube_url s; video_id := video_id s;
     transcript := transcript s; user_id := user_id s; summary := summary s;
     title := title s; tone := tone s; key_points := key_points s; tags := tags s;
     topic := topic s; category := category s; confidence := confidence s;
     subcategories := subcategories s; pinecone_id := pinecone_id s;
     neo4j_id := neo4j_id s; created_at := created_at s;
     processing_time := processing_time s; token_count := token_count s;
     error := error s; error_step := v |}.

(** ** The graph database ([neo4j_service.py])

    The store is a property graph: nodes with a label and properties,
    relationships with a type.  Of Cypher the model has what the query of
    [store_summary] uses: [MERGE] binds the node (or relationship) matching
    the pattern and creates it only when there is none, [CREATE] always
    creates, [SET] overwrites properties, and [UNWIND] turns each incoming row
    into one row per element of the list (none for an empty list).  A query
    is modelled as one that completes, on a graph in which a [MERGE] has at
    most one node or relationship to bind. *)

Fixpoint json_eqb (a b : json) : bool :=
  match a, b with
  | JNull, JNull => true
  | JBool x, JBool y => Bool.eqb x y
  | JNumber x, JNumber y => String.eqb x y
  | JString x, JString y => String.eqb x y
  | JArray xs, JArray ys =>
      (fix items (xs ys : list json) : bool :=
         match xs, ys with
         | [], [] => true
         | x :: xs', y :: ys' => json_eqb x y && items xs' ys'
         | _, _ => false
         end) xs ys
  | JObject xs, JObject ys =>
      (fix members (xs ys : list (string * json)) : bool :=
         match xs, ys with
         | [], [] => true
         | (k, x) :: xs', (k', y) :: ys' =>
             String.eqb k k' && json_eqb x y && members xs' ys'
         | _, _ => false
         end) xs ys
  | _, _ => false
  end.

Record GNode : Type := {
  node_id : nat;
  node_label : string;
  node_props : list (string * json)
}.

Record GRel : Type := {
  rel_type : string;
  rel_from : nat;
  rel_to : nat
}.

Record Graph : Type := {
  g_nodes : list GNode;
  g_rels : list GRel;
  g_next : nat   (* the identity the next created node gets *)
}.

Definition empty_graph : Graph := {| g_nodes := []; g_rels := []; g_next := 0 |}.

Module Cypher.

Definition node_matches (label key : string) (value : json) (n : GNode) : bool :=
  String.eqb (node_label n) label
  && match assoc key (node_props n) with
     | Some x => json_eqb x value
     | None => false
     end.

(** [CREATE (n:label {props})] *)
Definition create_node (label : string) (props : list (string * json)) (g : Graph)
  : nat * Graph :=
  let n := {| node_id := g_next g; node_label := label; node_props := props |} in
  (g_next g, {| g_nodes := g_nodes g ++ [n]; g_rels := g_rels g; g_next := S (g_next g) |}).

(** [MERGE (n:label {key: value})]: binds the first node that matches and
    creates one when none does.  The database yields a row for every node
    that matches and refuses a null [value]; the two agree where at most one
    node matches and the value is not null. *)
Definition merge_node (label key : string) (value : json) (g : Graph) : nat * Graph :=
  match List.find (node_matches label key value) (g_nodes g) with
  | Some n => (node_id n, g)
  | None => create_node label [(key, value)] g
  end.

Definition rel_matches (ty : string) (a b : nat) (r : GRel) : bool :=
  String.eqb (rel_type r) ty && Nat.eqb (rel_from r) a && Nat.eqb (rel_to r) b.

(** [MERGE (a)-[:ty]->(b)] for bound [a] and [b]: creates the relationship
    when there is none.  The database yields a row for every relationship
    that matches; the two agree where at most one does. *)
Definition merge_rel (a : nat) (ty : string) (b : nat) (g : Graph) : Graph :=
  if List.existsb (rel_matches ty a b) (g_rels g) then g
  else {| g_nodes := g_nodes g;
          g_rels := g_rels g ++ [{| rel_type := ty; rel_from := a; rel_to := b |}];
          g_next := g_next g |}.

(** [SET n.key = value] *)
Definition set_prop (id : nat) (key : string) (value : json) (g : Graph) : Graph :=
  {| g_nodes :=
       List.map (fun n =>
                   if Nat.eqb (node_id n) id
                   then {| node_id := node_id n; node_label := node_label n;
                           node_props := Json.dict_set key value (node_props n) |}
                   else n) (g_nodes g);
     g_rels := g_rels g;
     g_next := g_next g |}.

(** [UNWIND value AS x]: the rows one incoming row becomes. *)
Definition unwind (value : json) : list json :=
  match value with
  | JArray l => l
  | JNull => []
  | x => [x]
  end.

End Cypher.

(** The parameters of the query of [store_summary]. *)
Record SummaryParams : Type := {
  p_video_id : string;
  p_user_id : string;
  p_title : json;
  p_summary : json;
  p_topic : json;
  p_category : json;
  p_confidence : json;
  p_subcategories : json;
  p_tags : json;
  p_key_points : json;
  p_tone : json
}.

(** The query of [store_summary] (lines 48-84), run at database time [now]:
    the graph it leaves and the rows it returns. *)
Definition store_summary_query (p : SummaryParams) (now : Z) (g : Graph)
  : Graph * list json :=
  let '(v, g) := Cypher.merge_node "Video" "video_id" (JString (p_video_id p)) g in
  let g := Cypher.set_prop v "title" (p_title p) g in
  let g := Cypher.set_prop v "summary" (p_summary p) g in
  let g := Cypher.set_prop v "tone" (p_tone p) g in
  let g := Cypher.set_prop v "confidence" (p_confidence p) g in
  let g := Cypher.set_prop v "created_at" (JNumber (pretty now)) g in
  let '(u, g) := Cypher.merge_node "User" "user_id" (JString (p_user_id p)) g in
  let '(t, g) := Cypher.merge_node "Topic" "name" (p_topic p) g in
  let '(c, g) := Cypher.merge_node "Category" "name" (p_category p) g in
  let g := Cypher.merge_rel u "CREATED" v g in
  let g := Cypher.merge_rel v "HAS_TOPIC" t g in
  let g := Cypher.merge_rel v "IN_CATEGORY" c g in
  let g := Cypher.merge_rel t "BELONGS_TO" c g in
  (* WITH v, u, t, c  UNWIND $subcategories as subcat *)
  let rows_subcat := Cypher.unwind (p_subcategories p) in
  let g := List.fold_left
             (fun g subcat =>
                let '(sc, g) := Cypher.merge_node "Subcategory" "name" subcat g in
                let g := Cypher.merge_rel v "HAS_SUBCATEGORY" sc g in
                Cypher.merge_rel sc "BELONGS_TO" t g)
             rows_subcat g in
  (* WITH v, u, t, c  UNWIND $tags as tag_name *)
  let rows_tag := List.flat_map (fun _ => Cypher.unwind (p_tags p)) rows_subcat in
  let g := List.fold_left
             (fun g tag_name =>
                let '(tag, g) := Cypher.merge_node "Tag" "name" tag_name g in
                Cypher.merge_rel v "HAS_TAG" tag g)
             rows_tag g in
  (* WITH v, u, t, c  UNWIND $key_points as point *)
  let rows_point := List.flat_map (fun _ => Cypher.unwind (p_key_points p)) rows_tag in
  let g := List.fold_left
             (fun g point =>
                let '(kp, g) := Cypher.create_node "KeyPoint" [("text", point)] g in
                Cypher.merge_rel v "HAS_KEY_POINT" kp g)
             rows_point g in
  (* RETURN v.video_id as video_id *)
  (g, List.map (fun _ => JString (p_video_id p)) rows_point).

(** ** The world outside the run state *)

(** A prompt: the template of the step and the values [prompt.format] puts
    into it. *)
Inductive Prompt : Type :=
| SummaryPrompt (video_id : string) (token_count : nat) (tone : json)
    (max_summary_length : nat) (transcript : string)
| ClassificationPrompt (title summary : json) (key_points : string).

(** The external collaborators.  A collaborator that answers differently from
    call to call takes the number of oracle calls made so far. *)
Record Collaborators : Type := {
  json_loads : string -> outcome json;            (* json.loads *)
  encode : string -> list nat;                    (* tiktoken: encoding.encode *)
  decode : list nat -> string;                    (* tiktoken: encoding.decode *)
  llm : nat -> Prompt -> outcome string;          (* llm.ainvoke(..).content *)
  get_embedding : nat -> json -> outcome (list Z);
  md5_hexdigest : string -> string;               (* hashlib.md5(..).hexdigest() *)
  isoformat : Z -> string;                        (* datetime.isoformat *)
  pinecone_upsert_fault : nat -> option string;   (* index.upsert raises *)
  neo4j_session_fault : nat -> option string;     (* the driver raises *)
  clock : nat -> Z;                               (* time.time, utcnow, datetime() *)
  set_order : list json -> list json              (* the listing of a set *)
}.

(** A vector of the index. *)
Record VectorRecord : Type := {
  vec_values : list Z;
  vec_metadata : list (string * json)
}.

(** Everything a run can change besides its own state. *)
Record World : Type := {
  pinecone_index : gmap string VectorRecord;   (* the vector index, by id *)
  graph_db : Graph;                            (* the graph database *)
  checkpoints : gmap string WorkflowState;     (* the checkpointer's memory *)
  calls : nat                                  (* oracle calls made so far *)
}.

Definition set_pinecone_index (i : gmap string VectorRecord) (w : World) : World :=
  {| pinecone_index := i; graph_db := graph_db w; checkpoints := checkpoints w;
     calls := calls w |}.

Definition set_graph_db (g : Graph) (w : World) : World :=
  {| pinecone_index := pinecone_index w; graph_db := g; checkpoints := checkpoints w;
     calls := calls w |}.

Definition set_checkpoints (m : gmap string WorkflowState) (w : World) : World :=
  {| pinecone_index := pinecone_index w; graph_db := graph_db w; checkpoints := m;
     calls := calls w |}.

Definition tick (w : World) : World :=
  {| pinecone_index := pinecone_index w; graph_db := graph_db w;
     checkpoints := checkpoints w; calls := S (calls w) |}.

(** ** A monad for the body of a step

    The body of a step reads and assigns the fields of the one state object,
    calls collaborators, and may raise; what it assigned before raising stays
    assigned. *)

Definition M (A : Type) : Type :=
  WorkflowState -> World -> outcome A * WorkflowState * World.

Definition ret {A : Type} (a : A) : M A := fun s w => (Ok a, s, w).

Definition bind {A B : Type} (m : M A) (k : A -> M B) : M B :=
  fun s w =>
    match m s w with
    | (Ok a, s', w') => k a s' w'
    | (Raised e, s', w') => (Raised e, s', w')
    end.

Notation "x <~ m ;; k" := (bind m (fun x => k))
  (at level 100, m at level 99, right associativity).
Notation "m ;;; k" := (bind m (fun _ => k))
  (at level 100, right associativity).

(** A pure computation that may raise. *)
Definition lift {A : Type} (o : outcome A) : M A := fun s w => (o, s, w).

(** [state.f] *)
Definition get {A : Type} (f : WorkflowState -> A) : M A := fun s w => (Ok (f s), s, w).

(** [state.f = v] *)
Definition assign (f : WorkflowState -> WorkflowState) : M unit :=
  fun s w => (Ok tt, f s, w).

(** A call of an oracle. *)
Definition ask {A : Type} (f : nat -> A) : M A := fun s w => (Ok (f (calls w)), s, tick w).

Definition get_world {A : Type} (f : World -> A) : M A := fun s w => (Ok (f w), s, w).

Definition put_world (f : World -> World) : M unit := fun s w => (Ok tt, s, f w).

(** ** The vector store ([pinecone_service.py]) *)

Definition dict_get (d : list (string * json)) (k : string) (default : json) : json :=
  match assoc k d with Some x => x | None => default end.

(** [PineconeService._generate_id] *)
Definition PineconeService_generate_id (c : Collaborators) (video_id user_id : string)
  : string :=
  md5_hexdigest c (video_id +:+ "_" +:+ user_id).

(** [PineconeService._create_metadata] *)
Definition PineconeService_create_metadata (c : Collaborators)
  (summary_data : list (string * json)) (user_id video_id : string)
  : M (list (string * json)) :=
  now <~ ask (clock c) ;;
  summary_length <~ lift (py_len (dict_get summary_data "summary" (JString ""))) ;;
  ret [("user_id", JString user_id);
       ("video_id", JString video_id);
       ("video_title", dict_get summary_data "title" (JString ""));
       ("tone", dict_get summary_data "tone" (JString "professional"));
       ("tags", dict_get summary_data "tags" (JArray []));
       ("key_points", dict_get summary_data "key_points" (JArray []));
       ("created_at", JString (isoformat c now));
       ("transcript_length", dict_get summary_data "transcript_length" (JNumber "0"));
       ("summary_length", JNumber (pretty summary_length))].

(** [index.upsert(vectors=[{id, values, metadata}])] *)
Definition index_upsert (c : Collaborators) (id : string) (r : VectorRecord) : M unit :=
  fault <~ ask (pinecone_upsert_fault c) ;;
  match fault with
  | Some e => lift (Raised e)
  | None => put_world (fun w => set_pinecone_index (<[id := r]> (pinecone_index w)) w)
  end.

(** [PineconeService.store_summary] *)
Definition PineconeService_store_summary (c : Collaborators)
  (summary_data : list (string * json)) (user_id video_id : string)
  (embedding : list Z) : M string :=
  let vector_id := PineconeService_generate_id c video_id user_id in
  metadata <~ PineconeService_create_metadata c summary_data user_id video_id ;;
  index_upsert c vector_id {| vec_values := embedding; vec_metadata := metadata |} ;;;
  ret vector_id.

(** ** The graph store ([neo4j_service.py]) *)

(** [Neo4jService.store_summary]: the session runs the query, or the driver
    raises and the graph is left as it was; [result.single()] is the first
    returned row, if any. *)
Definition Neo4jService_store_summary (c : Collaborators) (p : SummaryParams)
  : M string :=
  fault <~ ask (neo4j_session_fault c) ;;
  match fault with
  | Some e => lift (Raised e)
  | None =>
      now <~ ask (clock c) ;;
      g <~ get_world graph_db ;;
      let '(g', rows) := store_summary_query p now g in
      put_world (set_graph_db g') ;;;
      let record := List.head rows in
      ret (match record with
           | Some (JString video_id) => video_id
           | _ => p_video_id p
           end)
  end.

(** ** The steps ([nodes.py]) *)

(** A step as the graph sees it: it takes the state and returns it. *)
Definition Node : Type := WorkflowState -> World -> WorkflowState * World.

(** [count_tokens].  The tokenizer is taken to return: [encode] and [decode]
    are total. *)
Definition count_tokens (c : Collaborators) (text : string) : nat :=
  List.length (encode c text).

(** [truncate_text] *)
Definition truncate_text (c : Collaborators) (text : string) (max_tokens : nat)
  : string :=
  let tokens := count_tokens c text in
  if (tokens <=? max_tokens)%nat then text
  else
    let encoded := encode c text in
    let truncated := List.firstn max_tokens encoded in
    decode c truncated.

(** The two literals of [summarize_node]: the token budget of the transcript
    and the length asked of the summary. *)
Definition token_budget : nat := 4000.
Definition max_length : nat := 500.

(** The body of the [try] of [summarize_node]. *)
Definition summarize_try (c : Collaborators) (start_time : Z) : M unit :=
  transcript_ <~ get transcript ;;
  let truncated_transcript := truncate_text c (or_str transcript_ "") token_budget in
  let token_count_ := count_tokens c truncated_transcript in
  video_id_ <~ get video_id ;;
  tone_ <~ get tone ;;
  response <~ ask (fun n => llm c n (SummaryPrompt (or_str video_id_ "unknown")
                                      token_count_
                                      (py_or tone_ (JString "professional"))
                                      max_length
                                      truncated_transcript)) ;;
  content <~ lift response ;;
  result <~ lift (SummaryOutputParser_parse (json_loads c) content) ;;
  v <~ lift (py_get result "summary" (JString "")) ;;
  assign (set_summary v) ;;;
  v <~ lift (py_get result "title" (JString "Video Summary")) ;;
  assign (set_title v) ;;;
  v <~ lift (py_get result "tone" (JString "professional")) ;;
  assign (set_tone v) ;;;
  v <~ lift (py_get result "key_points" (JArray [])) ;;
  assign (set_key_points v) ;;;
  v <~ lift (py_get result "tags" (JArray [])) ;;
  assign (set_tags v) ;;;
  assign (set_token_count (Some token_count_)) ;;;
  now <~ ask (clock c) ;;
  assign (set_processing_time (Some (now - start_time))).

(** [try: body except Exception as e: state.error = str(e);
    state.error_step = step], then [return state]. *)
Definition guarded (step : string) (body : M unit) : Node :=
  fun state w =>
    match body state w with
    | (Ok _, state', w') => (state', w')
    | (Raised e, state', w') =>
        (set_error_step (Some step) (set_error (Some e) state'), w')
    end.

(** [summarize_node] *)
Definition summarize_node (c : Collaborators) : Node :=
  fun state w =>
    let start_time := clock c (calls w) in
    guarded "summarize" (summarize_try c start_time) state (tick w).

(** The body of the [try] of [classify_node]. *)
Definition classify_try (c : Collaborators) : M unit :=
  title_ <~ get title ;;
  summary_ <~ get summary ;;
  key_points_ <~ get key_points ;;
  joined <~ lift (py_join ", " key_points_) ;;
  response <~ ask (fun n => llm c n (ClassificationPrompt
                                      (py_or title_ (JString "Unknown Video"))
                                      (py_or summary_ (JString ""))
                                      joined)) ;;
  content <~ lift response ;;
  result <~ lift (ClassificationOutputParser_parse (json_loads c) content) ;;
  v <~ lift (py_get result "topic" (JString "General")) ;;
  assign (set_topic v) ;;;
  v <~ lift (py_get result "category" (JString "Education")) ;;
  assign (set_category v) ;;;
  v <~ lift (py_get result "confidence" (JNumber "0.5")) ;;
  assign (set_confidence v) ;;;
  v <~ lift (py_get result "subcategories" (JArray [])) ;;
  assign (set_subcategories v) ;;;
  tags_ <~ get tags ;;
  new_tags <~ lift (py_get result "tags" (JArray [])) ;;
  extended <~ lift (py_extend tags_ new_tags) ;;
  assign (set_tags extended) ;;;
  (* Remove duplicates *)
  unique <~ lift (py_list_set (set_order c) extended) ;;
  assign (set_tags unique).

(** [classify_node] *)
Definition classify_node (c : Collaborators) : Node :=
  fun state w =>
    let start_time := clock c (calls w) in
    guarded "classify" (classify_try c) state (tick w).

(** The body of the [try] of [pinecone_store_node]. *)
Definition pinecone_store_try (c : Collaborators) : M unit :=
  summary_ <~ get summary ;;
  response <~ ask (fun n => get_embedding c n (py_or summary_ (JString ""))) ;;
  summary_embedding <~ lift response ;;
  state <~ get id ;;
  transcript_length <~ lift (py_len (JString (or_str (transcript state) ""))) ;;
  summary_length <~ lift (py_len (py_or (summary state) (JString ""))) ;;
  let summary_data :=
    [("summary", summary state);
     ("title", title state);
     ("tone", tone state);
     ("key_points", key_points state);
     ("tags", tags state);
     ("topic", topic state);
     ("category", category state);
     ("confidence", confidence state);
     ("subcategories", subcategories state);
     ("transcript_length", JNumber (pretty transcript_length));
     ("summary_length", JNumber (pretty summary_length))] in
  vector_id <~ PineconeService_store_summary c summary_data
                 (or_str (user_id state) "anonymous")
                 (or_str (video_id state) "unknown")
                 summary_embedding ;;
  assign (set_pinecone_id (Some vector_id)).

(** [pinecone_store_node] *)
Definition pinecone_store_node (c : Collaborators) : Node :=
  fun state w =>
    let start_time := clock c (calls w) in
    guarded "pinecone_store" (pinecone_store_try c) state (tick w).

(** The body of the [try] of [neo4j_store_node]. *)
Definition neo4j_store_try (c : Collaborators) : M unit :=
  state <~ get id ;;
  graph_id <~ Neo4jService_store_summary c
                {| p_video_id := or_str (video_id state) "unknown";
                   p_user_id := or_str (user_id state) "anonymous";
                   p_title := py_or (title state) (JString "Unknown Video");
                   p_summary := py_or (summary state) (JString "");
                   p_topic := py_or (topic state) (JString "General");
                   p_category := py_or (category state) (JString "Education");
                   p_confidence := py_or (confidence state) (JNumber "0.5");
                   p_subcategories := subcategories state;
                   p_tags := tags state;
                   p_key_points := key_points state;
                   p_tone := py_or (tone state) (JString "professional") |} ;;
  assign (set_neo4j_id (Some graph_id)).

(** [neo4j_store_node] *)
Definition neo4j_store_node (c : Collaborators) : Node :=
  fun state w =>
    let start_time := clock c (calls w) in
    guarded "neo4j_store" (neo4j_store_try c) state (tick w).

(** A step as the graph holds it: a function of the state that returns or
    raises. *)
Definition Step : Type := M unit.

(** A node whose body is all inside its [try] always returns. *)
Definition returning (node : Node) : Step :=
  fun state w => let '(state', w') := node state w in (Ok tt, state', w').

(** [finalize_node].  The step has no [try].  It sets the creation
    timestamp and then logs; of its log lines, the one of a state without
    error takes [len(state.summary or '')], which raises for a summary that
    has no length.  The timestamp is assigned by then. *)
Definition finalize_node (c : Collaborators) : Step :=
  now <~ ask (clock c) ;;
  assign (set_created_at (Some now)) ;;;
  error_ <~ get error ;;
  if truthy_str error_ then ret tt
  else
    summary_ <~ get summary ;;
    summary_length <~ lift (py_len (py_or summary_ (JString ""))) ;;
    ret tt.

(** ** The workflow graph ([workflow.py]) *)

Definition END : string := "__end__".

(** What [create_workflow] builds: named steps, an entry point, edges, and
    conditional edges (a step and the function choosing its successor). *)
Record StateGraph : Type := {
  sg_nodes : list (string * Step);
  sg_entry_point : option string;
  sg_edges : list (string * string);
  sg_conditional_edges : list (string * (WorkflowState -> string));
  sg_checkpointer : bool      (* whether a [MemorySaver] has been set *)
}.

Definition new_StateGraph : StateGraph :=
  {| sg_nodes := []; sg_entry_point := None; sg_edges := [];
     sg_conditional_edges := []; sg_checkpointer := false |}.

Definition add_node (name : string) (node : Step) (g : StateGraph) : StateGraph :=
  {| sg_nodes := sg_nodes g ++ [(name, node)]; sg_entry_point := sg_entry_point g;
     sg_edges := sg_edges g; sg_conditional_edges := sg_conditional_edges g;
     sg_checkpointer := sg_checkpointer g |}.

Definition set_entry_point (name : string) (g : StateGraph) : StateGraph :=
  {| sg_nodes := sg_nodes g; sg_entry_point := Some name;
     sg_edges := sg_edges g; sg_conditional_edges := sg_conditional_edges g;
     sg_checkpointer := sg_checkpointer g |}.

Definition add_edge (start_key end_key : string) (g : StateGraph) : StateGraph :=
  {| sg_nodes := sg_nodes g; sg_entry_point := sg_entry_point g;
     sg_edges := sg_edges g ++ [(start_key, end_key)];
     sg_conditional_edges := sg_conditional_edges g;
     sg_checkpointer := sg_checkpointer g |}.

Definition add_conditional_edges (start_key : string)
  (condition : WorkflowState -> string) (g : StateGraph) : StateGraph :=
  {| sg_nodes := sg_nodes g; sg_entry_point := sg_entry_point g;
     sg_edges := sg_edges g;
     sg_conditional_edges := sg_conditional_edges g ++ [(start_key, condition)];
     sg_checkpointer := sg_checkpointer g |}.

Definition set_checkpointer (g : StateGraph) : StateGraph :=
  {| sg_nodes := sg_nodes g; sg_entry_point := sg_entry_point g;
     sg_edges := sg_edges g; sg_conditional_edges := sg_conditional_edges g;
     sg_checkpointer := true |}.

(** [lambda state: next_step if not state.error else END] *)
Definition unless_error (next_step : string) : WorkflowState -> string :=
  fun state => if negb (truthy_str (error state)) then next_step else END.

(** [create_workflow] *)
Definition create_workflow (c : Collaborators) : StateGraph :=
  let workflow := new_StateGraph in
  (* Add nodes *)
  let workflow := add_node "summarize" (returning (summarize_node c)) workflow in
  let workflow := add_node "classify" (returning (classify_node c)) workflow in
  let workflow := add_node "pinecone_store" (returning (pinecone_store_node c)) workflow in
  let workflow := add_node "neo4j_store" (returning (neo4j_store_node c)) workflow in
  let workflow := add_node "finalize" (finalize_node c) workflow in
  (* Define the workflow edges *)
  let workflow := set_entry_point "summarize" workflow in
  let workflow := add_edge "summarize" "classify" workflow in
  let workflow := add_edge "classify" "pinecone_store" workflow in
  let workflow := add_edge "pinecone_store" "neo4j_store" workflow in
  let workflow := add_edge "neo4j_store" "finalize" workflow in
  let workflow := add_edge "finalize" END workflow in
  (* Add conditional edges for error handling *)
  let workflow := add_conditional_edges "summarize" (unless_error "classify") workflow in
  let workflow := add_conditional_edges "classify" (unless_error "pinecone_store") workflow in
  let workflow := add_conditional_edges "pinecone_store" (unless_error "neo4j_store") workflow in
  let workflow := add_conditional_edges "neo4j_store" (unless_error "finalize") workflow in
  workflow.

(** [create_workflow_with_memory] *)
Definition create_workflow_with_memory (c : Collaborators) : StateGraph :=
  let workflow := create_workflow c in
  set_checkpointer workflow.

(** The global [workflow_graph]. *)
Definition workflow_graph (c : Collaborators) : StateGraph :=
  create_workflow_with_memory c.

Fixpoint lookup_name {A : Type} (name : string) (l : list (string * A)) : option A :=
  match l with
  | [] => None
  | (k, a) :: l' => if String.eqb name k then Some a else lookup_name name l'
  end.

(** The steps a run invoked, in order, each with the state it was left
    with. *)
Definition History : Type := list (string * WorkflowState).

(** Modelled from the spec: the Pipeline Definition of a graph, "the fixed
    ordered list of steps forming the run".  It is read off the graph that
    [create_workflow] builds: the steps from the entry point along the
    edges, up to [END]; [fuel] bounds the walk by the number of steps. *)
Fixpoint steps_from (g : StateGraph) (fuel : nat) (name : string)
  : list (string * Step) :=
  if String.eqb name END then []
  else
    match fuel with
    | O => []
    | S fuel' =>
        match lookup_name name (sg_nodes g) with
        | None => []
        | Some step =>
            (name, step)
              :: match lookup_name name (sg_edges g) with
                 | Some end_key => steps_from g fuel' end_key
                 | None => []
                 end
        end
    end.

(** Modelled from the spec: the steps of the run of a graph, from its entry
    point. *)
Definition pipeline_definition (g : StateGraph) : list (string * Step) :=
  match sg_entry_point g with
  | Some name => steps_from g (List.length (sg_nodes g)) name
  | None => []
  end.

(** Modelled from the spec: the run loop of the graph library, which is not
    part of the repository.  "For each step in the fixed order: if
    [state.error] is already set, stop immediately and return the current
    state (this is the conditional edge semantics: it only gates on error
    presence); otherwise invoke the step.  If the step throws, set
    [state.error] and [state.error_step] to the step's name and the failure
    description, then stop at the next iteration boundary."  The error is
    set when it is not empty, which is how the conditional edges of
    [create_workflow] test it ([unless_error]); a step that throws is
    stamped as the steps stamp their own failures ([guarded]).  A step
    assigns the fields of the state it is given, so what it has assigned
    before it throws stays: "the failing step's own partial writes, if any
    occurred before failing, are discarded by convention - each step should
    not write any output field unless it completes fully" is a rule for the
    steps, which the loop does not enforce. *)
Fixpoint run_steps (steps : list (string * Step)) (state : WorkflowState) (w : World)
  : WorkflowState * History * World :=
  match steps with
  | [] => (state, [], w)
  | (name, step) :: rest =>
      if truthy_str (error state) then (state, [], w)
      else
        let '(state', w') := guarded name step state w in
        let '(final, history, w'') := run_steps rest state' w' in
        (final, (name, state') :: history, w'')
  end.

(** Modelled from the spec: [Execute(initial)], one execution of the graph
    on [initial_state]. *)
Definition execute (g : StateGraph) (initial_state : WorkflowState) (w : World)
  : outcome (WorkflowState * History) * World :=
  match sg_entry_point g with
  | None => (Raised "Graph must have an entrypoint", w)
  | Some _ =>
      let '(final, history, w') := run_steps (pipeline_definition g) initial_state w in
      (Ok (final, history), w')
  end.

(** Modelled from the spec: [graph.ainvoke(initial_state, config)], where
    [config] carries the thread id.  The final state of the run is saved to
    the checkpointer under the thread id, overwriting any snapshot there. *)
Definition ainvoke (g : StateGraph) (initial_state : WorkflowState)
  (thread_id : string) (w : World) : outcome WorkflowState * World :=
  match execute g initial_state w with
  | (Ok (final, _), w') =>
      (Ok final,
       if sg_checkpointer g
       then set_checkpoints (<[thread_id := final]> (checkpoints w')) w'
       else w')
  | (Raised e, w') => (Raised e, w')
  end.

(** [WorkflowState(youtube_url=.., video_id=.., transcript=.., user_id=..,
    tone=..)]: every other field takes its default. *)
Definition new_WorkflowState (youtube_url video_id transcript user_id tone : string)
  : WorkflowState :=
  {| youtube_url := Some youtube_url;
     video_id := Some video_id;
     transcript := Some transcript;
     user_id := Some user_id;
     summary := JNull;
     title := JNull;
     tone := JString tone;
     key_points := JArray [];
     tags := JArray [];
     topic := JNull;
     category := JNull;
     confidence := JNull;
     subcategories := JArray [];
     pinecone_id := None;
     neo4j_id := None;
     created_at := None;
     processing_time := None;
     token_count := None;
     error := None;
     error_step := None |}.

Section EntryPoints.

(** [workflow_graph.ainvoke]: the entry points are stated for any behaviour
    of the library call, which works on its own copy of the state. *)
Variable graph_ainvoke :
  WorkflowState -> string -> World -> outcome WorkflowState * World.

(** [run_workflow] *)
Definition run_workflow_on (youtube_url video_id transcript user_id tone : string)
  (w : World) : outcome WorkflowState * World :=
  let initial_state := new_WorkflowState youtube_url video_id transcript user_id tone in
  match graph_ainvoke initial_state ("workflow_" +:+ video_id) w with
  | (Ok result, w') => (Ok result, w')
  | (Raised e, w') =>
      (* Return state with error *)
      let initial_state := set_error (Some e) initial_state in
      let initial_state := set_error_step (Some "workflow") initial_state in
      (Ok initial_state, w')
  end.

(** [run_workflow_with_checkpoint] *)
Definition run_workflow_with_checkpoint_on
  (youtube_url video_id transcript user_id tone : string) (thread_id : option string)
  (w : World) : outcome WorkflowState * World :=
  let thread_id :=
    match thread_id with
    | None => "workflow_" +:+ video_id
    | Some t => t
    end in
  let initial_state := new_WorkflowState youtube_url video_id transcript user_id tone in
  match graph_ainvoke initial_state thread_id w with
  | (Ok result, w') => (Ok result, w')
  | (Raised e, w') =>
      let initial_state := set_error (Some e) initial_state in
      let initial_state := set_error_step (Some "workflow") initial_state in
      (Ok initial_state, w')
  end.

End EntryPoints.

(** The entry points on the global [workflow_graph]. *)
Definition run_workflow (c : Collaborators) :=
  run_workflow_on (ainvoke (workflow_graph c)).


(** ** Status queries ([workflow.py], lines 149-210) *)

Definition opt_json (o : option string) : json :=
  match o with
  | Some s => JString s
  | None => JNull
  end.

(** Whether the checkpointer raises in [get], in [list_keys] and in
    [clear]. *)
Record MemoryFaults : Type := {
  memory_get_fault : string -> option string;
  memory_list_keys_fault : option string;
  memory_clear_fault : string -> option string
}.

(** Modelled from the spec: the checkpointer's [get], "Get(thread_id) ->
    state | not_found", which returns the latest snapshot of a thread or
    nothing for a thread it does not know, and which may fail (a
    CheckpointFailure, a "persistence error while saving/reading a
    snapshot", is "Surfaced to the direct caller of Save/Get").  A snapshot
    is the run state as a structured record. *)
Definition memory_get (f : MemoryFaults) (w : World) (thread_id : string)
  : outcome (option WorkflowState) :=
  match memory_get_fault f thread_id with
  | Some e => Raised e
  | None => Ok (checkpoints w !! thread_id)
  end.

(** Modelled from the spec: the checkpointer's [list_keys], "List() ->
    [thread_id]". *)
Definition memory_list_keys (f : MemoryFaults) (w : World) : outcome (list string) :=
  match memory_list_keys_fault f with
  | Some e => Raised e
  | None => Ok (List.map fst (map_to_list (checkpoints w)))
  end.

(** Modelled from the spec: the checkpointer's [clear], "Clear(thread_id) ->
    bool", which removes the snapshot of a thread. *)
Definition memory_clear (f : MemoryFaults) (w : World) (thread_id : string)
  : outcome World :=
  match memory_clear_fault f thread_id with
  | Some e => Raised e
  | None => Ok (set_checkpoints (delete thread_id (checkpoints w)) w)
  end.

(** [get_workflow_status]; the result is the dict the function returns.  A
    snapshot, having all the fields of the state, is never an empty dict, so
    [if latest_state] asks whether there is one. *)
Definition get_workflow_status (f : MemoryFaults) (w : World) (thread_id : string)
  : gmap string json :=
  match memory_get f w thread_id with
  | Ok (Some latest_state) =>
      list_to_map
        [("thread_id", JString thread_id);
         ("completed", JBool true);
         ("error", opt_json (error latest_state));
         ("error_step", opt_json (error_step latest_state));
         ("video_id", opt_json (video_id latest_state));
         ("summary", summary latest_state);
         ("topic", topic latest_state);
         ("category", category latest_state);
         ("pinecone_id", opt_json (pinecone_id latest_state));
         ("neo4j_id", opt_json (neo4j_id latest_state))]
  | Ok None =>
      list_to_map
        [("thread_id", JString thread_id);
         ("completed", JBool false);
         ("error", JString "Thread not found")]
  | Raised e =>
      list_to_map
        [("thread_id", JString thread_id);
         ("completed", JBool false);
         ("error", JString e)]
  end.

(** [list_workflow_threads] *)
Definition list_workflow_threads (f : MemoryFaults) (w : World)
  : list (gmap string json) :=
  match memory_list_keys f w with
  | Ok threads => List.map (get_workflow_status f w) threads
  | Raised _ => []
  end.

(** [clear_workflow_thread] *)
Definition clear_workflow_thread (f : MemoryFaults) (w : World) (thread_id : string)
  : bool * World :=
  match memory_clear f w thread_id with
  | Ok w' => (true, w')
  | Raised _ => (false, w)
  end.

(** ** Notions used in the statements *)

(** The fields of the run state, to say which ones a step may change. *)
Inductive Field : Type :=
| F_youtube_url | F_video_id | F_transcript | F_user_id
| F_summary | F_title | F_tone | F_key_points | F_tags
| F_topic | F_category | F_confidence | F_subcategories
| F_pinecone_id | F_neo4j_id
| F_created_at | F_processing_time | F_token_count
| F_error | F_error_step.

Definition same_field (f : Field) (s s' : WorkflowState) : Prop :=
  match f with
  | F_youtube_url => youtube_url s' = youtube_url s
  | F_video_id => video_id s' = video_id s
  | F_transcript => transcript s' = transcript s
  | F_user_id => user_id s' = user_id s
  | F_summary => summary s' = summary s
  | F_title => title s' = title s
  | F_tone => tone s' = tone s
  | F_key_points => key_points s' = key_points s
  | F_tags => tags s' = tags s
  | F_topic => topic s' = topic s
  | F_category => category s' = category s
  | F_confidence => confidence s' = confidence s
  | F_subcategories => subcategories s' = subcategories s
  | F_pinecone_id => pinecone_id s' = pinecone_id s
  | F_neo4j_id => neo4j_id s' = neo4j_id s
  | F_created_at => created_at s' = created_at s
  | F_processing_time => processing_time s' = processing_time s
  | F_token_count => token_count s' = token_count s
  | F_error => error s' = error s
  | F_error_step => error_step s' = error_step s
  end.

(** Every field outside [fs] has in [s'] the value it has in [s]. *)
Definition unchanged_except (fs : list Field) (s s' : WorkflowState) : Prop :=
  forall f : Field, ~ In f fs -> same_field f s s'.

(** The fields the spec declares for each step. *)
Definition summarize_fields : list Field :=
  [F_summary; F_title; F_tone; F_key_points; F_tags; F_token_count].
Definition classify_fields : list Field :=
  [F_topic; F_category; F_confidence; F_subcategories; F_tags].
Definition error_fields : list Field := [F_error; F_error_step].

(** The fields [summarize_node] assigns. *)
Definition summarize_writes : list Field :=
  (summarize_fields ++ [F_processing_time])%list.

(** A computation in [M] keeps the relation [R] between the state and world
    before and after it, whether it returns or raises. *)
Definition preserves {A : Type}
  (R : WorkflowState -> World -> WorkflowState -> World -> Prop) (m : M A) : Prop :=
  forall s w o s' w', m s w = (o, s', w') -> R s w s' w'.

(** The relation of a frame: only the fields in [fs] may have changed. *)
Definition frame (fs : list Field)
  : WorkflowState -> World -> WorkflowState -> World -> Prop :=
  fun s _ s' _ => unchanged_except fs s s'.

(** The vector index is as before. *)
Definition index_kept : WorkflowState -> World -> WorkflowState -> World -> Prop :=
  fun _ w _ w' => pinecone_index w' = pinecone_index w.

(** The id under which [pinecone_store_node] stores the summary of [s]. *)
Definition vector_id_of (c : Collaborators) (s : WorkflowState) : string :=
  PineconeService_generate_id c (or_str (video_id s) "unknown")
    (or_str (user_id s) "anonymous").

(** [finalize_node] as a run invokes it: an exception it raises is stamped
    with its name. *)
Definition finalize_step (c : Collaborators) : Node :=
  guarded "finalize" (finalize_node c).

(** The six ways a run of the pipeline can go: it invokes no step when the
    error is set at the start, it halts after the first step that leaves
    the error set, or it runs all five steps. *)
Inductive runs_to (c : Collaborators) (s : WorkflowState) (w : World)
  : WorkflowState -> History -> World -> Prop :=
| halt_at_entry :
    truthy_str (error s) = true ->
    runs_to c s w s [] w
| halt_after_summarize s1 w1 :
    truthy_str (error s) = false ->
    summarize_node c s w = (s1, w1) -> truthy_str (error s1) = true ->
    runs_to c s w s1 [("summarize", s1)] w1
| halt_after_classify s1 w1 s2 w2 :
    truthy_str (error s) = false ->
    summarize_node c s w = (s1, w1) -> truthy_str (error s1) = false ->
    classify_node c s1 w1 = (s2, w2) -> truthy_str (error s2) = true ->
    runs_to c s w s2 [("summarize", s1); ("classify", s2)] w2
| halt_after_pinecone_store s1 w1 s2 w2 s3 w3 :
    truthy_str (error s) = false ->
    summarize_node c s w = (s1, w1) -> truthy_str (error s1) = false ->
    classify_node c s1 w1 = (s2, w2) -> truthy_str (error s2) = false ->
    pinecone_store_node c s2 w2 = (s3, w3) -> truthy_str (error s3) = true ->
    runs_to c s w s3 [("summarize", s1); ("classify", s2); ("pinecone_store", s3)] w3
| halt_after_neo4j_store s1 w1 s2 w2 s3 w3 s4 w4 :
    truthy_str (error s) = false ->
    summarize_node c s w = (s1, w1) -> truthy_str (error s1) = false ->
    classify_node c s1 w1 = (s2, w2) -> truthy_str (error s2) = false ->
    pinecone_store_node c s2 w2 = (s3, w3) -> truthy_str (error s3) = false ->
    neo4j_store_node c s3 w3 = (s4, w4) -> truthy_str (error s4) = true ->
    runs_to c s w s4
      [("summarize", s1); ("classify", s2); ("pinecone_store", s3); ("neo4j_store", s4)]
      w4
| all_steps s1 w1 s2 w2 s3 w3 s4 w4 s5 w5 :
    truthy_str (error s) = false ->
    summarize_node c s w = (s1, w1) -> truthy_str (error s1) = false ->
    classify_node c s1 w1 = (s2, w2) -> truthy_str (error s2) = false ->
    pinecone_store_node c s2 w2 = (s3, w3) -> truthy_str (error s3) = false ->
    neo4j_store_node c s3 w3 = (s4, w4) -> truthy_str (error s4) = false ->
    finalize_step c s4 w4 = (s5, w5) ->
    runs_to c s w s5
      [("summarize", s1); ("classify", s2); ("pinecone_store", s3); ("neo4j_store", s4);
       ("finalize", s5)]
      w5.

Definition step_names : list string :=
  ["summarize"; "classify"; "pinecone_store"; "neo4j_store"; "finalize"].

(** Step [step] was invoked in the run and raised: it stamped its own name. *)
Definition failed_in (history : History) (step : string) : Prop :=
  exists st, In (step, st) history /\ error_step st = Some step.

(** Step [step] was invoked in the run and completed. *)
Definition succeeded_in (history : History) (step : string) : Prop :=
  exists st, In (step, st) history /\ error_step st <> Some step.

(** The string handed to the decoder by either parser, if any: the two
    branches that decode, read off the claim. *)
Definition extracted_json (text : string) : option string :=
  if Py.contains "```json" text then
    let json_start := Py.find "```json" text + 7 in
    Some (Py.strip (Py.slice text json_start
                      (Py.find_from "```" text (Z.to_nat json_start))))
  else if Py.contains "{" text && Py.contains "}" text then
    Some (Py.slice text (Py.find "{" text) (Py.rfind "}" text + 1))
  else None.

(** The nodes of a graph that carry a label. *)
Definition nodes_labelled (label : string) (g : Graph) : list GNode :=
  List.filter (fun n => String.eqb (node_label n) label) (g_nodes g).

(** The graph has a node with this label whose property [key] is [value]. *)
Definition has_node (label key : string) (value : json) (g : Graph) : Prop :=
  exists n, In n (g_nodes g) /\ Cypher.node_matches label key value n = true.

(** The graph [g'] has every node [g] has under the keys the query merges. *)
Definition keeps_nodes (g g' : Graph) : Prop :=
  forall label key value,
    In key ["video_id"; "user_id"; "name"] ->
    has_node label key value g -> has_node label key value g'.

(** The clauses of the query of [store_summary], to reason about them one
    at a time: the merges before the first [UNWIND], then what is run for
    each row of the three unwound lists. *)
Definition query_head (p : SummaryParams) (now : Z) (g : Graph) : nat * nat * Graph :=
  let '(v, g) := Cypher.merge_node "Video" "video_id" (JString (p_video_id p)) g in
  let g := Cypher.set_prop v "title" (p_title p) g in
  let g := Cypher.set_prop v "summary" (p_summary p) g in
  let g := Cypher.set_prop v "tone" (p_tone p) g in
  let g := Cypher.set_prop v "confidence" (p_confidence p) g in
  let g := Cypher.set_prop v "created_at" (JNumber (pretty now)) g in
  let '(u, g) := Cypher.merge_node "User" "user_id" (JString (p_user_id p)) g in
  let '(t, g) := Cypher.merge_node "Topic" "name" (p_topic p) g in
  let '(c, g) := Cypher.merge_node "Category" "name" (p_category p) g in
  let g := Cypher.merge_rel u "CREATED" v g in
  let g := Cypher.merge_rel v "HAS_TOPIC" t g in
  let g := Cypher.merge_rel v "IN_CATEGORY" c g in
  let g := Cypher.merge_rel t "BELONGS_TO" c g in
  (v, t, g).

Definition subcategory_clause (v t : nat) (g : Graph) (subcat : json) : Graph :=
  let '(sc, g) := Cypher.merge_node "Subcategory" "name" subcat g in
  let g := Cypher.merge_rel v "HAS_SUBCATEGORY" sc g in
  Cypher.merge_rel sc "BELONGS_TO" t g.

Definition tag_clause (v : nat) (g : Graph) (tag_name : json) : Graph :=
  let '(tag, g) := Cypher.merge_node "Tag" "name" tag_name g in
  Cypher.merge_rel v "HAS_TAG" tag g.

Definition key_point_clause (v : nat) (g : Graph) (point : json) : Graph :=
  let '(kp, g) := Cypher.create_node "KeyPoint" [("text", point)] g in
  Cypher.merge_rel v "HAS_KEY_POINT" kp g.

(** The rows each [UNWIND] of the query produces. *)
Definition subcat_rows (p : SummaryParams) : list json :=
  Cypher.unwind (p_subcategories p).
Definition tag_rows (p : SummaryParams) : list json :=
  List.flat_map (fun _ => Cypher.unwind (p_tags p)) (subcat_rows p).
Definition point_rows (p : SummaryParams) : list json :=
  List.flat_map (fun _ => Cypher.unwind (p_key_points p)) (tag_rows p).

(** The graph has every node the query merges for [p]. *)
Definition merged_present (p : SummaryParams) (g : Graph) : Prop :=
  has_node "Video" "video_id" (JString (p_video_id p)) g
  /\ has_node "User" "user_id" (JString (p_user_id p)) g
  /\ has_node "Topic" "name" (p_topic p) g
  /\ has_node "Category" "name" (p_category p) g
  /\ (forall x, In x (subcat_rows p) -> has_node "Subcategory" "name" x g)
  /\ (forall x, In x (tag_rows p) -> has_node "Tag" "name" x g).

(** The number of KeyPoint nodes of a graph. *)
Definition key_point_count (g : Graph) : nat :=
  List.length (nodes_labelled "KeyPoint" g).

(** No occurrence of [sub] starts within the first [n] characters of [s]. *)
Definition absent_before (sub s : string) (n : nat) : Prop :=
  forall k, (k < n)%nat -> String.prefix sub (Py.drop k s) = false.

(** ** Collaborators to run the model on concrete inputs *)

Definition byte_encode (s : string) : list nat :=
  List.map nat_of_ascii (list_ascii_of_string s).

Definition byte_decode (l : list nat) : string :=
  string_of_list_ascii (List.map ascii_of_nat l).

Fixpoint dedupe (l : list json) : list json :=
  match l with
  | [] => []
  | x :: l' => x :: List.filter (fun y => negb (json_eqb x y)) (dedupe l')
  end.

(** A language model that answers [answer], an embedding service that
    answers [embedding], and stores that fail as told. *)
Definition scripted (answer : Prompt -> outcome string) (embedding : outcome (list Z))
  (upsert_fault session_fault : option string) : Collaborators :=
  {| json_loads := Json.loads;
     encode := byte_encode;
     decode := byte_decode;
     llm := fun _ p => answer p;
     get_embedding := fun _ _ => embedding;
     md5_hexdigest := fun s => "md5:" +:+ s;
     isoformat := pretty;
     pinecone_upsert_fault := fun _ => upsert_fault;
     neo4j_session_fault := fun _ => session_fault;
     clock := fun n => Z.of_nat n;
     set_order := dedupe |}.

Definition empty_world : World :=
  {| pinecone_index := ∅; graph_db := empty_graph; checkpoints := ∅; calls := 0 |}.

(** A model that answers every prompt in plain prose. *)
Definition prose : Prompt -> outcome string := fun _ => Ok "A talk about proofs.".

(** A model that answers the summary prompt with a fenced object and the
    classification prompt with a bare object. *)
Definition structured : Prompt -> outcome string :=
  fun p =>
    let q := String "034" EmptyString in
    match p with
    | SummaryPrompt _ _ _ _ _ =>
        Ok ("```json {" +:+ q +:+ "summary" +:+ q +:+ ": " +:+ q +:+ "Proofs" +:+ q
            +:+ ", " +:+ q +:+ "key_points" +:+ q +:+ ": [" +:+ q +:+ "induction" +:+ q
            +:+ "], " +:+ q +:+ "tags" +:+ q +:+ ": [" +:+ q +:+ "logic" +:+ q +:+ "]} ```")
    | ClassificationPrompt _ _ _ =>
        Ok ("Sure: {" +:+ q +:+ "topic" +:+ q +:+ ": " +:+ q +:+ "Logic" +:+ q
            +:+ ", " +:+ q +:+ "subcategories" +:+ q +:+ ": [" +:+ q +:+ "Coq" +:+ q
            +:+ "], " +:+ q +:+ "tags" +:+ q +:+ ": [" +:+ q +:+ "logic" +:+ q +:+ ", "
            +:+ q +:+ "types" +:+ q +:+ "]}")
    end.

Definition demo_state : WorkflowState :=
  new_WorkflowState "https://youtu.be/abc" "abc" "hello world" "u1" "casual".

(** A model whose call fails. *)
Definition unavailable : Prompt -> outcome string := fun _ => Raised "model unavailable".

(** Parameters of a graph merge with one subcategory, one tag and one key
    point. *)
Definition demo_params : SummaryParams :=
  {| p_video_id := "abc";
     p_user_id := "u1";
     p_title := JString "Proofs";
     p_summary := JString "A talk about proofs.";
     p_topic := JString "Logic";
     p_category := JString "Education";
     p_confidence := JNumber "0.5";
     p_subcategories := JArray [JString "Coq"];
     p_tags := JArray [JString "logic"];
     p_key_points := JArray [JString "induction"];
     p_tone := JString "casual" |}.

(** ** The video id of a URL ([routers/summary.py], lines 48-58)

    [extract_video_id] searches the URL with two regular expressions.  The
    matcher below is written for these two expressions: a search tries every
    position from the left; at a position the alternatives are tried in the
    order written; the group is the longest run of characters outside the
    class, and must not be empty; the greedy [.*] of the second expression
    stays on one line and prefers the rightmost [v=]. *)

Module VideoId.

(** The characters the class of the group excludes: ampersand, newline,
    question mark, hash. *)
Definition stops (c : ascii) : bool :=
  let n := nat_of_ascii c in
  ((n =? 38) || (n =? 10) || (n =? 63) || (n =? 35))%nat.

(** The longest run of characters of the class at the head of [s]. *)
Fixpoint run (s : string) : string :=
  match s with
  | String c s' => if stops c then EmptyString else String c (run s')
  | EmptyString => EmptyString
  end.

(** The literal [lit] at the head of [s], then the group. *)
Definition group_after (lit s : string) : option string :=
  if String.prefix lit s then
    match run (Py.drop (String.length lit) s) with
    | EmptyString => None
    | r => Some r
    end
  else None.

(** The first expression at the head of [s]: one of three literals, then
    the group. *)
Definition first_pattern (s : string) : option string :=
  match group_after "youtube.com/watch?v=" s with
  | Some r => Some r
  | None =>
      match group_after "youtu.be/" s with
      | Some r => Some r
      | None => group_after "youtube.com/embed/" s
      end
  end.

(** What follows [youtube.com/watch?] in the second expression, at the head
    of [s]: any characters but a newline, as many as possible, then [v=] and
    the group. *)
Fixpoint last_v (s : string) : option string :=
  match s with
  | EmptyString => None
  | String c s' =>
      match (if (nat_of_ascii c =? 10)%nat then None else last_v s') with
      | Some r => Some r
      | None => group_after "v=" s
      end
  end.

(** The second expression at the head of [s]. *)
Definition second_pattern (s : string) : option string :=
  if String.prefix "youtube.com/watch?" s
  then last_v (Py.drop (String.length "youtube.com/watch?") s)
  else None.

(** [re.search]: the match at the leftmost position that has one. *)
Fixpoint search (pattern : string -> option string) (s : string) : option string :=
  match pattern s with
  | Some r => Some r
  | None =>
      match s with
      | String _ s' => search pattern s'
      | EmptyString => None
      end
  end.

End VideoId.

(** [extract_video_id]; the exception is the [HTTPException] of status 400,
    represented by its detail. *)
Definition extract_video_id (url : string) : outcome string :=
  match VideoId.search VideoId.first_pattern url with
  | Some id => Ok id
  | None =>
      match VideoId.search VideoId.second_pattern url with
      | Some id => Ok id
      | None => Raised "Invalid YouTube URL"
      end
  end.

(** ** The other operations of the vector store ([pinecone_service.py],
    lines 119-160) *)

(** Whether the client raises in [index.delete] and in [index.fetch]. *)
Record PineconeFaults : Type := {
  pinecone_delete_fault : nat -> option string;
  pinecone_fetch_fault : nat -> option string
}.

(** [PineconeService.delete_summary] *)
Definition PineconeService_delete_summary (f : PineconeFaults) (vector_id : string)
  (w : World) : bool * World :=
  match pinecone_delete_fault f (calls w) with
  | Some _ => (false, tick w)
  | None => (true, set_pinecone_index (delete vector_id (pinecone_index w)) (tick w))
  end.

(** [PineconeService.update_summary] *)
Definition PineconeService_update_summary (c : Collaborators) (f : PineconeFaults)
  (vector_id : string) (summary_data : list (string * json)) (embedding : list Z)
  (w : World) : bool * World :=
  match pinecone_fetch_fault f (calls w) with
  | Some _ => (false, tick w)
  | None =>
      let w := tick w in
      (* Get existing metadata *)
      match pinecone_index w !! vector_id with
      | None => (false, w)
      | Some existing =>
          let existing_metadata := vec_metadata existing in
          let tone_ := dict_get summary_data "tone"
                         (dict_get existing_metadata "tone" JNull) in
          let tags_ := dict_get summary_data "tags"
                         (dict_get existing_metadata "tags" (JArray [])) in
          let key_points_ := dict_get summary_data "key_points"
                               (dict_get existing_metadata "key_points" (JArray [])) in
          let now := clock c (calls w) in
          let w := tick w in
          let updated_metadata :=
            Json.dict_set "updated_at" (JString (isoformat c now))
              (Json.dict_set "key_points" key_points_
                 (Json.dict_set "tags" tags_
                    (Json.dict_set "tone" tone_ existing_metadata))) in
          match pinecone_upsert_fault c (calls w) with
          | Some _ => (false, tick w)
          | None =>
              (true,
               set_pinecone_index
                 (<[vector_id := {| vec_values := embedding;
                                    vec_metadata := updated_metadata |}]>
                    (pinecone_index w))
                 (tick w))
          end
      end
  end.

(** ** Further notions used in the statements *)

(** The prompt [summarize_node] sends for a state. *)
Definition summary_prompt_of (c : Collaborators) (s : WorkflowState) : Prompt :=
  let truncated := truncate_text c (or_str (transcript s) "") token_budget in
  SummaryPrompt (or_str (video_id s) "unknown") (count_tokens c truncated)
    (py_or (tone s) (JString "professional")) max_length truncated.

(** The prompt [classify_node] sends for a state whose key points join to
    [joined]. *)
Definition classification_prompt_of (s : WorkflowState) (joined : string) : Prompt :=
  ClassificationPrompt (py_or (title s) (JString "Unknown Video"))
    (py_or (summary s) (JString "")) joined.

(** The parameters [neo4j_store_node] passes to the query for a state. *)
Definition summary_params_of (s : WorkflowState) : SummaryParams :=
  {| p_video_id := or_str (video_id s) "unknown";
     p_user_id := or_str (user_id s) "anonymous";
     p_title := py_or (title s) (JString "Unknown Video");
     p_summary := py_or (summary s) (JString "");
     p_topic := py_or (topic s) (JString "General");
     p_category := py_or (category s) (JString "Education");
     p_confidence := py_or (confidence s) (JNumber "0.5");
     p_subcategories := subcategories s;
     p_tags := tags s;
     p_key_points := key_points s;
     p_tone := py_or (tone s) (JString "professional") |}.

(** The state a step returns when it stamps the failure [e]: the two
    assignments of its [except] branch. *)
Definition failed_at (step e : string) (s : WorkflowState) : WorkflowState :=
  set_error_step (Some step) (set_error (Some e) s).

(** The four assignments [classify_node] makes from a decoded object before
    it turns to the tags. *)
Definition classified (d : list (string * json)) (s : WorkflowState) : WorkflowState :=
  set_subcategories (dict_get d "subcategories" (JArray []))
    (set_confidence (dict_get d "confidence" (JNumber "0.5"))
       (set_category (dict_get d "category" (JString "Education"))
          (set_topic (dict_get d "topic" (JString "General")) s))).

(** The value is a dict. *)
Definition is_object (v : json) : bool :=
  match v with JObject _ => true | _ => false end.

(** The vector index, the graph database and the checkpoints are as
    before. *)
Definition stores_kept : WorkflowState -> World -> WorkflowState -> World -> Prop :=
  fun _ w _ w' =>
    pinecone_index w' = pinecone_index w
    /\ graph_db w' = graph_db w
    /\ checkpoints w' = checkpoints w.

(** What a run may do to the stores: write the vector [id] and no other,
    add to the graph without removing a node the query merges on, and
    nothing to the checkpoints. *)
Definition writes_only (id : string) (w w' : World) : Prop :=
  (forall id', id' <> id -> pinecone_index w' !! id' = pinecone_index w !! id')
  /\ keeps_nodes (graph_db w) (graph_db w')
  /\ checkpoints w' = checkpoints w.

(** The labels and keys on which the query of [store_summary] merges
    nodes. *)
Definition merged_keys : list (string * string) :=
  [("Video", "video_id"); ("User", "user_id"); ("Topic", "name");
   ("Category", "name"); ("Subcategory", "name"); ("Tag", "name")].

(** A graph in which every [MERGE] of the query has one node or none to
    bind, and one relationship or none: the nodes have distinct identities,
    all below the next one to be given; no two nodes carry the same value
    under a label and key the query merges on; and no relationship occurs
    twice.  On such a graph the [MERGE] of the database yields one row, as
    [Cypher.merge_node] and [Cypher.merge_rel] do. *)
Definition no_duplicates (g : Graph) : Prop :=
  NoDup (List.map node_id (g_nodes g))
  /\ (forall n, In n (g_nodes g) -> (node_id n < g_next g)%nat)
  /\ (forall label key value n1 n2,
        In (label, key) merged_keys ->
        In n1 (g_nodes g) -> In n2 (g_nodes g) ->
        Cypher.node_matches label key value n1 = true ->
        Cypher.node_matches label key value n2 = true ->
        node_id n1 = node_id n2)
  /\ NoDup (g_rels g).

Definition is_str (v : json) : bool :=
  match v with JString _ => true | _ => false end.

Definition is_str_list (v : json) : bool :=
  match v with JArray l => List.forallb is_str l | _ => false end.

(** A number that [json.loads] reads as a float: its lexeme has a fraction
    or an exponent. *)
Definition is_float (v : json) : bool :=
  match v with
  | JNumber lexeme =>
      List.existsb
        (fun a => Ascii.eqb a "." || Ascii.eqb a "e" || Ascii.eqb a "E")%bool
        (list_ascii_of_string lexeme)
  | _ => false
  end.

(** The parameters have the types the signature of [store_summary] declares
    (lines 31-42): strings, a float, and lists of strings.  These are values
    the database takes as properties; it refuses to [MERGE] on a null. *)
Definition declared_types (p : SummaryParams) : bool :=
  is_str (p_title p) && is_str (p_summary p) && is_str (p_topic p)
  && is_str (p_category p) && is_float (p_confidence p)
  && is_str_list (p_subcategories p) && is_str_list (p_tags p)
  && is_str_list (p_key_points p) && is_str (p_tone p).

(** What a step whose body ended with [body_outcome] has done to the state
    [s] when it leaves [s']: when the body completed, it has changed no
    field outside [fs]; when the body raised [e], it has set the error to
    [e] and the error step to its name and changed no other field outside
    [fs]. *)
Definition step_effect (name : string) (fs : list Field) (body_outcome : outcome unit)
  (s s' : WorkflowState) : Prop :=
  match body_outcome with
  | Ok _ => unchanged_except fs s s'
  | Raised e =>
      error s' = Some e /\ error_step s' = Some name
      /\ unchanged_except (fs ++ error_fields)%list s s'
  end.

(** ** Further collaborators to run the model on concrete inputs *)


(** A checkpointer that does not raise, and one whose [get] raises. *)
Definition readable : MemoryFaults :=
  {| memory_get_fault := fun _ => None;
     memory_list_keys_fault := None;
     memory_clear_fault := fun _ => None |}.

Definition unreadable : MemoryFaults :=
  {| memory_get_fault := fun _ => Some "store unreachable";
     memory_list_keys_fault := None;
     memory_clear_fault := fun _ => None |}.

(** A model that answers with a fenced array, and one that answers the
    summary prompt with an object whose tags are null. *)
Definition array_answer : Prompt -> outcome string := fun _ => Ok "```json [1, 2] ```".

Definition null_tags : Prompt -> outcome string :=
  fun p =>
    let q := String "034" EmptyString in
    match p with
    | SummaryPrompt _ _ _ _ _ =>
        Ok ("{" +:+ q +:+ "summary" +:+ q +:+ ": " +:+ q +:+ "Proofs" +:+ q
            +:+ ", " +:+ q +:+ "tags" +:+ q +:+ ": null}")
    | ClassificationPrompt _ _ _ =>
        Ok ("{" +:+ q +:+ "topic" +:+ q +:+ ": " +:+ q +:+ "Logic" +:+ q +:+ "}")
    end.

(** A client whose delete and fetch do not raise, and a world whose index
    holds one vector. *)
Definition no_faults : PineconeFaults :=
  {| pinecone_delete_fault := fun _ => None; pinecone_fetch_fault := fun _ => None |}.

Definition one_vector : World :=
  set_pinecone_index
    {["v1" := {| vec_values := [1];
                 vec_metadata := [("video_title", JString "Old");
                                  ("tone", JString "casual")] |}]}
    empty_world.

(** * Theorems *)

(** ** The string primitives on examples *)

Example find_ex1 : Py.find "```json" "ab```json{}```" = 2.
Proof. reflexivity. Qed.

Example find_ex2 : Py.find_from "```" "ab```json{}```" 9 = 11.
Proof. reflexivity. Qed.

Example find_ex3 : Py.find_from "```" "```json{}" 7 = -1.
Proof. reflexivity. Qed.

Example rfind_ex1 : Py.rfind "}" "a{b}c}d" = 5.
Proof. reflexivity. Qed.

Example slice_ex1 : Py.slice "```json{}" 7 (-1) = "{".
Proof. reflexivity. Qed.

Example slice_ex2 : Py.slice "a{b}c}d" 1 6 = "{b}c}".
Proof. reflexivity. Qed.

Example slice_ex3 : Py.slice "} {" 2 1 = "".
Proof. reflexivity. Qed.

Example strip_ex1 : Py.strip "  a b
 " = "a b".
Proof. reflexivity. Qed.

(** ** The string primitives against decompositions of the text *)

Lemma length_append (a b : string) :
  String.length (a +:+ b) = (String.length a + String.length b)%nat.
Proof. induction a as [| c a IH]; simpl; [reflexivity | now rewrite IH]. Qed.

Lemma drop_append (a b : string) : Py.drop (String.length a) (a +:+ b) = b.
Proof. induction a as [| c a IH]; simpl; [now destruct b | exact IH]. Qed.

Lemma take_append (a b : string) : Py.take (String.length a) (a +:+ b) = a.
Proof. induction a as [| c a IH]; simpl; [now destruct b | now rewrite IH]. Qed.

Lemma prefix_append (a b : string) : String.prefix a (a +:+ b) = true.
Proof.
  induction a as [| c a IH]; simpl; [now destruct b |].
  destruct (ascii_dec c c) as [_ | Hne]; [exact IH | now contradiction Hne].
Qed.

Lemma find_at_skip (sub pre rest : string) (i : nat) :
  absent_before sub (pre +:+ rest) (String.length pre) ->
  Py.find_at sub (pre +:+ rest) i = Py.find_at sub rest (i + String.length pre).
Proof.
  revert i. induction pre as [| c pre IH]; intros i Habs.
  - simpl. now rewrite Nat.add_0_r.
  - change (String c pre +:+ rest) with (String c (pre +:+ rest)) in *.
    cbn [String.length Py.find_at].
    pose proof (Habs 0%nat ltac:(simpl; lia)) as H0. cbn [Py.drop] in H0.
    rewrite H0, IH.
    + f_equal. lia.
    + intros k Hk. apply (Habs (S k)). simpl. lia.
Qed.

(** [find] answers the position of the first occurrence. *)
Lemma find_first (sub pre rest : string) :
  absent_before sub (pre +:+ sub +:+ rest) (String.length pre) ->
  Py.find_at sub (pre +:+ sub +:+ rest) 0 = Some (String.length pre).
Proof.
  intros Habs. rewrite find_at_skip by exact Habs.
  destruct (sub +:+ rest) eqn:E; cbn [Py.find_at];
    rewrite <- E, prefix_append; reflexivity.
Qed.

Lemma slice_middle (pre mid post : string) :
  Py.slice (pre +:+ mid +:+ post) (Z.of_nat (String.length pre))
    (Z.of_nat (String.length pre + String.length mid)) = mid.
Proof.
  unfold Py.slice, Py.clamp. rewrite !length_append.
  set (a := String.length pre). set (b := String.length mid).
  set (d := String.length post).
  replace (Z.of_nat a <? 0) with false by (symmetry; apply Z.ltb_ge; lia).
  replace (Z.of_nat (a + b) <? 0) with false by (symmetry; apply Z.ltb_ge; lia).
  replace (Z.max 0 (Z.min (Z.of_nat (a + (b + d))) (Z.of_nat a))) with (Z.of_nat a) by lia.
  replace (Z.max 0 (Z.min (Z.of_nat (a + (b + d))) (Z.of_nat (a + b))))
    with (Z.of_nat (a + b)) by lia.
  replace (Z.to_nat (Z.of_nat (a + b) - Z.of_nat a)) with b by lia.
  rewrite Nat2Z.id. unfold a, b. now rewrite drop_append, take_append.
Qed.

Lemma append_assoc (a b d : string) : (a +:+ b) +:+ d = a +:+ b +:+ d.
Proof.
  induction a as [| c a IH]; [reflexivity |].
  change (String c ((a +:+ b) +:+ d) = String c (a +:+ b +:+ d)). now rewrite IH.
Qed.

(** A block between an opening and a closing delimiter, found by [find]
    and cut out by a slice. *)
Lemma delimited_block (opener closer pre body post text : string) :
  text = pre +:+ opener +:+ body +:+ closer +:+ post ->
  absent_before opener text (String.length pre) ->
  absent_before closer (body +:+ closer +:+ post) (String.length body) ->
  let start := (String.length pre + String.length opener)%nat in
  Py.contains opener text = true
  /\ Py.find opener text = Z.of_nat (String.length pre)
  /\ Py.find_from closer text start = Z.of_nat (start + String.length body)
  /\ Py.slice text (Z.of_nat start) (Z.of_nat (start + String.length body)) = body.
Proof.
  intros -> Hopen Hclose start.
  assert (Hfind : Py.find_at opener (pre +:+ opener +:+ body +:+ closer +:+ post) 0
                  = Some (String.length pre)) by (apply find_first; exact Hopen).
  split; [| split; [| split]].
  - unfold Py.contains. now rewrite Hfind.
  - unfold Py.find, Py.find_from. cbn [Nat.ltb Nat.leb Py.drop]. now rewrite Hfind.
  - unfold Py.find_from.
    replace (String.length (pre +:+ opener +:+ body +:+ closer +:+ post) <? start)%nat
      with false.
    2:{ symmetry. apply Nat.ltb_ge. rewrite !length_append. unfold start. lia. }
    rewrite <- (append_assoc pre opener).
    unfold start. rewrite <- (length_append pre opener), drop_append.
    rewrite (find_at_skip closer body (closer +:+ post) _ Hclose).
    destruct (closer +:+ post) eqn:E; cbn [Py.find_at];
      rewrite <- E, prefix_append; reflexivity.
  - rewrite <- (append_assoc pre opener).
    unfold start. rewrite <- (length_append pre opener).
    apply slice_middle.
Qed.

(** ** The output parsers (claims C2, C5 and C6) *)

(** Both parsers decode the same string, if any, and fall back when the
    decoder raises. *)
Lemma SummaryOutputParser_try_extracted loads text :
  SummaryOutputParser_try loads text =
  match extracted_json text with
  | Some json_str => loads json_str
  | None => Ok (SummaryOutputParser_default text)
  end.
Proof.
  unfold SummaryOutputParser_try, extracted_json.
  destruct (Py.contains "```json" text); [reflexivity |].
  destruct (Py.contains "{" text && Py.contains "}" text); reflexivity.
Qed.

Lemma ClassificationOutputParser_try_extracted loads text :
  ClassificationOutputParser_try loads text =
  match extracted_json text with
  | Some json_str => loads json_str
  | None => Ok ClassificationOutputParser_default
  end.
Proof.
  unfold ClassificationOutputParser_try, extracted_json.
  destruct (Py.contains "```json" text); [reflexivity |].
  destruct (Py.contains "{" text && Py.contains "}" text); reflexivity.
Qed.

(** Branch (a) on a response with a closed fence: the string handed to the
    decoder is the stripped text between the first [```json] and the first
    [```] after it. *)
Lemma extracted_json_fenced (pre body post text : string) :
  text = pre +:+ "```json" +:+ body +:+ "```" +:+ post ->
  absent_before "```json" text (String.length pre) ->
  absent_before "```" (body +:+ "```" +:+ post) (String.length body) ->
  extracted_json text = Some (Py.strip body).
Proof.
  intros Htext Hopen Hclose.
  destruct (delimited_block "```json" "```" pre body post text Htext Hopen Hclose)
    as (Hin & Hfind & Hend & Hslice).
  unfold extracted_json. rewrite Hin, Hfind.
  change (String.length "```json") with 7%nat in Hend, Hslice.
  replace (Z.to_nat (Z.of_nat (String.length pre) + 7))
    with (String.length pre + 7)%nat by lia.
  rewrite Hend.
  replace (Z.of_nat (String.length pre) + 7)
    with (Z.of_nat (String.length pre + 7)) by lia.
  now rewrite Hslice.
Qed.

(** Branch (a) of both parsers on a response with a closed fence: the decoded
    contents of the block, or the default object when the decoder raises. *)
Lemma parse_fenced (loads : string -> outcome json) (pre body post text : string) :
  text = pre +:+ "```json" +:+ body +:+ "```" +:+ post ->
  absent_before "```json" text (String.length pre) ->
  absent_before "```" (body +:+ "```" +:+ post) (String.length body) ->
  SummaryOutputParser_parse loads text
  = try_except (loads (Py.strip body)) (fun _ => Ok (SummaryOutputParser_default text))
  /\ ClassificationOutputParser_parse loads text
     = try_except (loads (Py.strip body)) (fun _ => Ok ClassificationOutputParser_default).
Proof.
  intros Htext Hopen Hclose.
  unfold SummaryOutputParser_parse, ClassificationOutputParser_parse.
  rewrite SummaryOutputParser_try_extracted, ClassificationOutputParser_try_extracted.
  rewrite (extracted_json_fenced pre body post text Htext Hopen Hclose).
  split; reflexivity.
Qed.

Example parse_fenced_example :
  SummaryOutputParser_parse Json.loads "Here: ```json [1, 2] ``` done"
  = Ok (JArray [JNumber "1"; JNumber "2"]).
Proof.
  destruct (parse_fenced Json.loads "Here: " " [1, 2] " " done"
              "Here: ```json [1, 2] ``` done" eq_refl) as [H _].
  - intros k Hk. do 6 (destruct k as [| k]; [reflexivity |]). simpl in Hk. lia.
  - intros k Hk. do 8 (destruct k as [| k]; [reflexivity |]). simpl in Hk. lia.
  - rewrite H. reflexivity.
Qed.

(** C6.  For every decoder and every text, each parser returns a value and
    does not raise; whenever the decoding branch raises, the value is the
    parser's default object. *)
Theorem parsers_never_raise (loads : string -> outcome json) (text : string) :
  (exists v, SummaryOutputParser_parse loads text = Ok v)
  /\ (exists v, ClassificationOutputParser_parse loads text = Ok v)
  /\ (forall e, SummaryOutputParser_try loads text = Raised e ->
                SummaryOutputParser_parse loads text
                = Ok (SummaryOutputParser_default text))
  /\ (forall e, ClassificationOutputParser_try loads text = Raised e ->
                ClassificationOutputParser_parse loads text
                = Ok ClassificationOutputParser_default).
Proof.
  unfold SummaryOutputParser_parse, ClassificationOutputParser_parse, try_except.
  repeat split.
  - destruct (SummaryOutputParser_try loads text); eauto.
  - destruct (ClassificationOutputParser_try loads text); eauto.
  - intros e H. now rewrite H.
  - intros e H. now rewrite H.
Qed.

Lemma parsers_never_raise_witness :
  SummaryOutputParser_parse Json.loads "{oops}"
  = Ok (SummaryOutputParser_default "{oops}").
Proof.
  apply (proj1 (proj2 (proj2 (parsers_never_raise Json.loads "{oops}")))
           "Expecting value").
  reflexivity.
Defined.

(** C5, as amended.  The two parsers choose their branch in the same way:
    when a fenced block or a pair of braces is found and the decoder accepts
    the extracted string, both return the decoded value; otherwise both fall
    back, Summarize's parser to its default object holding the raw text and
    Classify's parser to its fixed default object, which does not hold the
    text. *)
Theorem parsers_choose_alike (loads : string -> outcome json) (text : string) :
  match extracted_json text with
  | Some json_str =>
      match loads json_str with
      | Ok v =>
          SummaryOutputParser_parse loads text = Ok v
          /\ ClassificationOutputParser_parse loads text = Ok v
      | Raised _ =>
          SummaryOutputParser_parse loads text = Ok (SummaryOutputParser_default text)
          /\ ClassificationOutputParser_parse loads text
             = Ok ClassificationOutputParser_default
      end
  | None =>
      SummaryOutputParser_parse loads text = Ok (SummaryOutputParser_default text)
      /\ ClassificationOutputParser_parse loads text
         = Ok ClassificationOutputParser_default
  end.
Proof.
  unfold SummaryOutputParser_parse, ClassificationOutputParser_parse.
  rewrite SummaryOutputParser_try_extracted, ClassificationOutputParser_try_extracted.
  destruct (extracted_json text) as [json_str |]; [| split; reflexivity].
  destruct (loads json_str); split; reflexivity.
Qed.

(** The raw text reaches branch (c), and no field of what Classify's parser
    returns holds it. *)
Lemma classification_default_drops_text :
  extracted_json "hello" = None
  /\ exists members,
       ClassificationOutputParser_parse Json.loads "hello" = Ok (JObject members)
       /\ forall k, assoc k members <> Some (JString "hello").
Proof.
  split; [reflexivity |]. eexists. split; [reflexivity |].
  intros k. simpl.
  repeat match goal with
         | |- context [String.eqb k ?x] => destruct (String.eqb k x)
         end; discriminate.
Qed.

(** C2 at a response whose fence is not closed.  The text after the fence is
    an object the decoder accepts, and so is the text from the first opening
    brace to the last closing brace; but the search for the closing fence
    answers [-1], the slice drops the last character, the decoder rejects
    what is left, and the parser returns the default object. *)
Theorem unclosed_fence_drops_last_character :
  let text := "```json{}" in
  Py.contains "```json" text = true
  /\ Py.find_from "```" text 7 = (-1)
  /\ Py.slice text 7 (Z.of_nat (String.length text)) = "{}"
  /\ Py.slice text (Py.find "{" text) (Py.rfind "}" text + 1) = "{}"
  /\ Json.loads "{}" = Ok (JObject [])
  /\ extracted_json text = Some "{"
  /\ SummaryOutputParser_parse Json.loads text = Ok (SummaryOutputParser_default text).
Proof. repeat split. Qed.

(** ** What a computation in [M] preserves *)

Section Preservation.

(** A relation between the state and world before and after. *)
Variable R : WorkflowState -> World -> WorkflowState -> World -> Prop.

Hypothesis R_refl : forall s w, R s w s w.

Hypothesis R_trans :
  forall s1 w1 s2 w2 s3 w3, R s1 w1 s2 w2 -> R s2 w2 s3 w3 -> R s1 w1 s3 w3.

Lemma preserves_ret {A : Type} (a : A) : preserves R (ret a).
Proof. intros s w o s' w' H. inversion H; subst. apply R_refl. Qed.

Lemma preserves_lift {A : Type} (o : outcome A) : preserves R (lift o).
Proof. intros s w o' s' w' H. inversion H; subst. apply R_refl. Qed.

Lemma preserves_get {A : Type} (f : WorkflowState -> A) : preserves R (get f).
Proof. intros s w o s' w' H. inversion H; subst. apply R_refl. Qed.

Lemma preserves_get_world {A : Type} (f : World -> A) : preserves R (get_world f).
Proof. intros s w o s' w' H. inversion H; subst. apply R_refl. Qed.

Lemma preserves_bind {A B : Type} (m : M A) (k : A -> M B) :
  preserves R m -> (forall a, preserves R (k a)) -> preserves R (bind m k).
Proof.
  intros Hm Hk s w o s' w' H. unfold bind in H.
  destruct (m s w) as [[[a | e] s1] w1] eqn:E.
  - eapply R_trans; [eapply Hm; exact E | eapply Hk; exact H].
  - inversion H; subst. eapply Hm; exact E.
Qed.

Lemma preserves_ask {A : Type} (f : nat -> A) :
  (forall s w, R s w s (tick w)) -> preserves R (ask f).
Proof. intros Ht s w o s' w' H. inversion H; subst. apply Ht. Qed.

Lemma preserves_assign (f : WorkflowState -> WorkflowState) :
  (forall s w, R s w (f s) w) -> preserves R (assign f).
Proof. intros Hf s w o s' w' H. inversion H; subst. apply Hf. Qed.

Lemma preserves_put_world (f : World -> World) :
  (forall s w, R s w s (f w)) -> preserves R (put_world f).
Proof. intros Hf s w o s' w' H. inversion H; subst. apply Hf. Qed.

End Preservation.

(** ** Frames of the run state *)

Lemma unchanged_refl fs s : unchanged_except fs s s.
Proof. intros f _. destruct f; reflexivity. Qed.

Lemma unchanged_trans fs s1 s2 s3 :
  unchanged_except fs s1 s2 -> unchanged_except fs s2 s3 -> unchanged_except fs s1 s3.
Proof.
  intros H12 H23 f Hf. specialize (H12 f Hf). specialize (H23 f Hf).
  destruct f; simpl in *; congruence.
Qed.

Lemma unchanged_weaken fs fs' s s' :
  (forall f, In f fs -> In f fs') ->
  unchanged_except fs s s' -> unchanged_except fs' s s'.
Proof. intros Hsub H f Hf. apply H. intros Hin. apply Hf, Hsub, Hin. Qed.

Lemma frame_refl fs s w : frame fs s w s w.
Proof. apply unchanged_refl. Qed.

Lemma frame_trans fs s1 w1 s2 w2 s3 w3 :
  frame fs s1 w1 s2 w2 -> frame fs s2 w2 s3 w3 -> frame fs s1 w1 s3 w3.
Proof. apply unchanged_trans. Qed.

(** An assignment changes its own field only. *)
Ltac assignment :=
  let f := fresh "f" in let Hf := fresh "Hf" in
  intros f Hf; destruct f; try reflexivity; exfalso; apply Hf; simpl; tauto.

Lemma set_summary_frame fs v s : In F_summary fs -> unchanged_except fs s (set_summary v s).
Proof. intros Hin. assignment. Qed.

Lemma set_title_frame fs v s : In F_title fs -> unchanged_except fs s (set_title v s).
Proof. intros Hin. assignment. Qed.

Lemma set_tone_frame fs v s : In F_tone fs -> unchanged_except fs s (set_tone v s).
Proof. intros Hin. assignment. Qed.

Lemma set_key_points_frame fs v s :
  In F_key_points fs -> unchanged_except fs s (set_key_points v s).
Proof. intros Hin. assignment. Qed.

Lemma set_tags_frame fs v s : In F_tags fs -> unchanged_except fs s (set_tags v s).
Proof. intros Hin. assignment. Qed.

Lemma set_topic_frame fs v s : In F_topic fs -> unchanged_except fs s (set_topic v s).
Proof. intros Hin. assignment. Qed.

Lemma set_category_frame fs v s :
  In F_category fs -> unchanged_except fs s (set_category v s).
Proof. intros Hin. assignment. Qed.

Lemma set_confidence_frame fs v s :
  In F_confidence fs -> unchanged_except fs s (set_confidence v s).
Proof. intros Hin. assignment. Qed.

Lemma set_subcategories_frame fs v s :
  In F_subcategories fs -> unchanged_except fs s (set_subcategories v s).
Proof. intros Hin. assignment. Qed.

Lemma set_pinecone_id_frame fs v s :
  In F_pinecone_id fs -> unchanged_except fs s (set_pinecone_id v s).
Proof. intros Hin. assignment. Qed.

Lemma set_neo4j_id_frame fs v s :
  In F_neo4j_id fs -> unchanged_except fs s (set_neo4j_id v s).
Proof. intros Hin. assignment. Qed.

Lemma set_created_at_frame fs v s :
  In F_created_at fs -> unchanged_except fs s (set_created_at v s).
Proof. intros Hin. assignment. Qed.

Lemma set_processing_time_frame fs v s :
  In F_processing_time fs -> unchanged_except fs s (set_processing_time v s).
Proof. intros Hin. assignment. Qed.

Lemma set_token_count_frame fs v s :
  In F_token_count fs -> unchanged_except fs s (set_token_count v s).
Proof. intros Hin. assignment. Qed.

Lemma set_error_frame fs v s : In F_error fs -> unchanged_except fs s (set_error v s).
Proof. intros Hin. assignment. Qed.

Lemma set_error_step_frame fs v s :
  In F_error_step fs -> unchanged_except fs s (set_error_step v s).
Proof. intros Hin. assignment. Qed.

(** ** The steps: what they change *)

(** Solves [preserves R body] for a body built from the primitives of [M];
    [Hrefl] and [Htrans] show [R] a preorder, [Htick], [Hassign] and [Hput]
    discharge oracle calls, assignments and changes of the world. *)
Ltac preservation Hrefl Htrans Htick Hassign Hput :=
  repeat first
    [ apply preserves_ret; exact Hrefl
    | apply preserves_lift; exact Hrefl
    | apply preserves_get; exact Hrefl
    | apply preserves_get_world; exact Hrefl
    | apply preserves_ask; Htick
    | apply preserves_assign; Hassign
    | apply preserves_put_world; Hput
    | apply preserves_bind; [ exact Htrans | | intros ]
    | progress lazy zeta
    | match goal with
      | |- preserves _ (match ?x with _ => _ end) => destruct x
      end ].

Ltac in_list := simpl; tauto.

Ltac frame_assign :=
  intros;
  first [ apply set_summary_frame | apply set_title_frame | apply set_tone_frame
        | apply set_key_points_frame | apply set_tags_frame | apply set_topic_frame
        | apply set_category_frame | apply set_confidence_frame
        | apply set_subcategories_frame | apply set_pinecone_id_frame
        | apply set_neo4j_id_frame | apply set_created_at_frame
        | apply set_processing_time_frame | apply set_token_count_frame
        | apply set_error_frame | apply set_error_step_frame ];
  in_list.

Ltac frame_body fs :=
  preservation (frame_refl fs) (frame_trans fs)
    ltac:(intros; apply unchanged_refl) ltac:(frame_assign)
    ltac:(intros; apply unchanged_refl).

Lemma summarize_try_frame c t :
  preserves (frame summarize_writes) (summarize_try c t).
Proof. unfold summarize_try. frame_body summarize_writes. Qed.

Lemma classify_try_frame c : preserves (frame classify_fields) (classify_try c).
Proof. unfold classify_try. frame_body classify_fields. Qed.

Lemma PineconeService_store_summary_frame c d u v e fs :
  preserves (frame fs) (PineconeService_store_summary c d u v e).
Proof.
  unfold PineconeService_store_summary, PineconeService_create_metadata, index_upsert.
  frame_body fs.
Qed.

Lemma pinecone_store_try_frame c : preserves (frame [F_pinecone_id]) (pinecone_store_try c).
Proof.
  unfold pinecone_store_try.
  frame_body [F_pinecone_id].
Qed.

Lemma Neo4jService_store_summary_frame c p fs :
  preserves (frame fs) (Neo4jService_store_summary c p).
Proof. unfold Neo4jService_store_summary. frame_body fs. Qed.

Lemma neo4j_store_try_frame c : preserves (frame [F_neo4j_id]) (neo4j_store_try c).
Proof.
  unfold neo4j_store_try.
  frame_body [F_neo4j_id].
Qed.

Lemma guarded_cases fs step body s w s' w' :
  preserves (frame fs) body ->
  guarded step body s w = (s', w') ->
  (body s w = (Ok tt, s', w') /\ unchanged_except fs s s')
  \/ (exists e s1, body s w = (Raised e, s1, w')
                   /\ s' = set_error_step (Some step) (set_error (Some e) s1)
                   /\ unchanged_except fs s s1).
Proof.
  intros Hbody H. unfold guarded in H.
  destruct (body s w) as [[[[] | e] s1] w1] eqn:E; inversion H; subst.
  - left. split; [reflexivity | eapply Hbody; exact E].
  - right. exists e, s1. repeat split. eapply Hbody; exact E.
Qed.

(** After a guarded step every field outside the frame and the error channel
    is as before; the step's name is stamped exactly when the body raised. *)
Lemma guarded_frame fs step body s w :
  preserves (frame fs) body ->
  unchanged_except (fs ++ error_fields) s (fst (guarded step body s w)).
Proof.
  intros Hbody. destruct (guarded step body s w) as [s' w'] eqn:E.
  destruct (guarded_cases _ _ _ _ _ _ _ Hbody E) as [[_ H] | (e & s1 & _ & -> & H)].
  - eapply unchanged_weaken; [| exact H]. intros f Hf. apply in_or_app. now left.
  - simpl. eapply unchanged_trans.
    + eapply unchanged_weaken; [| exact H]. intros f Hf. apply in_or_app. now left.
    + eapply unchanged_trans; [apply set_error_frame | apply set_error_step_frame];
        apply in_or_app; right; simpl; tauto.
Qed.

Lemma guarded_error_step fs step body s w s' w' :
  preserves (frame fs) body -> ~ In F_error_step fs ->
  guarded step body s w = (s', w') ->
  error_step s' = Some step \/ error_step s' = error_step s.
Proof.
  intros Hbody Hnot E.
  destruct (guarded_cases _ _ _ _ _ _ _ Hbody E) as [[_ H] | (e & s1 & _ & -> & H)].
  - right. exact (H F_error_step Hnot).
  - left. reflexivity.
Qed.

(** What each step leaves alone. *)
Lemma summarize_node_frame c state w :
  unchanged_except (summarize_writes ++ error_fields) state (fst (summarize_node c state w)).
Proof. apply guarded_frame, summarize_try_frame. Qed.

Lemma classify_node_frame c state w :
  unchanged_except (classify_fields ++ error_fields) state (fst (classify_node c state w)).
Proof. apply guarded_frame, classify_try_frame. Qed.

Lemma pinecone_store_node_frame c state w :
  unchanged_except ([F_pinecone_id] ++ error_fields) state
    (fst (pinecone_store_node c state w)).
Proof. apply guarded_frame, pinecone_store_try_frame. Qed.

Lemma neo4j_store_node_frame c state w :
  unchanged_except ([F_neo4j_id] ++ error_fields) state (fst (neo4j_store_node c state w)).
Proof. apply guarded_frame, neo4j_store_try_frame. Qed.

(** What [finalize_node] does: it assigns the timestamp, and raises exactly
    when the error is empty and the summary has no length. *)
Lemma finalize_node_eq c s w :
  finalize_node c s w =
  (if truthy_str (error s) then Ok tt
   else match py_len (py_or (summary s) (JString "")) with
        | Ok _ => Ok tt
        | Raised e => Raised e
        end,
   set_created_at (Some (clock c (calls w))) s, tick w).
Proof.
  unfold finalize_node, bind, ask, assign, get, lift, ret. cbn.
  destruct (truthy_str (error s)); [reflexivity |].
  destruct (py_len _); reflexivity.
Qed.

Lemma finalize_node_frame c state w :
  unchanged_except [F_created_at] state (snd (fst (finalize_node c state w))).
Proof. rewrite finalize_node_eq. apply set_created_at_frame. simpl; tauto. Qed.

(** Inversion of a body that returned, or raised. *)
Lemma bind_ok {A B : Type} (m : M A) (k : A -> M B) s w b s' w' :
  bind m k s w = (Ok b, s', w') ->
  exists a s1 w1, m s w = (Ok a, s1, w1) /\ k a s1 w1 = (Ok b, s', w').
Proof.
  unfold bind. destruct (m s w) as [[[a | e] s1] w1]; [eauto | discriminate].
Qed.

Ltac prim H :=
  cbv [get lift ask assign ret put_world get_world] in H; inversion H; subst; clear H.

Ltac bind_ok H :=
  let a := fresh "a" in let s := fresh "s" in let w := fresh "w" in
  let H1 := fresh "H" in
  apply bind_ok in H; destruct H as (a & s & w & H1 & H); try (prim H1).

Lemma bind_raised {A B : Type} (m : M A) (k : A -> M B) s w e s' w' :
  bind m k s w = (Raised e, s', w') ->
  m s w = (Raised e, s', w')
  \/ exists a s1 w1, m s w = (Ok a, s1, w1) /\ k a s1 w1 = (Raised e, s', w').
Proof.
  unfold bind. destruct (m s w) as [[[a | e'] s1] w1]; intros H;
    [right; eauto 6 | left; inversion H; reflexivity].
Qed.

(** ** Frames of the steps (claim C9) *)

(** What [summarize_node] has done when its body completed: seven
    assignments, in this order, and nothing else. *)
Lemma summarize_try_ok c t s w s' w' :
  summarize_try c t s w = (Ok tt, s', w') ->
  exists v1 v2 v3 v4 v5 t',
    s' = set_processing_time (Some t')
           (set_token_count
              (Some (count_tokens c (truncate_text c (or_str (transcript s) "") token_budget)))
              (set_tags v5 (set_key_points v4 (set_tone v3 (set_title v2
                 (set_summary v1 s)))))).
Proof.
  unfold summarize_try. intros H.
  do 18 bind_ok H. prim H.
  do 6 eexists. reflexivity.
Qed.

Lemma guarded_step_effect fs step body s w :
  preserves (frame fs) body ->
  step_effect step fs (fst (fst (body s w))) s (fst (guarded step body s w)).
Proof.
  intros Hbody. destruct (guarded step body s w) as [s' w'] eqn:E. cbn [fst].
  destruct (guarded_cases _ _ _ _ _ _ _ Hbody E)
    as [[Hok Hfr] | (e & s1 & Hraised & -> & Hfr)].
  - rewrite Hok. exact Hfr.
  - rewrite Hraised. cbn [fst step_effect]. split; [reflexivity |].
    split; [reflexivity |].
    eapply unchanged_trans.
    + eapply unchanged_weaken; [| exact Hfr]. intros f Hf. apply in_or_app. now left.
    + eapply unchanged_trans; [apply set_error_frame | apply set_error_step_frame];
        apply in_or_app; right; simpl; tauto.
Qed.

(** C9, as amended.  When Summarize completes, the state it returns is the
    state it was given with exactly seven fields assigned: summary, title,
    tone, key_points, tags, token_count and also processing_time.  Each of
    Summarize, Classify, VectorStore and GraphStore changes no field outside
    its declared ones (for Summarize, those seven) when its body completes,
    the error channel included; when its body raises, it sets the error to
    the message and the error step to its name, and changes nothing else
    outside its declared fields.  Finalize changes created_at only. *)
Theorem steps_write_their_fields (c : Collaborators) (s : WorkflowState) (w : World) :
  (fst (fst (summarize_try c (clock c (calls w)) s (tick w))) = Ok tt ->
   exists v1 v2 v3 v4 v5 n t,
     fst (summarize_node c s w)
     = set_processing_time (Some t) (set_token_count (Some n)
         (set_tags v5 (set_key_points v4 (set_tone v3 (set_title v2
            (set_summary v1 s)))))))
  /\ step_effect "summarize" summarize_writes
       (fst (fst (summarize_try c (clock c (calls w)) s (tick w))))
       s (fst (summarize_node c s w))
  /\ step_effect "classify" classify_fields
       (fst (fst (classify_try c s (tick w)))) s (fst (classify_node c s w))
  /\ step_effect "pinecone_store" [F_pinecone_id]
       (fst (fst (pinecone_store_try c s (tick w)))) s (fst (pinecone_store_node c s w))
  /\ step_effect "neo4j_store" [F_neo4j_id]
       (fst (fst (neo4j_store_try c s (tick w)))) s (fst (neo4j_store_node c s w))
  /\ unchanged_except [F_created_at] s (snd (fst (finalize_node c s w))).
Proof.
  split; [| split; [| split; [| split; [| split]]]].
  - intros Hok. unfold summarize_node, guarded.
    destruct (summarize_try c (clock c (calls w)) s (tick w)) as [[o s1] w1] eqn:E.
    simpl in Hok. subst o. simpl.
    destruct (summarize_try_ok _ _ _ _ _ _ E) as (v1 & v2 & v3 & v4 & v5 & t & ->).
    eauto 8.
  - apply guarded_step_effect, summarize_try_frame.
  - apply guarded_step_effect, classify_try_frame.
  - apply guarded_step_effect, pinecone_store_try_frame.
  - apply guarded_step_effect, neo4j_store_try_frame.
  - apply finalize_node_frame.
Qed.

(** The claim C9 as stated fails on [processing_time]: Summarize completes
    and the field has changed. *)
Lemma summarize_writes_processing_time :
  let c := scripted prose (Ok []) None None in
  let s1 := fst (summarize_node c demo_state empty_world) in
  fst (fst (summarize_try c (clock c 0) demo_state (tick empty_world))) = Ok tt
  /\ error s1 = None
  /\ processing_time demo_state = None
  /\ processing_time s1 = Some 2
  /\ ~ unchanged_except summarize_fields demo_state s1.
Proof.
  repeat split.
  intros H. specialize (H F_processing_time). simpl in H.
  assert (Hnot : ~ (F_summary = F_processing_time \/ F_title = F_processing_time
                    \/ F_tone = F_processing_time \/ F_key_points = F_processing_time
                    \/ F_tags = F_processing_time \/ F_token_count = F_processing_time
                    \/ False)) by intuition discriminate.
  specialize (H Hnot). vm_compute in H. discriminate H.
Qed.

(** A run of Summarize that completes, and one whose model is down. *)
Lemma steps_write_their_fields_witness :
  (let c := scripted prose (Ok []) None None in
   exists v1 v2 v3 v4 v5 n t,
     fst (summarize_node c demo_state empty_world)
     = set_processing_time (Some t) (set_token_count (Some n)
         (set_tags v5 (set_key_points v4 (set_tone v3 (set_title v2
            (set_summary v1 demo_state)))))))
  /\ (let c := scripted unavailable (Ok []) None None in
      exists e,
        error (fst (summarize_node c demo_state empty_world)) = Some e
        /\ error_step (fst (summarize_node c demo_state empty_world)) = Some "summarize"
        /\ topic (fst (summarize_node c demo_state empty_world)) = topic demo_state).
Proof.
  split.
  - intros c.
    apply (proj1 (steps_write_their_fields c demo_state empty_world)).
    reflexivity.
  - intros c.
    pose proof (proj1 (proj2 (steps_write_their_fields c demo_state empty_world))) as H.
    destruct (fst (fst (summarize_try c (clock c (calls empty_world)) demo_state
                          (tick empty_world)))) as [[] | e] eqn:E;
      [vm_compute in E; discriminate E |].
    destruct H as (He & Hs & Hfr).
    exists e. split; [exact He |]. split; [exact Hs |].
    symmetry. apply (Hfr F_topic). simpl. intuition discriminate.
Defined.

(** ** The stores: what the steps do to the world *)

Lemma index_kept_refl s w : index_kept s w s w.
Proof. reflexivity. Qed.

Lemma index_kept_trans s1 w1 s2 w2 s3 w3 :
  index_kept s1 w1 s2 w2 -> index_kept s2 w2 s3 w3 -> index_kept s1 w1 s3 w3.
Proof. unfold index_kept. congruence. Qed.

Ltac index_body :=
  preservation index_kept_refl index_kept_trans
    ltac:(intros; reflexivity) ltac:(intros; reflexivity) ltac:(intros; reflexivity).

Lemma neo4j_store_try_index c : preserves index_kept (neo4j_store_try c).
Proof. unfold neo4j_store_try, Neo4jService_store_summary. index_body. Qed.

Lemma neo4j_store_node_index c s w :
  pinecone_index (snd (neo4j_store_node c s w)) = pinecone_index w.
Proof.
  unfold neo4j_store_node, guarded.
  destruct (neo4j_store_try c s (tick w)) as [[[[] | e] s1] w1] eqn:E;
    apply neo4j_store_try_index in E; exact E.
Qed.

Lemma PineconeService_create_metadata_ok c d u v s w md s' w' :
  PineconeService_create_metadata c d u v s w = (Ok md, s', w') ->
  s' = s /\ pinecone_index w' = pinecone_index w.
Proof.
  unfold PineconeService_create_metadata. intros H.
  bind_ok H. bind_ok H. prim H. split; reflexivity.
Qed.

Lemma index_upsert_ok c id r s w s' w' :
  index_upsert c id r s w = (Ok tt, s', w') ->
  s' = s /\ pinecone_index w' = <[id := r]> (pinecone_index w).
Proof.
  unfold index_upsert. intros H. bind_ok H.
  destruct (pinecone_upsert_fault c (calls w)); prim H.
  split; reflexivity.
Qed.

Lemma PineconeService_store_summary_ok c d u v e s w id s' w' :
  PineconeService_store_summary c d u v e s w = (Ok id, s', w') ->
  id = PineconeService_generate_id c v u /\ s' = s
  /\ is_Some (pinecone_index w' !! id).
Proof.
  unfold PineconeService_store_summary. intros H.
  apply bind_ok in H. destruct H as (md & s1 & w1 & Hmd & H).
  apply PineconeService_create_metadata_ok in Hmd. destruct Hmd as [-> _].
  apply bind_ok in H. destruct H as ([] & s2 & w2 & Hup & H).
  apply index_upsert_ok in Hup. destruct Hup as [-> Hidx].
  prim H. repeat split. rewrite Hidx, lookup_insert_eq. eauto.
Qed.

Lemma pinecone_store_try_ok c s w s' w' :
  pinecone_store_try c s w = (Ok tt, s', w') ->
  s' = set_pinecone_id (Some (vector_id_of c s)) s
  /\ is_Some (pinecone_index w' !! vector_id_of c s).
Proof.
  unfold pinecone_store_try. intros H.
  bind_ok H. bind_ok H. bind_ok H. bind_ok H. bind_ok H. bind_ok H.
  bind_ok H.
  match goal with
  | Hs : PineconeService_store_summary _ _ _ _ _ _ _ = _ |- _ =>
      apply PineconeService_store_summary_ok in Hs; destruct Hs as (-> & -> & Hidx)
  end.
  prim H. split; [reflexivity | exact Hidx].
Qed.

(** A step that left its own name in [error_step] although the state it was
    given carried another name (or none) has raised; a vector-store step
    whose state does not carry its name has stored the vector. *)
Lemma pinecone_store_node_succeeded c s w s' w' :
  pinecone_store_node c s w = (s', w') ->
  error_step s' <> Some "pinecone_store" ->
  s' = set_pinecone_id (Some (vector_id_of c s)) s
  /\ is_Some (pinecone_index w' !! vector_id_of c s).
Proof.
  unfold pinecone_store_node. intros H Hstep.
  destruct (guarded_cases _ _ _ _ _ _ _ (pinecone_store_try_frame c) H)
    as [[Hok _] | (e & s1 & _ & -> & _)].
  - now apply pinecone_store_try_ok in Hok.
  - now contradiction Hstep.
Qed.

Lemma Neo4jService_store_summary_state c p s w o s' w' :
  Neo4jService_store_summary c p s w = (o, s', w') -> s' = s.
Proof.
  unfold Neo4jService_store_summary, bind, ask, lift, get_world, put_world, ret.
  destruct (neo4j_session_fault c (calls w)); [intros H; now inversion H |].
  cbn. destruct (store_summary_query p _ _). intros H; now inversion H.
Qed.

(** The graph-store step assigns [neo4j_id] last: when it raises, the state
    is as it was given. *)
Lemma neo4j_store_try_raised c s w e s' w' :
  neo4j_store_try c s w = (Raised e, s', w') -> s' = s.
Proof.
  unfold neo4j_store_try. intros H.
  apply bind_raised in H. destruct H as [H | (a & s1 & w1 & H1 & H)]; [prim H; reflexivity |].
  prim H1.
  apply bind_raised in H. destruct H as [H | (g & s2 & w2 & H1 & H)].
  - now apply Neo4jService_store_summary_state in H.
  - prim H.
Qed.

Lemma neo4j_store_node_failed c s w s' w' :
  neo4j_store_node c s w = (s', w') ->
  error_step s <> Some "neo4j_store" ->
  error_step s' = Some "neo4j_store" ->
  exists e, s' = set_error_step (Some "neo4j_store") (set_error (Some e) s).
Proof.
  unfold neo4j_store_node. intros H Hbefore Hafter.
  destruct (guarded_cases _ _ _ _ _ _ _ (neo4j_store_try_frame c) H)
    as [[_ Hfr] | (e & s1 & Hraised & -> & _)].
  - exfalso. apply Hbefore. rewrite <- Hafter. symmetry.
    apply (Hfr F_error_step). simpl. intuition discriminate.
  - apply neo4j_store_try_raised in Hraised. subst s1. now exists e.
Qed.

(** ** Key points under repeated merges *)

Lemma key_points_create_other label props g :
  String.eqb label "KeyPoint" = false ->
  key_point_count (snd (Cypher.create_node label props g)) = key_point_count g.
Proof.
  intros Hl. unfold key_point_count, nodes_labelled, Cypher.create_node. simpl.
  rewrite List.filter_app, List.length_app. simpl. rewrite Hl. simpl. lia.
Qed.

Lemma key_points_create props g :
  key_point_count (snd (Cypher.create_node "KeyPoint" props g)) = S (key_point_count g).
Proof.
  unfold key_point_count, nodes_labelled, Cypher.create_node. simpl.
  rewrite List.filter_app, List.length_app. simpl. lia.
Qed.

Lemma key_points_merge_node label key value g :
  String.eqb label "KeyPoint" = false ->
  key_point_count (snd (Cypher.merge_node label key value g)) = key_point_count g.
Proof.
  intros Hl. unfold Cypher.merge_node.
  destruct (List.find _ _); [reflexivity | now apply key_points_create_other].
Qed.

Lemma key_points_merge_rel a ty b g :
  key_point_count (Cypher.merge_rel a ty b g) = key_point_count g.
Proof. unfold Cypher.merge_rel. now destruct (List.existsb _ _). Qed.

Lemma key_points_set_prop id key value g :
  key_point_count (Cypher.set_prop id key value g) = key_point_count g.
Proof.
  unfold key_point_count, nodes_labelled, Cypher.set_prop. simpl.
  induction (g_nodes g) as [| n l IH]; [reflexivity |].
  simpl. destruct (Nat.eqb (node_id n) id); simpl;
    destruct (String.eqb (node_label n) "KeyPoint"); simpl; now rewrite IH.
Qed.

Lemma key_points_fold_kept {A : Type} (step : Graph -> A -> Graph) (rows : list A) g :
  (forall g x, key_point_count (step g x) = key_point_count g) ->
  key_point_count (List.fold_left step rows g) = key_point_count g.
Proof.
  intros Hstep. revert g. induction rows as [| x rows IH]; intros g; simpl;
    [reflexivity | now rewrite IH, Hstep].
Qed.

Lemma key_points_fold_added {A : Type} (step : Graph -> A -> Graph) (rows : list A) g :
  (forall g x, key_point_count (step g x) = S (key_point_count g)) ->
  key_point_count (List.fold_left step rows g)
  = (key_point_count g + List.length rows)%nat.
Proof.
  intros Hstep. revert g. induction rows as [| x rows IH]; intros g; simpl;
    [lia | rewrite IH, Hstep; lia].
Qed.

(** Every run of the query adds one KeyPoint node for each row it returns,
    whatever the graph already holds: the key points of a summary stored
    before are created again. *)
Lemma store_summary_query_adds_key_points p now g :
  key_point_count (fst (store_summary_query p now g))
  = (key_point_count g + List.length (snd (store_summary_query p now g)))%nat.
Proof.
  unfold store_summary_query.
  repeat match goal with
         | |- context [Cypher.merge_node ?l ?k ?v ?g0] =>
             let n := fresh "n" in let g' := fresh "g" in let E := fresh "E" in
             let K := fresh "K" in
             destruct (Cypher.merge_node l k v g0) as [n g'] eqn:E;
             assert (K : key_point_count g' = key_point_count g0)
               by (change g' with (snd (n, g')); rewrite <- E;
                   apply key_points_merge_node; reflexivity);
             clear E
         end.
  cbn [fst snd]. rewrite List.length_map.
  rewrite key_points_fold_added.
  - rewrite !key_points_fold_kept.
    + rewrite !key_points_merge_rel. rewrite !key_points_set_prop in *. congruence.
    + intros g' x. destruct (Cypher.merge_node "Subcategory" "name" x g') as [sc g''] eqn:E.
      rewrite !key_points_merge_rel. change g'' with (snd (sc, g'')). rewrite <- E.
      now apply key_points_merge_node.
    + intros g' x. destruct (Cypher.merge_node "Tag" "name" x g') as [tag g''] eqn:E.
      rewrite key_points_merge_rel. change g'' with (snd (tag, g'')). rewrite <- E.
      now apply key_points_merge_node.
  - intros g' x. destruct (Cypher.create_node "KeyPoint" [("text", x)] g') as [kp g''] eqn:E.
    rewrite key_points_merge_rel. change g'' with (snd (kp, g'')). rewrite <- E.
    apply key_points_create.
Qed.

(** ** What the merges of the query do on a second run *)

Lemma json_eqb_refl : forall v : json, json_eqb v v = true.
Proof.
  fix IH 1. intros v. destruct v as [| b | x | x | items | members]; simpl.
  - reflexivity.
  - now destruct b.
  - apply String.eqb_refl.
  - apply String.eqb_refl.
  - revert items. fix IHitems 1. intros [| x items]; [reflexivity |].
    rewrite IH. simpl. apply IHitems.
  - revert members. fix IHmembers 1. intros [| [k x] members]; [reflexivity |].
    rewrite String.eqb_refl, IH. simpl. apply IHmembers.
Qed.

Lemma assoc_dict_set_ne k k' v d :
  k <> k' -> assoc k (Json.dict_set k' v d) = assoc k d.
Proof.
  intros Hne. induction d as [| [k0 v0] d IH]; simpl.
  - destruct (String.eqb_spec k k'); [contradiction | reflexivity].
  - destruct (String.eqb_spec k' k0) as [-> | Hk0]; simpl.
    + destruct (String.eqb_spec k k0); [contradiction | reflexivity].
    + now rewrite IH.
Qed.

Lemma has_node_find label key value g :
  has_node label key value g ->
  exists n, List.find (Cypher.node_matches label key value) (g_nodes g) = Some n.
Proof.
  intros (n & Hin & Hm).
  destruct (List.find _ (g_nodes g)) as [n' |] eqn:E; [eauto |].
  pose proof (List.find_none _ _ E n Hin) as Hf. congruence.
Qed.

(** On a graph that has the node, [MERGE] binds it and changes nothing. *)
Lemma merge_node_existing label key value g :
  has_node label key value g -> snd (Cypher.merge_node label key value g) = g.
Proof.
  intros H. destruct (has_node_find _ _ _ _ H) as [n E].
  unfold Cypher.merge_node. now rewrite E.
Qed.

Lemma has_node_merge_node label key value g :
  has_node label key value (snd (Cypher.merge_node label key value g)).
Proof.
  unfold Cypher.merge_node.
  destruct (List.find _ (g_nodes g)) as [n |] eqn:E.
  - apply List.find_some in E. destruct E as [Hin Hm]. now exists n.
  - eexists. split; [apply in_or_app; right; left; reflexivity |].
    unfold Cypher.node_matches. simpl.
    now rewrite !String.eqb_refl, json_eqb_refl.
Qed.

Lemma keeps_nodes_refl g : keeps_nodes g g.
Proof. intros label key value _ H. exact H. Qed.

Lemma keeps_nodes_trans g1 g2 g3 :
  keeps_nodes g1 g2 -> keeps_nodes g2 g3 -> keeps_nodes g1 g3.
Proof. unfold keeps_nodes. eauto. Qed.

Lemma keeps_nodes_create label props g :
  keeps_nodes g (snd (Cypher.create_node label props g)).
Proof.
  intros l k v _ (n & Hin & Hm). exists n. split; [| exact Hm].
  simpl. apply in_or_app. now left.
Qed.

Lemma keeps_nodes_merge_node label key value g :
  keeps_nodes g (snd (Cypher.merge_node label key value g)).
Proof.
  unfold Cypher.merge_node. destruct (List.find _ _);
    [apply keeps_nodes_refl | apply keeps_nodes_create].
Qed.

Lemma keeps_nodes_merge_rel a ty b g : keeps_nodes g (Cypher.merge_rel a ty b g).
Proof.
  unfold Cypher.merge_rel. destruct (List.existsb _ _); [apply keeps_nodes_refl |].
  intros l k v _ H. exact H.
Qed.

Lemma keeps_nodes_set_prop id key value g :
  ~ In key ["video_id"; "user_id"; "name"] ->
  keeps_nodes g (Cypher.set_prop id key value g).
Proof.
  intros Hkey l k v Hk (n & Hin & Hm).
  assert (Hne : k <> key) by (intros ->; contradiction).
  unfold Cypher.set_prop. simpl.
  eexists. split; [apply List.in_map; exact Hin |].
  destruct (Nat.eqb (node_id n) id); [| exact Hm].
  unfold Cypher.node_matches in *. simpl. now rewrite assoc_dict_set_ne.
Qed.

Lemma node_count_merge_rel a ty b g :
  List.length (g_nodes (Cypher.merge_rel a ty b g)) = List.length (g_nodes g).
Proof. unfold Cypher.merge_rel. now destruct (List.existsb _ _). Qed.

Lemma node_count_set_prop id key value g :
  List.length (g_nodes (Cypher.set_prop id key value g)) = List.length (g_nodes g).
Proof. unfold Cypher.set_prop. simpl. apply List.length_map. Qed.

Lemma store_summary_query_clauses p now g :
  store_summary_query p now g =
  let '(v, t, g1) := query_head p now g in
  (List.fold_left (key_point_clause v) (point_rows p)
     (List.fold_left (tag_clause v) (tag_rows p)
        (List.fold_left (subcategory_clause v t) (subcat_rows p) g1)),
   List.map (fun _ => JString (p_video_id p)) (point_rows p)).
Proof.
  unfold store_summary_query, query_head.
  repeat match goal with
         | |- context [Cypher.merge_node ?l ?k ?v ?g0] =>
             destruct (Cypher.merge_node l k v g0)
         end.
  reflexivity.
Qed.

Lemma has_node_same_nodes label key value g g' :
  g_nodes g' = g_nodes g -> has_node label key value g -> has_node label key value g'.
Proof. unfold has_node. intros ->. exact id. Qed.

Ltac name_key := simpl; tauto.

Ltac other_key := simpl; intuition discriminate.

Lemma merged_present_kept p g g' :
  keeps_nodes g g' -> merged_present p g -> merged_present p g'.
Proof.
  intros K (Hv & Hu & Ht & Hc & Hs & Hg).
  repeat split; try (apply K; [name_key | assumption]).
  - intros x Hx. apply K; [name_key | now apply Hs].
  - intros x Hx. apply K; [name_key | now apply Hg].
Qed.

(** The clauses keep the nodes of the graph. *)
Lemma query_head_keeps p now g : keeps_nodes g (snd (query_head p now g)).
Proof.
  unfold query_head.
  repeat match goal with
         | |- context [Cypher.merge_node ?l ?k ?v ?g0] =>
             let n := fresh "n" in let g' := fresh "g" in let E := fresh "E" in
             let K := fresh "K" in
             destruct (Cypher.merge_node l k v g0) as [n g'] eqn:E;
             assert (K : keeps_nodes g0 g')
               by (change g' with (snd (n, g')); rewrite <- E;
                   apply keeps_nodes_merge_node);
             clear E
         end.
  cbn [snd].
  repeat first
    [ eassumption
    | eapply keeps_nodes_trans; [| apply keeps_nodes_merge_rel]
    | eapply keeps_nodes_trans; [| apply keeps_nodes_set_prop; other_key]
    | eapply keeps_nodes_trans; [| eassumption] ].
Qed.

Lemma subcategory_clause_keeps v t g x : keeps_nodes g (subcategory_clause v t g x).
Proof.
  unfold subcategory_clause.
  destruct (Cypher.merge_node "Subcategory" "name" x g) as [sc g'] eqn:E.
  eapply keeps_nodes_trans; [| apply keeps_nodes_merge_rel].
  eapply keeps_nodes_trans; [| apply keeps_nodes_merge_rel].
  change g' with (snd (sc, g')). rewrite <- E. apply keeps_nodes_merge_node.
Qed.

Lemma tag_clause_keeps v g x : keeps_nodes g (tag_clause v g x).
Proof.
  unfold tag_clause.
  destruct (Cypher.merge_node "Tag" "name" x g) as [tag g'] eqn:E.
  eapply keeps_nodes_trans; [| apply keeps_nodes_merge_rel].
  change g' with (snd (tag, g')). rewrite <- E. apply keeps_nodes_merge_node.
Qed.

Lemma key_point_clause_keeps v g x : keeps_nodes g (key_point_clause v g x).
Proof.
  unfold key_point_clause.
  destruct (Cypher.create_node "KeyPoint" [("text", x)] g) as [kp g'] eqn:E.
  eapply keeps_nodes_trans; [| apply keeps_nodes_merge_rel].
  change g' with (snd (kp, g')). rewrite <- E. apply keeps_nodes_create.
Qed.

Lemma fold_keeps {A : Type} (step : Graph -> A -> Graph) (rows : list A) g :
  (forall g x, keeps_nodes g (step g x)) ->
  keeps_nodes g (List.fold_left step rows g).
Proof.
  intros Hstep. revert g. induction rows as [| x rows IH]; intros g; simpl.
  - apply keeps_nodes_refl.
  - eapply keeps_nodes_trans; [apply Hstep | apply IH].
Qed.

(** After a fold of merging clauses every row has its node. *)
Lemma fold_merges {A : Type} (step : Graph -> A -> Graph)
  (present : A -> Graph -> Prop) (rows : list A) g :
  (forall g x, keeps_nodes g (step g x)) ->
  (forall g g' x, keeps_nodes g g' -> present x g -> present x g') ->
  (forall g x, present x (step g x)) ->
  forall x, In x rows -> present x (List.fold_left step rows g).
Proof.
  intros Hkeep Hmono Hstep. revert g.
  induction rows as [| y rows IH]; intros g x Hin; simpl in *; [contradiction |].
  destruct Hin as [-> | Hin]; [| now apply IH].
  eapply Hmono; [apply fold_keeps; exact Hkeep | apply Hstep].
Qed.

Lemma subcategory_clause_merges v t g x :
  has_node "Subcategory" "name" x (subcategory_clause v t g x).
Proof.
  unfold subcategory_clause.
  destruct (Cypher.merge_node "Subcategory" "name" x g) as [sc g'] eqn:E.
  apply keeps_nodes_merge_rel; [name_key |].
  apply keeps_nodes_merge_rel; [name_key |].
  change g' with (snd (sc, g')). rewrite <- E. apply has_node_merge_node.
Qed.

Lemma tag_clause_merges v g x : has_node "Tag" "name" x (tag_clause v g x).
Proof.
  unfold tag_clause.
  destruct (Cypher.merge_node "Tag" "name" x g) as [tag g'] eqn:E.
  apply keeps_nodes_merge_rel; [name_key |].
  change g' with (snd (tag, g')). rewrite <- E. apply has_node_merge_node.
Qed.

Lemma query_head_merges p now g :
  let g1 := snd (query_head p now g) in
  has_node "Video" "video_id" (JString (p_video_id p)) g1
  /\ has_node "User" "user_id" (JString (p_user_id p)) g1
  /\ has_node "Topic" "name" (p_topic p) g1
  /\ has_node "Category" "name" (p_category p) g1.
Proof.
  unfold query_head.
  repeat match goal with
         | |- context [Cypher.merge_node ?l ?k ?v ?g0] =>
             let n := fresh "n" in let g' := fresh "g" in let E := fresh "E" in
             let K := fresh "K" in let H := fresh "Hhas" in
             destruct (Cypher.merge_node l k v g0) as [n g'] eqn:E;
             assert (K : keeps_nodes g0 g')
               by (change g' with (snd (n, g')); rewrite <- E;
                   apply keeps_nodes_merge_node);
             assert (H : has_node l k v g')
               by (change g' with (snd (n, g')); rewrite <- E;
                   apply has_node_merge_node);
             clear E
         end.
  cbn [snd].
  repeat split;
    repeat first
      [ eassumption
      | apply keeps_nodes_merge_rel; [name_key |]
      | apply keeps_nodes_set_prop; [other_key | name_key |]
      | match goal with
        | K : keeps_nodes ?a ?b |- has_node _ _ _ ?b => apply K; [name_key |]
        end ].
Qed.

(** After one run, the graph has every node the query merges. *)
Lemma store_summary_query_merges p now g :
  merged_present p (fst (store_summary_query p now g)).
Proof.
  rewrite store_summary_query_clauses.
  pose proof (query_head_merges p now g) as Hhead.
  destruct (query_head p now g) as [[v t] g1]. cbn [fst snd] in *.
  set (g2 := List.fold_left (subcategory_clause v t) (subcat_rows p) g1).
  set (g3 := List.fold_left (tag_clause v) (tag_rows p) g2).
  set (g4 := List.fold_left (key_point_clause v) (point_rows p) g3).
  assert (K2 : keeps_nodes g1 g2) by apply fold_keeps, subcategory_clause_keeps.
  assert (K3 : keeps_nodes g2 g3) by apply fold_keeps, tag_clause_keeps.
  assert (K4 : keeps_nodes g3 g4) by apply fold_keeps, key_point_clause_keeps.
  destruct Hhead as (Hv & Hu & Ht & Hc).
  repeat split.
  - apply K4, K3, K2; [name_key .. | exact Hv].
  - apply K4, K3, K2; [name_key .. | exact Hu].
  - apply K4, K3, K2; [name_key .. | exact Ht].
  - apply K4, K3, K2; [name_key .. | exact Hc].
  - intros x Hx. apply K4, K3; [name_key .. |].
    apply (fold_merges (subcategory_clause v t)
             (fun x g => has_node "Subcategory" "name" x g)); try assumption.
    + apply subcategory_clause_keeps.
    + intros ga gb y K H. apply K; [name_key | exact H].
    + apply subcategory_clause_merges.
  - intros x Hx. apply K4; [name_key |].
    apply (fold_merges (tag_clause v) (fun x g => has_node "Tag" "name" x g));
      try assumption.
    + apply tag_clause_keeps.
    + intros ga gb y K H. apply K; [name_key | exact H].
    + apply tag_clause_merges.
Qed.

Lemma g_nodes_merge_rel a ty b g : g_nodes (Cypher.merge_rel a ty b g) = g_nodes g.
Proof. unfold Cypher.merge_rel. now destruct (List.existsb _ _). Qed.

(** On a graph that has all it merges, the clauses before the key points add
    no node. *)
Lemma query_head_adds_nothing p now g :
  merged_present p g ->
  List.length (g_nodes (snd (query_head p now g))) = List.length (g_nodes g).
Proof.
  intros (Hv & Hu & Ht & Hc & _). unfold query_head.
  repeat match goal with
         | |- context [Cypher.merge_node ?l ?k ?v ?g0] =>
             let n := fresh "n" in let g' := fresh "g" in let E := fresh "E" in
             let Hg := fresh "Hg" in
             destruct (Cypher.merge_node l k v g0) as [n g'] eqn:E;
             assert (Hg : g' = g0)
               by (change g' with (snd (n, g')); rewrite <- E;
                   apply merge_node_existing;
                   repeat (apply keeps_nodes_set_prop; [other_key | name_key |]);
                   assumption);
             subst g'; clear E
         end.
  cbn [snd]. now rewrite !node_count_merge_rel, !node_count_set_prop.
Qed.

Lemma subcategory_clause_adds_nothing v t g x :
  has_node "Subcategory" "name" x g ->
  g_nodes (subcategory_clause v t g x) = g_nodes g.
Proof.
  intros H. unfold subcategory_clause.
  destruct (Cypher.merge_node "Subcategory" "name" x g) as [sc g'] eqn:E.
  rewrite !g_nodes_merge_rel. change g' with (snd (sc, g')). rewrite <- E.
  now rewrite merge_node_existing.
Qed.

Lemma tag_clause_adds_nothing v g x :
  has_node "Tag" "name" x g -> g_nodes (tag_clause v g x) = g_nodes g.
Proof.
  intros H. unfold tag_clause.
  destruct (Cypher.merge_node "Tag" "name" x g) as [tag g'] eqn:E.
  rewrite g_nodes_merge_rel. change g' with (snd (tag, g')). rewrite <- E.
  now rewrite merge_node_existing.
Qed.

Lemma fold_adds_nothing {A : Type} (step : Graph -> A -> Graph)
  (present : A -> Graph -> Prop) (rows : list A) g :
  (forall g g' x, g_nodes g' = g_nodes g -> present x g -> present x g') ->
  (forall g x, present x g -> g_nodes (step g x) = g_nodes g) ->
  (forall x, In x rows -> present x g) ->
  g_nodes (List.fold_left step rows g) = g_nodes g.
Proof.
  intros Hsame Hstep. revert g.
  induction rows as [| y rows IH]; intros g Hall; simpl; [reflexivity |].
  assert (Hy : g_nodes (step g y) = g_nodes g) by (apply Hstep, Hall; now left).
  rewrite IH; [exact Hy |].
  intros x Hx. eapply Hsame; [exact Hy | apply Hall; now right].
Qed.

Lemma key_point_clause_adds_one v g x :
  List.length (g_nodes (key_point_clause v g x)) = S (List.length (g_nodes g)).
Proof.
  unfold key_point_clause, Cypher.create_node. rewrite g_nodes_merge_rel. simpl.
  rewrite List.length_app. simpl. lia.
Qed.

Lemma fold_key_points_adds v rows g :
  List.length (g_nodes (List.fold_left (key_point_clause v) rows g))
  = (List.length (g_nodes g) + List.length rows)%nat.
Proof.
  revert g. induction rows as [| x rows IH]; intros g; simpl; [lia |].
  rewrite IH, key_point_clause_adds_one. lia.
Qed.

(** Run on a graph that has all it merges, the query adds the key points and
    no other node. *)
Lemma store_summary_query_on_merged p now g :
  merged_present p g ->
  List.length (g_nodes (fst (store_summary_query p now g)))
  = (List.length (g_nodes g) + List.length (point_rows p))%nat.
Proof.
  intros Hp. rewrite store_summary_query_clauses.
  pose proof (query_head_adds_nothing p now g Hp) as Hcount.
  pose proof (merged_present_kept p _ _ (query_head_keeps p now g) Hp) as Hp1.
  destruct (query_head p now g) as [[v t] g1]. cbn [fst snd] in *.
  destruct Hp1 as (_ & _ & _ & _ & Hs & Hg).
  set (g2 := List.fold_left (subcategory_clause v t) (subcat_rows p) g1).
  assert (E2 : g_nodes g2 = g_nodes g1).
  { apply (fold_adds_nothing _ (fun x g => has_node "Subcategory" "name" x g)).
    - intros ga gb x. apply has_node_same_nodes.
    - intros ga x. apply subcategory_clause_adds_nothing.
    - exact Hs. }
  set (g3 := List.fold_left (tag_clause v) (tag_rows p) g2).
  assert (E3 : g_nodes g3 = g_nodes g2).
  { apply (fold_adds_nothing _ (fun x g => has_node "Tag" "name" x g)).
    - intros ga gb x. apply has_node_same_nodes.
    - intros ga x. apply tag_clause_adds_nothing.
    - intros x Hx. eapply has_node_same_nodes; [exact E2 | now apply Hg]. }
  rewrite fold_key_points_adds, E3, E2, Hcount. reflexivity.
Qed.

(** A second run of the modelled query with the same inputs adds one
    KeyPoint node for each row of key points and no other node: what it
    merges is not duplicated, what it creates is. *)
Lemma store_summary_query_twice p now now' g :
  let once := fst (store_summary_query p now g) in
  let twice := fst (store_summary_query p now' once) in
  List.length (g_nodes twice)
  = (List.length (g_nodes once) + List.length (point_rows p))%nat
  /\ key_point_count twice = (key_point_count once + List.length (point_rows p))%nat.
Proof.
  intros once twice. split.
  - apply store_summary_query_on_merged, store_summary_query_merges.
  - unfold twice. rewrite store_summary_query_adds_key_points.
    rewrite store_summary_query_clauses.
    destruct (query_head p now' once) as [[v t] g1]. cbn [snd].
    now rewrite List.length_map.
Qed.

(** ** The graph merge (claim C4) *)

(** C4 at an input with one key point.  Storing the same summary twice leaves
    two KeyPoint nodes where storing it once leaves one: the second run
    creates a duplicate.  The nodes the query merges are not duplicated. *)
Theorem second_store_duplicates_key_points :
  let c := scripted prose (Ok []) None None in
  let once := snd (Neo4jService_store_summary c demo_params demo_state empty_world) in
  let twice := snd (Neo4jService_store_summary c demo_params demo_state once) in
  List.length (nodes_labelled "KeyPoint" (graph_db once)) = 1%nat
  /\ List.length (nodes_labelled "KeyPoint" (graph_db twice)) = 2%nat
  /\ List.map node_props (nodes_labelled "KeyPoint" (graph_db twice))
     = [[("text", JString "induction")]; [("text", JString "induction")]]
  /\ List.length (g_nodes (graph_db once)) = 7%nat
  /\ List.length (g_nodes (graph_db twice)) = 8%nat.
Proof. repeat split. Qed.

(** ** The executor on the graph of [create_workflow] *)

Section Pipeline.

Variable c : Collaborators.

(** The Pipeline Definition of the graph that [create_workflow] builds: the
    five steps in the order of its edges. *)
Lemma pipeline_definition_create_workflow :
  pipeline_definition (create_workflow c)
  = [("summarize", returning (summarize_node c));
     ("classify", returning (classify_node c));
     ("pinecone_store", returning (pinecone_store_node c));
     ("neo4j_store", returning (neo4j_store_node c));
     ("finalize", finalize_node c)].
Proof.
  lazy -[summarize_node classify_node pinecone_store_node neo4j_store_node
         finalize_node returning].
  reflexivity.
Qed.

(** The checkpointer of a graph plays no part in the steps it runs. *)
Lemma steps_from_set_checkpointer g fuel name :
  steps_from (set_checkpointer g) fuel name = steps_from g fuel name.
Proof.
  revert name. induction fuel as [| fuel IH]; intros name; [reflexivity |].
  cbn [steps_from].
  replace (sg_nodes (set_checkpointer g)) with (sg_nodes g) by (destruct g; reflexivity).
  replace (sg_edges (set_checkpointer g)) with (sg_edges g) by (destruct g; reflexivity).
  destruct (String.eqb name END); [reflexivity |].
  destruct (lookup_name name (sg_nodes g)); [| reflexivity].
  destruct (lookup_name name (sg_edges g)); [| reflexivity].
  now rewrite IH.
Qed.

Lemma execute_set_checkpointer g state w :
  execute (set_checkpointer g) state w = execute g state w.
Proof.
  unfold execute, pipeline_definition.
  replace (sg_entry_point (set_checkpointer g)) with (sg_entry_point g)
    by (destruct g; reflexivity).
  replace (sg_nodes (set_checkpointer g)) with (sg_nodes g) by (destruct g; reflexivity).
  destruct (sg_entry_point g); [| reflexivity].
  rewrite steps_from_set_checkpointer. reflexivity.
Qed.

Lemma execute_workflow_graph state w :
  execute (workflow_graph c) state w = execute (create_workflow c) state w.
Proof.
  unfold workflow_graph, create_workflow_with_memory. cbv zeta.
  apply execute_set_checkpointer.
Qed.

(** A node that always returns is never stamped by the executor. *)
Lemma guarded_returning name node s w : guarded name (returning node) s w = node s w.
Proof. unfold guarded, returning. destruct (node s w); reflexivity. Qed.

Lemma execute_create_workflow state w :
  execute (create_workflow c) state w
  = let '(final, history, w') :=
      run_steps (pipeline_definition (create_workflow c)) state w in
    (Ok (final, history), w').
Proof.
  unfold execute.
  replace (sg_entry_point (create_workflow c)) with (Some "summarize") by reflexivity.
  reflexivity.
Qed.

Opaque summarize_node classify_node pinecone_store_node neo4j_store_node finalize_node.

(** Every run of the graph returns, in one of the six ways. *)
Lemma execute_runs state w :
  exists final history w',
    execute (create_workflow c) state w = (Ok (final, history), w')
    /\ execute (workflow_graph c) state w = (Ok (final, history), w')
    /\ runs_to c state w final history w'.
Proof.
  rewrite execute_workflow_graph, execute_create_workflow,
    pipeline_definition_create_workflow.
  cbn [run_steps]. rewrite !guarded_returning.
  destruct (truthy_str (error state)) eqn:T0.
  { do 3 eexists; repeat split; apply halt_at_entry; assumption. }
  destruct (summarize_node c state w) as [s1 w1] eqn:E1.
  cbn [run_steps]. rewrite !guarded_returning.
  destruct (truthy_str (error s1)) eqn:T1.
  { do 3 eexists; repeat split; eapply halt_after_summarize; eassumption. }
  destruct (classify_node c s1 w1) as [s2 w2] eqn:E2.
  cbn [run_steps]. rewrite !guarded_returning.
  destruct (truthy_str (error s2)) eqn:T2.
  { do 3 eexists; repeat split; eapply halt_after_classify; eassumption. }
  destruct (pinecone_store_node c s2 w2) as [s3 w3] eqn:E3.
  cbn [run_steps]. rewrite !guarded_returning.
  destruct (truthy_str (error s3)) eqn:T3.
  { do 3 eexists; repeat split; eapply halt_after_pinecone_store; eassumption. }
  destruct (neo4j_store_node c s3 w3) as [s4 w4] eqn:E4.
  cbn [run_steps].
  destruct (truthy_str (error s4)) eqn:T4.
  { do 3 eexists; repeat split; eapply halt_after_neo4j_store; eassumption. }
  fold (finalize_step c).
  destruct (finalize_step c s4 w4) as [s5 w5] eqn:E5.
  do 3 eexists; repeat split; eapply all_steps; eassumption.
Qed.

Transparent summarize_node classify_node pinecone_store_node neo4j_store_node
  finalize_node.

End Pipeline.



(** A field outside the frame of a step, read off the step's equation. *)
Ltac kept Hnode Hframe f :=
  let H := fresh "Hkept" in
  pose proof (Hframe f) as H; rewrite Hnode in H; simpl in H;
  specialize (H ltac:(simpl; intuition discriminate)).

(** Names the hypotheses of the six ways a run can go. *)
Ltac ways Hrun :=
  destruct Hrun as [E0
                   | s1 w1 E0 H1 E1
                   | s1 w1 s2 w2 E0 H1 E1 H2 E2
                   | s1 w1 s2 w2 s3 w3 E0 H1 E1 H2 E2 H3 E3
                   | s1 w1 s2 w2 s3 w3 s4 w4 E0 H1 E1 H2 E2 H3 E3 H4 E4
                   | s1 w1 s2 w2 s3 w3 s4 w4 s5 w5 E0 H1 E1 H2 E2 H3 E3 H4 E4 H5].

(** ** Halting at the first error (claims C1 and C10) *)



(** What [finalize_node] does as a run invokes it. *)
Lemma finalize_step_eq c s w :
  finalize_step c s w =
  (if truthy_str (error s) then set_created_at (Some (clock c (calls w))) s
   else match py_len (py_or (summary s) (JString "")) with
        | Ok _ => set_created_at (Some (clock c (calls w))) s
        | Raised e =>
            failed_at "finalize" e (set_created_at (Some (clock c (calls w))) s)
        end,
   tick w).
Proof.
  unfold finalize_step, guarded. rewrite finalize_node_eq.
  destruct (truthy_str (error s)); [reflexivity |].
  destruct (py_len _); reflexivity.
Qed.








(** ** Cross-store consistency (claim C3) *)

Lemma summarize_node_error_step c s w :
  let s' := fst (summarize_node c s w) in
  error_step s' = Some "summarize" \/ error_step s' = error_step s.
Proof.
  destruct (summarize_node c s w) as [s' w'] eqn:E. simpl.
  eapply guarded_error_step; [apply summarize_try_frame | | exact E].
  simpl. intuition discriminate.
Qed.

Lemma classify_node_error_step c s w :
  let s' := fst (classify_node c s w) in
  error_step s' = Some "classify" \/ error_step s' = error_step s.
Proof.
  destruct (classify_node c s w) as [s' w'] eqn:E. simpl.
  eapply guarded_error_step; [apply classify_try_frame | | exact E].
  simpl. intuition discriminate.
Qed.

(** Once the vector-store step has completed, the summary has a length:
    the step took it. *)
Lemma pinecone_store_node_sized c s w s' w' :
  pinecone_store_node c s w = (s', w') ->
  error_step s' <> Some "pinecone_store" ->
  exists n, py_len (py_or (summary s') (JString "")) = Ok n.
Proof.
  intros H Hok.
  pose proof (pinecone_store_node_frame c s w) as F. rewrite H in F. cbn [fst] in F.
  pose proof (F F_summary ltac:(simpl; intuition discriminate)) as Es. simpl in Es.
  rewrite Es.
  unfold pinecone_store_node in H.
  destruct (guarded_cases _ _ _ _ _ _ _ (pinecone_store_try_frame c) H)
    as [[Hbody _] | (e & s1 & _ & -> & _)]; [| exfalso; apply Hok; reflexivity].
  unfold pinecone_store_try in Hbody.
  do 5 bind_ok Hbody.
  apply bind_ok in Hbody. destruct Hbody as (n & s2 & w2 & Hlen & _).
  cbv [lift] in Hlen. inversion Hlen; subst. eauto.
Qed.

(** C3, as amended.  In a run started from a fresh state, if the vector-store
    step completed and the graph-store step raised, then the state returned
    has [pinecone_id] set to the id of the vector, [neo4j_id] unset, and
    [error_step] equal to the graph step's name, which is "neo4j_store"; and
    the vector is still in the index when the run ends. *)
Theorem orphan_vector_when_graph_store_fails (c : Collaborators)
  (youtube_url video_id transcript user_id tone : string) (w : World)
  (final : WorkflowState) (history : History) (w' : World) :
  let initial := new_WorkflowState youtube_url video_id transcript user_id tone in
  execute (workflow_graph c) initial w = (Ok (final, history), w') ->
  succeeded_in history "pinecone_store" ->
  failed_in history "neo4j_store" ->
  pinecone_id final = Some (vector_id_of c initial)
  /\ neo4j_id final = None
  /\ error_step final = Some "neo4j_store"
  /\ is_Some (pinecone_index w' !! vector_id_of c initial).
Proof.
  intros initial Hex (st3 & Hin3 & Hok3) (st4 & Hin4 & Hfail4).
  destruct (execute_runs c initial w) as (final0 & history0 & w0 & _ & Hex0 & Hrun).
  rewrite Hex in Hex0. inversion Hex0; subst final0 history0 w0; clear Hex0.
  assert (Hshape : exists s1 w1 s2 w2 w3 s4 w4,
             summarize_node c initial w = (s1, w1)
             /\ classify_node c s1 w1 = (s2, w2)
             /\ pinecone_store_node c s2 w2 = (st3, w3)
             /\ neo4j_store_node c st3 w3 = (s4, w4)
             /\ st4 = s4
             /\ pinecone_index w' = pinecone_index w4
             /\ (final = s4 \/ (final, w') = finalize_step c s4 w4)).
  { ways Hrun; simpl in Hin3, Hin4;
      repeat match goal with
        | H : _ \/ _ |- _ => destruct H
        | H : False |- _ => destruct H
        | H : (_, _) = (_, _) |- _ => inversion H; clear H
        end; subst.
    - do 7 eexists. repeat (split; [eassumption |]).
      split; [reflexivity |]. split; [reflexivity | left; reflexivity].
    - do 7 eexists. repeat (split; [eassumption |]).
      split; [reflexivity |]. split; [| right; symmetry; eassumption].
      rewrite finalize_step_eq in H5. inversion H5; reflexivity. }
  destruct Hshape as (s1 & w1 & s2 & w2 & w3 & s4 & w4 & E1 & E2 & E3 & E4 & -> & Hidx & Hfinal).
  (* the vector step stored the vector *)
  destruct (pinecone_store_node_succeeded _ _ _ _ _ E3 Hok3) as [Hst3 Hstored].
  destruct (pinecone_store_node_sized _ _ _ _ _ E3 Hok3) as [n Hsized].
  (* the identifiers and what precedes the stores come from the fresh state *)
  kept E1 (summarize_node_frame c initial w) F_video_id.
  kept E1 (summarize_node_frame c initial w) F_user_id.
  kept E1 (summarize_node_frame c initial w) F_neo4j_id.
  kept E2 (classify_node_frame c s1 w1) F_video_id.
  kept E2 (classify_node_frame c s1 w1) F_user_id.
  kept E2 (classify_node_frame c s1 w1) F_neo4j_id.
  kept E4 (neo4j_store_node_frame c st3 w3) F_summary.
  assert (Hvec : vector_id_of c s2 = vector_id_of c initial).
  { unfold vector_id_of. rewrite Hkept2, Hkept3, Hkept, Hkept0. reflexivity. }
  rewrite Hvec in *.
  (* the graph step raised *)
  assert (Hbefore : error_step st3 <> Some "neo4j_store").
  { subst st3. simpl.
    pose proof (summarize_node_error_step c initial w) as H1.
    pose proof (classify_node_error_step c s1 w1) as H2.
    rewrite E1 in H1. rewrite E2 in H2. simpl in H1, H2.
    destruct H2 as [H2 | H2]; rewrite H2; [discriminate |].
    destruct H1 as [H1 | H1]; rewrite H1; discriminate. }
  destruct (neo4j_store_node_failed _ _ _ _ _ E4 Hbefore Hfail4) as [e Hs4].
  pose proof (neo4j_store_node_index c st3 w3) as Hkeep. rewrite E4 in Hkeep. simpl in Hkeep.
  assert (Hs4' : pinecone_id s4 = Some (vector_id_of c initial)
                 /\ neo4j_id s4 = None /\ error_step s4 = Some "neo4j_store").
  { subst s4 st3. simpl. repeat split. congruence. }
  destruct Hs4' as (Hp & Hn & He).
  rewrite Hidx, Hkeep.
  destruct Hfinal as [-> | Hfinal]; [repeat split; assumption |].
  (* Finalize does not raise: the summary has a length *)
  rewrite finalize_step_eq, Hkept5, Hsized in Hfinal.
  assert (Hf : final = set_created_at (Some (clock c (calls w4))) s4)
    by (destruct (truthy_str (error s4)); now inversion Hfinal).
  subst final. simpl. repeat split; assumption.
Qed.

(** The claim C3 as stated fails on the name of the graph step: when the
    vector store succeeds and the graph store fails, [error_step] is
    "neo4j_store", not "graph_store". *)
Lemma graph_step_is_named_neo4j_store :
  let c := scripted prose (Ok [1; 2]) None (Some "graph down") in
  exists final history w',
    execute (workflow_graph c) demo_state empty_world = (Ok (final, history), w')
    /\ succeeded_in history "pinecone_store"
    /\ failed_in history "neo4j_store"
    /\ error_step final = Some "neo4j_store"
    /\ error_step final <> Some "graph_store".
Proof.
  do 3 eexists. split; [vm_compute; reflexivity |].
  split; [| split; [| split; [reflexivity | discriminate]]].
  - eexists. split; [right; right; left; reflexivity | discriminate].
  - eexists. split; [right; right; right; left; reflexivity | reflexivity].
Qed.

Lemma orphan_vector_witness :
  let c := scripted prose (Ok [1; 2]) None (Some "graph down") in
  exists final history w',
    execute (workflow_graph c) demo_state empty_world = (Ok (final, history), w')
    /\ pinecone_id final = Some "md5:abc_u1"
    /\ neo4j_id final = None
    /\ error_step final = Some "neo4j_store"
    /\ is_Some (pinecone_index w' !! "md5:abc_u1").
Proof.
  do 3 eexists. split; [vm_compute; reflexivity |].
  eapply (orphan_vector_when_graph_store_fails
            (scripted prose (Ok [1; 2]) None (Some "graph down"))
            "https://youtu.be/abc" "abc" "hello world" "u1" "casual" empty_world).
  - vm_compute; reflexivity.
  - eexists. split; [right; right; left; reflexivity | discriminate].
  - eexists. split; [right; right; right; left; reflexivity | reflexivity].
Defined.

(** ** The entry points (claim C7) *)

(** C7.  Whatever the call of the graph library does, [run_workflow] and
    [run_workflow_with_checkpoint] return a run state and never raise; when
    the call raises, they return the initial state (every derived and
    storage field at its default) with [error] set to the message of the
    exception and [error_step] set to "workflow". *)
Theorem entry_points_never_raise
  (graph_ainvoke : WorkflowState -> string -> World -> outcome WorkflowState * World)
  (youtube_url video_id transcript user_id tone : string) (thread_id : option string)
  (w : World) :
  let initial := new_WorkflowState youtube_url video_id transcript user_id tone in
  let thread := match thread_id with Some t => t | None => "workflow_" +:+ video_id end in
  let failed e := set_error_step (Some "workflow") (set_error (Some e) initial) in
  (exists result w',
      run_workflow_on graph_ainvoke youtube_url video_id transcript user_id tone w
      = (Ok result, w'))
  /\ (exists result w',
         run_workflow_with_checkpoint_on graph_ainvoke youtube_url video_id transcript
           user_id tone thread_id w = (Ok result, w'))
  /\ (forall e w',
         graph_ainvoke initial ("workflow_" +:+ video_id) w = (Raised e, w') ->
         run_workflow_on graph_ainvoke youtube_url video_id transcript user_id tone w
         = (Ok (failed e), w'))
  /\ (forall e w',
         graph_ainvoke initial thread w = (Raised e, w') ->
         run_workflow_with_checkpoint_on graph_ainvoke youtube_url video_id transcript
           user_id tone thread_id w = (Ok (failed e), w')).
Proof.
  intros initial thread failed.
  unfold run_workflow_on, run_workflow_with_checkpoint_on.
  fold initial. fold thread.
  repeat split.
  - destruct (graph_ainvoke initial ("workflow_" +:+ video_id) w) as [[r | e] w'];
      eauto.
  - destruct (graph_ainvoke initial thread w) as [[r | e] w']; eauto.
  - intros e w' H. now rewrite H.
  - intros e w' H. now rewrite H.
Qed.

Lemma entry_points_never_raise_witness :
  let broken : WorkflowState -> string -> World -> outcome WorkflowState * World :=
    fun _ _ w => (Raised "checkpointer unreachable", w) in
  run_workflow_on broken "https://youtu.be/abc" "abc" "hello world" "u1" "casual"
    empty_world
  = (Ok (set_error_step (Some "workflow")
           (set_error (Some "checkpointer unreachable") demo_state)), empty_world).
Proof.
  intros broken.
  apply (proj1 (proj2 (proj2 (entry_points_never_raise broken "https://youtu.be/abc" "abc"
                                 "hello world" "u1" "casual" None empty_world)))).
  reflexivity.
Defined.

(** ** Status queries (claim C8) *)

(** C8, as amended.  [get_workflow_status] answers [completed = False]
    exactly when the read of the checkpointer finds no snapshot for the
    thread or fails; the error of the answer is then "Thread not found" or
    the message of the failure.  When the read returns a snapshot, the
    answer is [completed = True] with the fields of that snapshot,
    whatever its error channel holds. *)
Theorem status_of_known_and_unknown_threads
  (f : MemoryFaults) (w : World) (thread_id : string) :
  let status := get_workflow_status f w thread_id in
  (status !! "completed" = Some (JBool false)
   <-> (memory_get_fault f thread_id = None /\ checkpoints w !! thread_id = None)
       \/ memory_get_fault f thread_id <> None)
  /\ (memory_get_fault f thread_id = None -> checkpoints w !! thread_id = None ->
      status !! "error" = Some (JString "Thread not found"))
  /\ (forall e, memory_get_fault f thread_id = Some e ->
        status !! "error" = Some (JString e))
  /\ (forall latest_state,
        memory_get_fault f thread_id = None ->
        checkpoints w !! thread_id = Some latest_state ->
        status !! "completed" = Some (JBool true)
        /\ status !! "error" = Some (opt_json (error latest_state))
        /\ status !! "error_step" = Some (opt_json (error_step latest_state))
        /\ status !! "video_id" = Some (opt_json (video_id latest_state))
        /\ status !! "summary" = Some (summary latest_state)
        /\ status !! "topic" = Some (topic latest_state)
        /\ status !! "category" = Some (category latest_state)
        /\ status !! "pinecone_id" = Some (opt_json (pinecone_id latest_state))
        /\ status !! "neo4j_id" = Some (opt_json (neo4j_id latest_state))).
Proof.
  cbv zeta. unfold get_workflow_status, memory_get.
  destruct (memory_get_fault f thread_id) as [e |] eqn:Ef.
  - split; [| split; [| split]].
    + split; [intros _; right; discriminate | intros _; reflexivity].
    + discriminate.
    + intros e' He'. inversion He'; subst. reflexivity.
    + discriminate.
  - destruct (checkpoints w !! thread_id) as [latest_state |] eqn:E.
    + split; [| split; [| split]].
      * split.
        -- intros H. vm_compute in H. discriminate H.
        -- intros [[_ H] | H]; [discriminate H | now contradiction H].
      * discriminate.
      * discriminate.
      * intros st _ Hst. inversion Hst; subst. repeat split; reflexivity.
    + split; [| split; [| split]].
      * split; [intros _; left; split; reflexivity | intros _; reflexivity].
      * reflexivity.
      * discriminate.
      * discriminate.
Qed.

(** The claim C8 as stated fails when the read fails: the thread is known
    to the store, and the answer is [completed = False] with the message of
    the failure. *)
Lemma known_thread_read_failure :
  let w := set_checkpoints {["t1" := demo_state]} empty_world in
  checkpoints w !! "t1" = Some demo_state
  /\ get_workflow_status unreadable w "t1" !! "completed" = Some (JBool false)
  /\ get_workflow_status unreadable w "t1" !! "error" = Some (JString "store unreachable").
Proof. repeat split. Qed.

Lemma status_of_known_and_unknown_threads_witness :
  let failed := set_error_step (Some "summarize") (set_error (Some "boom") demo_state) in
  let w := set_checkpoints {["t1" := failed]} empty_world in
  get_workflow_status readable w "t1" !! "completed" = Some (JBool true)
  /\ get_workflow_status readable w "t1" !! "error" = Some (JString "boom")
  /\ get_workflow_status readable w "t1" !! "error_step" = Some (JString "summarize").
Proof.
  intros failed w.
  destruct (proj2 (proj2 (proj2 (status_of_known_and_unknown_threads readable w "t1")))
              failed)
    as (H1 & H2 & H3 & _).
  - reflexivity.
  - reflexivity.
  - exact (conj H1 (conj H2 H3)).
Defined.

(** * Further properties of the code *)

(** ** The video id of a URL *)

Lemma run_valid s :
  List.forallb (fun c => negb (VideoId.stops c)) (list_ascii_of_string (VideoId.run s)) = true.
Proof.
  induction s as [| c s IH]; simpl; [reflexivity |].
  destruct (VideoId.stops c) eqn:E; simpl; [reflexivity | now rewrite E].
Qed.

Lemma group_after_run lit s r :
  VideoId.group_after lit s = Some r ->
  r <> EmptyString /\ r = VideoId.run (Py.drop (String.length lit) s)
  /\ String.prefix lit s = true.
Proof.
  unfold VideoId.group_after. destruct (String.prefix lit s); [| discriminate].
  destruct (VideoId.run _) eqn:E; [discriminate |].
  intros H. inversion H; subst. repeat split. discriminate.
Qed.

Lemma group_after_valid lit s r :
  VideoId.group_after lit s = Some r ->
  r <> EmptyString
  /\ List.forallb (fun c => negb (VideoId.stops c)) (list_ascii_of_string r) = true.
Proof.
  intros H. destruct (group_after_run _ _ _ H) as (Hne & -> & _).
  split; [exact Hne | apply run_valid].
Qed.

Lemma search_found pattern s r :
  VideoId.search pattern s = Some r -> exists k, pattern (Py.drop k s) = Some r.
Proof.
  induction s as [| c s IH]; simpl.
  - destruct (pattern EmptyString) eqn:E; [| discriminate].
    intros H. inversion H; subst. now exists 0%nat.
  - destruct (pattern (String c s)) eqn:E.
    + intros H. inversion H; subst. now exists 0%nat.
    + intros H. destruct (IH H) as [k Hk]. now exists (S k).
Qed.

Lemma last_v_found s r :
  VideoId.last_v s = Some r -> exists t, VideoId.group_after "v=" t = Some r.
Proof.
  induction s as [| c s IH]; [discriminate |].
  cbn [VideoId.last_v].
  destruct (nat_of_ascii c =? 10)%nat.
  - intros H. eauto.
  - destruct (VideoId.last_v s) eqn:E.
    + intros H. inversion H; subst. now apply IH.
    + intros H. eauto.
Qed.

(** Whatever the URL, an id that [extract_video_id] returns is not empty and
    holds no ampersand, newline, question mark or hash. *)
Theorem extract_video_id_charset (url id : string) :
  extract_video_id url = Ok id ->
  id <> EmptyString
  /\ List.forallb (fun c => negb (VideoId.stops c)) (list_ascii_of_string id) = true.
Proof.
  unfold extract_video_id.
  destruct (VideoId.search VideoId.first_pattern url) as [r |] eqn:E1.
  - intros H. inversion H; subst.
    destruct (search_found _ _ _ E1) as [k Hk]. unfold VideoId.first_pattern in Hk.
    destruct (VideoId.group_after "youtube.com/watch?v=" _) eqn:G1;
      [inversion Hk; subst; eapply group_after_valid; exact G1 |].
    destruct (VideoId.group_after "youtu.be/" _) eqn:G2;
      [inversion Hk; subst; eapply group_after_valid; exact G2 |].
    eapply group_after_valid; exact Hk.
  - destruct (VideoId.search VideoId.second_pattern url) as [r |] eqn:E2; [| discriminate].
    intros H. inversion H; subst.
    destruct (search_found _ _ _ E2) as [k Hk]. unfold VideoId.second_pattern in Hk.
    destruct (String.prefix _ _); [| discriminate].
    destruct (last_v_found _ _ Hk) as [t Ht]. eapply group_after_valid; exact Ht.
Qed.

Lemma extract_video_id_charset_witness :
  "dQw4w9WgXcQ" <> EmptyString
  /\ List.forallb (fun c => negb (VideoId.stops c))
       (list_ascii_of_string "dQw4w9WgXcQ") = true.
Proof.
  apply (extract_video_id_charset "https://www.youtube.com/watch?v=dQw4w9WgXcQ&t=10").
  reflexivity.
Defined.

(** The group stops where the id ends. *)
Lemma run_append id tail :
  List.forallb (fun c => negb (VideoId.stops c)) (list_ascii_of_string id) = true ->
  VideoId.run tail = EmptyString ->
  VideoId.run (id +:+ tail) = id.
Proof.
  intros Hid Htail. induction id as [| c id IH].
  - exact Htail.
  - change (String c id +:+ tail) with (String c (id +:+ tail)).
    simpl in Hid. apply andb_prop in Hid. destruct Hid as [Hc Hid].
    cbn [VideoId.run]. destruct (VideoId.stops c); [discriminate |].
    now rewrite IH.
Qed.

(** The three usual forms of a link.  For an id that is not empty and holds
    none of the four excluded characters, followed by nothing or by text
    that starts with one of them, [extract_video_id] returns the id. *)
Theorem extract_video_id_of_link (id tail : string) :
  id <> EmptyString ->
  List.forallb (fun c => negb (VideoId.stops c)) (list_ascii_of_string id) = true ->
  VideoId.run tail = EmptyString ->
  extract_video_id ("https://www.youtube.com/watch?v=" +:+ id +:+ tail) = Ok id
  /\ extract_video_id ("https://youtu.be/" +:+ id +:+ tail) = Ok id
  /\ extract_video_id ("https://www.youtube.com/embed/" +:+ id +:+ tail) = Ok id.
Proof.
  intros Hne Hid Htail.
  pose proof (run_append id tail Hid Htail) as Hrun.
  set (rest := id +:+ tail) in *.
  unfold extract_video_id.
  repeat split;
    cbv [String.append]; cbn [VideoId.search VideoId.first_pattern];
    unfold VideoId.first_pattern, VideoId.group_after; cbn [String.prefix]; simpl;
    rewrite Hrun; destruct id; [contradiction | reflexivity | contradiction
                               | reflexivity | contradiction | reflexivity].
Qed.

Lemma extract_video_id_of_link_witness :
  extract_video_id "https://youtu.be/dQw4w9WgXcQ?si=abc" = Ok "dQw4w9WgXcQ".
Proof.
  apply (proj1 (proj2 (extract_video_id_of_link "dQw4w9WgXcQ" "?si=abc"
                         ltac:(discriminate) eq_refl eq_refl))).
Defined.

Lemma prefix_of_prefix a b s :
  String.prefix (a +:+ b) s = true -> String.prefix a s = true.
Proof.
  revert s. induction a as [| c a IH]; intros s; [now destruct s |].
  change (String c a +:+ b) with (String c (a +:+ b)).
  destruct s as [| d s]; cbn [String.prefix]; [discriminate |].
  destruct (ascii_dec c d); [apply IH | discriminate].
Qed.

Lemma group_after_youtu lit s :
  VideoId.group_after ("youtu" +:+ lit) s <> None -> String.prefix "youtu" s = true.
Proof.
  unfold VideoId.group_after.
  destruct (String.prefix ("youtu" +:+ lit) s) eqn:E; [| congruence].
  intros _. now apply prefix_of_prefix in E.
Qed.

Lemma patterns_need_youtu s :
  String.prefix "youtu" s = false ->
  VideoId.first_pattern s = None /\ VideoId.second_pattern s = None.
Proof.
  intros H. split.
  - unfold VideoId.first_pattern.
    destruct (VideoId.group_after "youtube.com/watch?v=" s) eqn:G1.
    { pose proof (group_after_youtu "be.com/watch?v=" s) as K.
      change ("youtu" +:+ "be.com/watch?v=") with "youtube.com/watch?v=" in K.
      rewrite G1 in K. rewrite K in H; [discriminate | discriminate]. }
    destruct (VideoId.group_after "youtu.be/" s) eqn:G2.
    { pose proof (group_after_youtu ".be/" s) as K.
      change ("youtu" +:+ ".be/") with "youtu.be/" in K.
      rewrite G2 in K. rewrite K in H; [discriminate | discriminate]. }
    destruct (VideoId.group_after "youtube.com/embed/" s) eqn:G3; [| reflexivity].
    pose proof (group_after_youtu "be.com/embed/" s) as K.
    change ("youtu" +:+ "be.com/embed/") with "youtube.com/embed/" in K.
    rewrite G3 in K. rewrite K in H; [discriminate | discriminate].
  - unfold VideoId.second_pattern.
    destruct (String.prefix "youtube.com/watch?" s) eqn:E; [| reflexivity].
    change "youtube.com/watch?" with ("youtu" +:+ "be.com/watch?") in E.
    apply prefix_of_prefix in E. congruence.
Qed.

Lemma search_without_youtu s i :
  Py.find_at "youtu" s i = None ->
  VideoId.search VideoId.first_pattern s = None
  /\ VideoId.search VideoId.second_pattern s = None.
Proof.
  revert i. induction s as [| c s IH]; intros i H.
  - split; reflexivity.
  - cbn [Py.find_at] in H.
    destruct (String.prefix "youtu" (String c s)) eqn:E; [discriminate |].
    destruct (patterns_need_youtu _ E) as [H1 H2].
    destruct (IH _ H) as [I1 I2].
    cbn [VideoId.search]. rewrite H1, H2. split; assumption.
Qed.

(** A URL in which "youtu" does not occur is refused: [extract_video_id]
    raises the exception whose detail is "Invalid YouTube URL". *)
Theorem extract_video_id_rejects (url : string) :
  Py.contains "youtu" url = false ->
  extract_video_id url = Raised "Invalid YouTube URL".
Proof.
  unfold Py.contains. destruct (Py.find_at "youtu" url 0) eqn:E; [discriminate |].
  intros _. destruct (search_without_youtu _ _ E) as [H1 H2].
  unfold extract_video_id. now rewrite H1, H2.
Qed.

Lemma extract_video_id_rejects_witness :
  extract_video_id "https://vimeo.com/12345?v=abc" = Raised "Invalid YouTube URL".
Proof. apply extract_video_id_rejects. reflexivity. Defined.

(** ** Summarize: when it fails and what it writes *)

(** What [summarize_node] returns, by the answer of the language model and
    the value the parser hands back. *)
Lemma summarize_node_cases c s w :
  summarize_node c s w =
  match llm c (S (calls w)) (summary_prompt_of c s) with
  | Raised e => (failed_at "summarize" e s, tick (tick w))
  | Ok content =>
      match SummaryOutputParser_parse (json_loads c) content with
      | Raised e => (failed_at "summarize" e s, tick (tick w))
      | Ok (JObject d) =>
          (set_processing_time (Some (clock c (S (S (calls w))) - clock c (calls w)))
             (set_token_count
                (Some (count_tokens c
                         (truncate_text c (or_str (transcript s) "") token_budget)))
                (set_tags (dict_get d "tags" (JArray []))
                   (set_key_points (dict_get d "key_points" (JArray []))
                      (set_tone (dict_get d "tone" (JString "professional"))
                         (set_title (dict_get d "title" (JString "Video Summary"))
                            (set_summary (dict_get d "summary" (JString "")) s)))))),
           tick (tick (tick w)))
      | Ok v =>
          (failed_at "summarize"
             ("'" +:+ type_name v +:+ "' object has no attribute 'get'") s,
           tick (tick w))
      end
  end.
Proof.
  unfold summarize_node, guarded, summarize_try, summary_prompt_of, failed_at.
  unfold bind, get, ask, lift, assign. cbn [calls tick].
  destruct (llm c (S (calls w)) _) as [content | e]; [| reflexivity].
  destruct (SummaryOutputParser_parse (json_loads c) content) as [v | e]; [| reflexivity].
  destruct v; reflexivity.
Qed.

(** What [classify_node] returns once the model has answered with an
    object: the classification is written first, the tags afterwards. *)
Lemma classify_node_cases c s w joined content d :
  py_join ", " (key_points s) = Ok joined ->
  llm c (S (calls w)) (classification_prompt_of s joined) = Ok content ->
  ClassificationOutputParser_parse (json_loads c) content = Ok (JObject d) ->
  classify_node c s w =
  (match py_extend (tags s) (dict_get d "tags" (JArray [])) with
   | Raised e => failed_at "classify" e (classified d s)
   | Ok extended =>
       match py_list_set (set_order c) extended with
       | Raised e => failed_at "classify" e (set_tags extended (classified d s))
       | Ok unique => set_tags unique (set_tags extended (classified d s))
       end
   end,
   tick (tick w)).
Proof.
  intros Hjoin Hllm Hparse.
  unfold classify_node, guarded, classify_try, classification_prompt_of in *.
  unfold bind, get, ask, lift, assign. cbn [calls tick].
  rewrite Hjoin, Hllm, Hparse. cbn.
  destruct (py_extend (tags s) _) as [extended | e]; [| reflexivity].
  destruct (py_list_set (set_order c) extended) as [unique | e]; reflexivity.
Qed.

(** Summarize is all or nothing: either it stamps the failure and returns
    the state otherwise as it got it, or it writes its outputs and leaves
    the error fields as they were. *)
Theorem summarize_all_or_nothing (c : Collaborators) (s : WorkflowState) (w : World) :
  let s' := fst (summarize_node c s w) in
  (exists e, s' = failed_at "summarize" e s)
  \/ (error s' = error s /\ error_step s' = error_step s
      /\ token_count s'
         = Some (count_tokens c (truncate_text c (or_str (transcript s) "") token_budget))
      /\ processing_time s'
         = Some (clock c (S (S (calls w))) - clock c (calls w))
      /\ unchanged_except summarize_writes s s').
Proof.
  cbv zeta. rewrite summarize_node_cases.
  destruct (llm c (S (calls w)) _) as [content | e]; [| left; eexists; reflexivity].
  destruct (SummaryOutputParser_parse (json_loads c) content) as [v | e];
    [| left; eexists; reflexivity].
  destruct v; try (left; eexists; reflexivity).
  right. cbn [fst]. repeat split.
  intros f Hf. destruct f; try reflexivity; exfalso; apply Hf; in_list.
Qed.

(** Summarize fails when the model call raises, with the message of the
    call, and when the response holds JSON that decodes to something other
    than an object, with the message of the attribute error; in both cases
    nothing but the error fields is written. *)
Theorem summarize_failures (c : Collaborators) (s : WorkflowState) (w : World) :
  (forall e, llm c (S (calls w)) (summary_prompt_of c s) = Raised e ->
     summarize_node c s w = (failed_at "summarize" e s, tick (tick w)))
  /\ (forall content json_str v,
        llm c (S (calls w)) (summary_prompt_of c s) = Ok content ->
        extracted_json content = Some json_str ->
        json_loads c json_str = Ok v ->
        is_object v = false ->
        summarize_node c s w
        = (failed_at "summarize"
             ("'" +:+ type_name v +:+ "' object has no attribute 'get'") s,
           tick (tick w))).
Proof.
  split.
  - intros e He. rewrite summarize_node_cases, He. reflexivity.
  - intros content json_str v Hllm Hex Hloads Hv.
    rewrite summarize_node_cases, Hllm.
    unfold SummaryOutputParser_parse.
    rewrite SummaryOutputParser_try_extracted, Hex, Hloads. cbn [try_except].
    destruct v; try reflexivity. discriminate Hv.
Qed.

Lemma summarize_failures_witness :
  summarize_node (scripted unavailable (Ok []) None None) demo_state empty_world
  = (failed_at "summarize" "model unavailable" demo_state, tick (tick empty_world))
  /\ summarize_node (scripted array_answer (Ok []) None None) demo_state empty_world
     = (failed_at "summarize" "'list' object has no attribute 'get'" demo_state,
        tick (tick empty_world)).
Proof.
  split.
  - apply (proj1 (summarize_failures (scripted unavailable (Ok []) None None)
                    demo_state empty_world)).
    reflexivity.
  - apply (proj2 (summarize_failures (scripted array_answer (Ok []) None None)
                    demo_state empty_world)
             "```json [1, 2] ```" "[1, 2]" (JArray [JNumber "1"; JNumber "2"]));
      reflexivity.
Defined.

(** A response in which no JSON can be found, or whose JSON the decoder
    rejects, does not fail Summarize: the response becomes the summary as it
    is, and title, tone, key points and tags take the defaults, the tone the
    caller asked for included. *)
Theorem summarize_keeps_undecodable_response
  (c : Collaborators) (s : WorkflowState) (w : World) (content : string) :
  llm c (S (calls w)) (summary_prompt_of c s) = Ok content ->
  match extracted_json content with
  | Some json_str => exists e, json_loads c json_str = Raised e
  | None => True
  end ->
  let s' := fst (summarize_node c s w) in
  summary s' = JString content
  /\ title s' = JString "Video Summary"
  /\ tone s' = JString "professional"
  /\ key_points s' = JArray []
  /\ tags s' = JArray []
  /\ error s' = error s
  /\ error_step s' = error_step s.
Proof.
  intros Hllm Hex. cbv zeta.
  rewrite summarize_node_cases, Hllm.
  assert (Hparse : SummaryOutputParser_parse (json_loads c) content
                   = Ok (SummaryOutputParser_default content)).
  { unfold SummaryOutputParser_parse. rewrite SummaryOutputParser_try_extracted.
    destruct (extracted_json content) as [json_str |]; [| reflexivity].
    destruct Hex as [e He]. rewrite He. reflexivity. }
  rewrite Hparse. unfold SummaryOutputParser_default. cbn [fst].
  repeat split.
Qed.

Lemma summarize_keeps_undecodable_response_witness :
  let s' := fst (summarize_node (scripted prose (Ok []) None None) demo_state empty_world) in
  tone demo_state = JString "casual"
  /\ summary s' = JString "A talk about proofs."
  /\ tone s' = JString "professional".
Proof.
  intros s'.
  destruct (summarize_keeps_undecodable_response (scripted prose (Ok []) None None)
              demo_state empty_world "A talk about proofs.") as (H1 & _ & H3 & _).
  - reflexivity.
  - exact I.
  - exact (conj eq_refl (conj H1 H3)).
Defined.

(** ** The token budget *)

Lemma count_tokens_truncate_text (c : Collaborators) (text : string) (max_tokens : nat) :
  (forall l, (List.length (encode c (decode c l)) <= List.length l)%nat) ->
  (count_tokens c (truncate_text c text max_tokens) <= max_tokens)%nat.
Proof.
  intros Hround. unfold truncate_text.
  destruct (count_tokens c text <=? max_tokens)%nat eqn:E.
  - apply Nat.leb_le. exact E.
  - unfold count_tokens.
    etransitivity; [apply Hround |].
    rewrite List.length_firstn. apply Nat.le_min_l.
Qed.

Lemma byte_round_trip (l : list nat) :
  (List.length (byte_encode (byte_decode l)) <= List.length l)%nat.
Proof.
  unfold byte_encode, byte_decode.
  rewrite list_ascii_of_string_of_list_ascii, !List.length_map. reflexivity.
Qed.

(** With a tokenizer that gives back no more tokens than it decoded,
    [truncate_text] returns a text within the budget, and truncating a
    second time changes nothing. *)
Theorem truncate_text_fits (c : Collaborators) (text : string) (max_tokens : nat) :
  (forall l, (List.length (encode c (decode c l)) <= List.length l)%nat) ->
  (count_tokens c (truncate_text c text max_tokens) <= max_tokens)%nat
  /\ truncate_text c (truncate_text c text max_tokens) max_tokens
     = truncate_text c text max_tokens.
Proof.
  intros Hround.
  pose proof (count_tokens_truncate_text c text max_tokens Hround) as Hfits.
  split; [exact Hfits |].
  unfold truncate_text at 1.
  apply Nat.leb_le in Hfits. rewrite Hfits. reflexivity.
Qed.

Lemma truncate_text_fits_witness :
  let c := scripted prose (Ok []) None None in
  (count_tokens c (truncate_text c "hello world" 5) <= 5)%nat
  /\ truncate_text c (truncate_text c "hello world" 5) 5 = truncate_text c "hello world" 5.
Proof.
  intros c. apply (truncate_text_fits c "hello world" 5). exact byte_round_trip.
Defined.

(** The token count Summarize records is that of the text it sent: the
    count of the whole transcript when that is within the budget, and never
    more than the budget with a tokenizer as above. *)
Theorem summarize_token_count (c : Collaborators) (s : WorkflowState) (w : World) :
  let s' := fst (summarize_node c s w) in
  let whole := or_str (transcript s) "" in
  error_step s' <> Some "summarize" ->
  exists n, token_count s' = Some n
    /\ ((count_tokens c whole <= token_budget)%nat -> n = count_tokens c whole)
    /\ ((forall l, (List.length (encode c (decode c l)) <= List.length l)%nat) ->
        (n <= token_budget)%nat).
Proof.
  cbv zeta. intros Hstep.
  assert (Hn : token_count (fst (summarize_node c s w))
               = Some (count_tokens c
                         (truncate_text c (or_str (transcript s) "") token_budget))).
  { revert Hstep. rewrite summarize_node_cases.
    destruct (llm c (S (calls w)) _) as [content | e];
      [| intros Hstep; exfalso; apply Hstep; reflexivity].
    destruct (SummaryOutputParser_parse (json_loads c) content) as [v | e];
      [| intros Hstep; exfalso; apply Hstep; reflexivity].
    destruct v; intros Hstep; try (exfalso; apply Hstep; reflexivity).
    reflexivity. }
  eexists. split; [exact Hn |]. split.
  - intros Hle. unfold truncate_text. apply Nat.leb_le in Hle. rewrite Hle. reflexivity.
  - intros Hround. apply (count_tokens_truncate_text c _ token_budget Hround).
Qed.

Lemma summarize_token_count_witness :
  exists n,
    token_count (fst (summarize_node (scripted structured (Ok []) None None)
                        demo_state empty_world)) = Some n
    /\ n = 11%nat.
Proof.
  destruct (summarize_token_count (scripted structured (Ok []) None None)
              demo_state empty_world) as (n & Hn & Hwhole & _).
  - vm_compute. discriminate.
  - exists n. split; [exact Hn |].
    apply Hwhole. apply Nat.leb_le. vm_compute. reflexivity.
Defined.

(** ** Classify: what it writes before it fails *)

(** Key points that cannot be joined (a value that is not iterable, or an
    element that is not a string) fail Classify before the model is called:
    the only oracle consulted is the clock of the step, and nothing but the
    error fields is written. *)
Theorem classify_unjoinable_key_points
  (c : Collaborators) (s : WorkflowState) (w : World) (e : string) :
  py_join ", " (key_points s) = Raised e ->
  classify_node c s w = (failed_at "classify" e s, tick w).
Proof.
  intros Hjoin.
  unfold classify_node, guarded, classify_try.
  unfold bind, get, ask, lift, assign. cbn [calls tick].
  rewrite Hjoin. reflexivity.
Qed.

Lemma classify_unjoinable_key_points_witness :
  let s := set_key_points (JArray [JString "a"; JNumber "2"]) demo_state in
  classify_node (scripted structured (Ok []) None None) s empty_world
  = (failed_at "classify" "sequence item 1: expected str instance, int found" s,
     tick empty_world).
Proof.
  intros s.
  apply (classify_unjoinable_key_points (scripted structured (Ok []) None None) s
           empty_world).
  reflexivity.
Defined.

(** Classify is not all or nothing.  When the tags of the state cannot be
    extended (they are not a list, or the new tags cannot be iterated), the
    step fails with topic, category, confidence and subcategories already
    written; when an element of the extended tags cannot be hashed, the
    tags are left extended as well, duplicates included. *)
Theorem classify_fails_after_writing
  (c : Collaborators) (s : WorkflowState) (w : World)
  (joined content : string) (d : list (string * json)) :
  py_join ", " (key_points s) = Ok joined ->
  llm c (S (calls w)) (classification_prompt_of s joined) = Ok content ->
  ClassificationOutputParser_parse (json_loads c) content = Ok (JObject d) ->
  (forall e, py_extend (tags s) (dict_get d "tags" (JArray [])) = Raised e ->
     fst (classify_node c s w) = failed_at "classify" e (classified d s))
  /\ (forall extended e,
        py_extend (tags s) (dict_get d "tags" (JArray [])) = Ok extended ->
        py_list_set (set_order c) extended = Raised e ->
        fst (classify_node c s w)
        = failed_at "classify" e (set_tags extended (classified d s))).
Proof.
  intros Hjoin Hllm Hparse.
  rewrite (classify_node_cases c s w joined content d Hjoin Hllm Hparse).
  split.
  - intros e He. rewrite He. reflexivity.
  - intros extended e Hext Hset. rewrite Hext, Hset. reflexivity.
Qed.

Lemma classify_fails_after_writing_witness :
  let c := scripted null_tags (Ok []) None None in
  let s1 := fst (summarize_node c demo_state empty_world) in
  let s2 := fst (classify_node c s1 (snd (summarize_node c demo_state empty_world))) in
  error s1 = None
  /\ tags s1 = JNull
  /\ error s2 = Some "'NoneType' object has no attribute 'extend'"
  /\ error_step s2 = Some "classify"
  /\ topic s2 = JString "Logic"
  /\ category s2 = JString "Education".
Proof.
  intros c s1 s2.
  assert (H : s2 = failed_at "classify" "'NoneType' object has no attribute 'extend'"
                     (classified [("topic", JString "Logic")] s1)).
  { apply (proj1 (classify_fails_after_writing c s1
                    (snd (summarize_node c demo_state empty_world))
                    "" (String "{" (String "034" "topic" +:+ String "034" ": "
                          +:+ String "034" "Logic" +:+ String "034" "}"))
                    [("topic", JString "Logic")] eq_refl eq_refl eq_refl)).
    reflexivity. }
  rewrite H. repeat split.
Defined.

(** When Classify succeeds, the tags of the state are the listing of the
    set of the old tags followed by the new ones, where a string of new tags
    counts as its characters; the four classification fields are those of
    the decoded object, with the defaults for the keys it lacks. *)
Theorem classify_merges_tags
  (c : Collaborators) (s : WorkflowState) (w : World)
  (joined content : string) (d : list (string * json)) (old new : list json) :
  py_join ", " (key_points s) = Ok joined ->
  llm c (S (calls w)) (classification_prompt_of s joined) = Ok content ->
  ClassificationOutputParser_parse (json_loads c) content = Ok (JObject d) ->
  tags s = JArray old ->
  py_iter (dict_get d "tags" (JArray [])) = Some new ->
  first_unhashable (old ++ new)%list = None ->
  let s' := fst (classify_node c s w) in
  tags s' = JArray (set_order c (old ++ new)%list)
  /\ topic s' = dict_get d "topic" (JString "General")
  /\ category s' = dict_get d "category" (JString "Education")
  /\ confidence s' = dict_get d "confidence" (JNumber "0.5")
  /\ subcategories s' = dict_get d "subcategories" (JArray [])
  /\ error s' = error s
  /\ error_step s' = error_step s.
Proof.
  intros Hjoin Hllm Hparse Hold Hnew Hhash. cbv zeta.
  rewrite (classify_node_cases c s w joined content d Hjoin Hllm Hparse).
  unfold py_extend. rewrite Hold, Hnew.
  unfold py_list_set. cbn [py_iter]. rewrite Hhash.
  cbn [fst]. repeat split.
Qed.

Lemma classify_merges_tags_witness :
  let q := String "034" EmptyString in
  let answer : Prompt -> outcome string :=
    fun _ => Ok ("{" +:+ q +:+ "tags" +:+ q +:+ ": " +:+ q +:+ "ai" +:+ q +:+ "}") in
  let s := set_tags (JArray [JString "a"]) demo_state in
  let s' := fst (classify_node (scripted answer (Ok []) None None) s empty_world) in
  tags s' = JArray [JString "a"; JString "i"]
  /\ topic s' = JString "General".
Proof.
  intros q answer s s'.
  destruct (classify_merges_tags (scripted answer (Ok []) None None) s empty_world
              "" ("{" +:+ q +:+ "tags" +:+ q +:+ ": " +:+ q +:+ "ai" +:+ q +:+ "}")
              [("tags", JString "ai")] [JString "a"] [JString "a"; JString "i"])
    as (H1 & H2 & _); try reflexivity.
  exact (conj H1 H2).
Defined.

(** ** The store steps: all or nothing *)

Lemma py_len_py_or_summary v e :
  py_len (py_or v (JString "")) = Raised e -> py_len v = Raised e.
Proof.
  unfold py_or. destruct (truthy v); [tauto | discriminate].
Qed.

(** What [pinecone_store_node] returns, by the answers of the embedding
    service, of [len] on the summary, and of the index. *)
Lemma pinecone_store_node_cases c s w :
  let '(s', w') := pinecone_store_node c s w in
  graph_db w' = graph_db w /\ checkpoints w' = checkpoints w
  /\ match get_embedding c (S (calls w)) (py_or (summary s) (JString "")) with
     | Raised e =>
         s' = failed_at "pinecone_store" e s /\ pinecone_index w' = pinecone_index w
     | Ok embedding =>
         match py_len (summary s) with
         | Raised e =>
             s' = failed_at "pinecone_store" e s /\ pinecone_index w' = pinecone_index w
         | Ok summary_length =>
             match pinecone_upsert_fault c (S (S (S (calls w)))) with
             | Some e =>
                 s' = failed_at "pinecone_store" e s
                 /\ pinecone_index w' = pinecone_index w
             | None =>
                 s' = set_pinecone_id (Some (vector_id_of c s)) s
                 /\ exists metadata,
                      pinecone_index w'
                      = <[vector_id_of c s :=
                            {| vec_values := embedding; vec_metadata := metadata |}]>
                          (pinecone_index w)
                      /\ assoc "user_id" metadata
                         = Some (JString (or_str (user_id s) "anonymous"))
                      /\ assoc "video_id" metadata
                         = Some (JString (or_str (video_id s) "unknown"))
                      /\ assoc "video_title" metadata = Some (title s)
                      /\ assoc "tags" metadata = Some (tags s)
                      /\ assoc "key_points" metadata = Some (key_points s)
                      /\ assoc "summary_length" metadata
                         = Some (JNumber (pretty summary_length))
             end
         end
     end.
Proof.
  unfold pinecone_store_node, guarded, pinecone_store_try,
    PineconeService_store_summary, PineconeService_create_metadata, index_upsert,
    vector_id_of, failed_at.
  unfold bind, get, ask, lift, assign, ret, put_world. cbn [calls tick].
  destruct (get_embedding c (S (calls w)) _) as [embedding | e]; cbn;
    [| repeat split].
  destruct (py_len (py_or (summary s) (JString ""))) as [n0 | e0] eqn:E0; cbn.
  - destruct (py_len (summary s)) as [n | e]; cbn; [| repeat split].
    destruct (pinecone_upsert_fault c (S (S (S (calls w))))) as [e |]; cbn;
      [repeat split |].
    repeat split. eexists. repeat split.
  - rewrite (py_len_py_or_summary _ _ E0). repeat split.
Qed.

(** What [neo4j_store_node] returns, by the answer of the driver. *)
Lemma neo4j_store_node_cases c s w :
  neo4j_store_node c s w =
  match neo4j_session_fault c (S (calls w)) with
  | Some e => (failed_at "neo4j_store" e s, tick (tick w))
  | None =>
      (set_neo4j_id (Some (or_str (video_id s) "unknown")) s,
       set_graph_db
         (fst (store_summary_query (summary_params_of s)
                 (clock c (S (S (calls w)))) (graph_db w)))
         (tick (tick (tick w))))
  end.
Proof.
  unfold neo4j_store_node, guarded, neo4j_store_try, Neo4jService_store_summary,
    failed_at.
  unfold bind, get, ask, lift, assign, ret, put_world, get_world. cbn [calls tick].
  destruct (neo4j_session_fault c (S (calls w))) as [e |]; [reflexivity |].
  unfold id. fold (summary_params_of s). cbn [calls tick graph_db].
  rewrite store_summary_query_clauses.
  destruct (query_head (summary_params_of s) _ (graph_db w)) as [[v t] g1].
  cbn [fst snd].
  destruct (point_rows (summary_params_of s)); reflexivity.
Qed.

Lemma store_summary_query_keeps p now g :
  keeps_nodes g (fst (store_summary_query p now g)).
Proof.
  rewrite store_summary_query_clauses.
  pose proof (query_head_keeps p now g) as K1.
  destruct (query_head p now g) as [[v t] g1]. cbn [fst snd] in *.
  set (g2 := List.fold_left (subcategory_clause v t) (subcat_rows p) g1).
  set (g3 := List.fold_left (tag_clause v) (tag_rows p) g2).
  assert (K2 : keeps_nodes g1 g2) by apply fold_keeps, subcategory_clause_keeps.
  assert (K3 : keeps_nodes g2 g3) by apply fold_keeps, tag_clause_keeps.
  eapply keeps_nodes_trans; [exact K1 |].
  eapply keeps_nodes_trans; [exact K2 |].
  eapply keeps_nodes_trans; [exact K3 |].
  apply fold_keeps, key_point_clause_keeps.
Qed.

(** The vector-store step is all or nothing.  It never touches the graph or
    the checkpoints, nor any vector but the one keyed by the video and the
    user.  Either it stamps its failure, having written neither the state
    nor the index; or it records the id and the index holds, under that id,
    the embedding of the summary with the metadata of the state. *)
Theorem vector_store_all_or_nothing (c : Collaborators) (s : WorkflowState) (w : World) :
  let s' := fst (pinecone_store_node c s w) in
  let w' := snd (pinecone_store_node c s w) in
  graph_db w' = graph_db w
  /\ checkpoints w' = checkpoints w
  /\ (forall id, id <> vector_id_of c s ->
        pinecone_index w' !! id = pinecone_index w !! id)
  /\ ((exists e, s' = failed_at "pinecone_store" e s
                 /\ pinecone_index w' = pinecone_index w)
      \/ (s' = set_pinecone_id (Some (vector_id_of c s)) s
          /\ exists embedding metadata,
               get_embedding c (S (calls w)) (py_or (summary s) (JString ""))
               = Ok embedding
               /\ pinecone_index w' !! vector_id_of c s
                  = Some {| vec_values := embedding; vec_metadata := metadata |}
               /\ assoc "user_id" metadata
                  = Some (JString (or_str (user_id s) "anonymous"))
               /\ assoc "video_id" metadata
                  = Some (JString (or_str (video_id s) "unknown"))
               /\ assoc "video_title" metadata = Some (title s)
               /\ assoc "tags" metadata = Some (tags s)
               /\ assoc "key_points" metadata = Some (key_points s))).
Proof.
  cbv zeta. pose proof (pinecone_store_node_cases c s w) as H.
  destruct (pinecone_store_node c s w) as [s' w']. cbn [fst snd].
  destruct H as (Hg & Hc & H). split; [exact Hg |]. split; [exact Hc |].
  destruct (get_embedding c (S (calls w)) _) as [embedding | e].
  2: { destruct H as [-> Hi]. split; [intros; now rewrite Hi | left; eauto]. }
  destruct (py_len (summary s)) as [n | e].
  2: { destruct H as [-> Hi]. split; [intros; now rewrite Hi | left; eauto]. }
  destruct (pinecone_upsert_fault c _) as [e |].
  { destruct H as [-> Hi]. split; [intros; now rewrite Hi | left; eauto]. }
  destruct H as (-> & metadata & Hi & Hu & Hv & Ht & Htags & Hk & _).
  split.
  - intros id Hid. rewrite Hi. apply lookup_insert_ne. congruence.
  - right. split; [reflexivity |]. exists embedding, metadata.
    split; [reflexivity |]. rewrite Hi, lookup_insert_eq. repeat split; assumption.
Qed.

(** The vector-store step takes the length of the summary itself when it
    builds the metadata: a summary that has no length, as the null of a
    response whose summary is null, fails the step with the message of
    [len], although the embedding was computed for the empty string. *)
Theorem vector_store_needs_sized_summary
  (c : Collaborators) (s : WorkflowState) (w : World) (e : string) (embedding : list Z) :
  get_embedding c (S (calls w)) (py_or (summary s) (JString "")) = Ok embedding ->
  py_len (summary s) = Raised e ->
  fst (pinecone_store_node c s w) = failed_at "pinecone_store" e s
  /\ pinecone_index (snd (pinecone_store_node c s w)) = pinecone_index w.
Proof.
  intros Hemb Hlen. pose proof (pinecone_store_node_cases c s w) as H.
  destruct (pinecone_store_node c s w) as [s' w']. cbn [fst snd].
  rewrite Hemb, Hlen in H. tauto.
Qed.

Lemma vector_store_needs_sized_summary_witness :
  let c := scripted prose (Ok [1; 2]) None None in
  fst (pinecone_store_node c demo_state empty_world)
  = failed_at "pinecone_store" "object of type 'NoneType' has no len()" demo_state
  /\ pinecone_index (snd (pinecone_store_node c demo_state empty_world)) = ∅.
Proof.
  intros c.
  apply (vector_store_needs_sized_summary c demo_state empty_world
           "object of type 'NoneType' has no len()" [1; 2]); reflexivity.
Defined.

(** The graph-store step is all or nothing.  It never touches the vector
    index or the checkpoints, and never removes a node the query merges on.
    Either it stamps its failure, having written neither the state nor the
    graph; or it records the video id as the graph id, and the graph holds
    the Video, User, Topic and Category of the state and a node for each
    subcategory and tag row. *)
Theorem graph_store_all_or_nothing (c : Collaborators) (s : WorkflowState) (w : World) :
  let s' := fst (neo4j_store_node c s w) in
  let w' := snd (neo4j_store_node c s w) in
  pinecone_index w' = pinecone_index w
  /\ checkpoints w' = checkpoints w
  /\ keeps_nodes (graph_db w) (graph_db w')
  /\ ((exists e, s' = failed_at "neo4j_store" e s /\ graph_db w' = graph_db w)
      \/ (s' = set_neo4j_id (Some (or_str (video_id s) "unknown")) s
          /\ merged_present (summary_params_of s) (graph_db w'))).
Proof.
  cbv zeta. rewrite neo4j_store_node_cases.
  destruct (neo4j_session_fault c (S (calls w))) as [e |]; cbn [fst snd].
  - repeat split; [apply keeps_nodes_refl | left; eauto].
  - repeat split.
    + apply store_summary_query_keeps.
    + right. split; [reflexivity |]. apply store_summary_query_merges.
Qed.

(** ** What the other steps leave alone *)

Lemma stores_kept_refl s w : stores_kept s w s w.
Proof. repeat split. Qed.

Lemma stores_kept_trans s1 w1 s2 w2 s3 w3 :
  stores_kept s1 w1 s2 w2 -> stores_kept s2 w2 s3 w3 -> stores_kept s1 w1 s3 w3.
Proof. unfold stores_kept. intuition congruence. Qed.

Ltac stores_body :=
  preservation stores_kept_refl stores_kept_trans
    ltac:(intros; repeat split) ltac:(intros; repeat split) ltac:(intros; repeat split).

Lemma guarded_stores_kept step body s w :
  preserves stores_kept body ->
  stores_kept s w (fst (guarded step body s (tick w))) (snd (guarded step body s (tick w))).
Proof.
  intros Hbody. unfold guarded.
  destruct (body s (tick w)) as [[[[] | e] s1] w1] eqn:E;
    apply Hbody in E; exact E.
Qed.

Lemma summarize_node_stores c s w :
  stores_kept s w (fst (summarize_node c s w)) (snd (summarize_node c s w)).
Proof.
  unfold summarize_node. apply guarded_stores_kept.
  unfold summarize_try. stores_body.
Qed.

Lemma classify_node_stores c s w :
  stores_kept s w (fst (classify_node c s w)) (snd (classify_node c s w)).
Proof.
  unfold classify_node. apply guarded_stores_kept.
  unfold classify_try. stores_body.
Qed.

(** Summarize, Classify and Finalize change the run state only: the vector
    index, the graph and the checkpoints are after each of them what they
    were before, however the step ends. *)
Theorem steps_leave_stores (c : Collaborators) (s : WorkflowState) (w : World) :
  stores_kept s w (fst (summarize_node c s w)) (snd (summarize_node c s w))
  /\ stores_kept s w (fst (classify_node c s w)) (snd (classify_node c s w))
  /\ stores_kept s w (snd (fst (finalize_node c s w))) (snd (finalize_node c s w)).
Proof.
  split; [apply summarize_node_stores | split; [apply classify_node_stores |]].
  rewrite finalize_node_eq. repeat split.
Qed.

(** Storing again under the same video and user overwrites: after a
    completed vector-store step the ids of the index are those it had,
    with the id of the state added. *)
Theorem vector_store_overwrites (c : Collaborators) (s : WorkflowState) (w : World) :
  let s' := fst (pinecone_store_node c s w) in
  let w' := snd (pinecone_store_node c s w) in
  error_step s' <> Some "pinecone_store" ->
  dom (pinecone_index w') = {[vector_id_of c s]} ∪ dom (pinecone_index w)
  /\ (is_Some (pinecone_index w !! vector_id_of c s) ->
      size (pinecone_index w') = size (pinecone_index w)).
Proof.
  cbv zeta. intros Hstep.
  pose proof (pinecone_store_node_cases c s w) as P.
  destruct (pinecone_store_node c s w) as [s' w']. cbn [fst snd] in *.
  destruct P as (_ & _ & P).
  destruct (get_embedding c (S (calls w)) _) as [embedding | e];
    [| destruct P as [-> _]; exfalso; apply Hstep; reflexivity].
  destruct (py_len (summary s)) as [n | e];
    [| destruct P as [-> _]; exfalso; apply Hstep; reflexivity].
  destruct (pinecone_upsert_fault c _) as [e |];
    [destruct P as [-> _]; exfalso; apply Hstep; reflexivity |].
  destruct P as (_ & metadata & -> & _).
  split.
  - apply dom_insert_L.
  - intros [old Hold].
    rewrite <- !size_dom, dom_insert_L.
    f_equal. apply elem_of_dom_2 in Hold.
    apply subseteq_union_1_L, singleton_subseteq_l, Hold.
Qed.

Lemma vector_store_overwrites_witness :
  let c := scripted structured (Ok [1]) None None in
  let s := set_summary (JString "Proofs") demo_state in
  let w1 := snd (pinecone_store_node c s empty_world) in
  let w2 := snd (pinecone_store_node c s w1) in
  dom (pinecone_index w2) = {["md5:abc_u1"]} ∪ dom (pinecone_index w1).
Proof.
  intros c s w1 w2.
  apply (proj1 (vector_store_overwrites c s w1 ltac:(vm_compute; discriminate))).
Defined.

(** ** A whole run and the stores *)

Lemma writes_only_refl id w : writes_only id w w.
Proof. repeat split. apply keeps_nodes_refl. Qed.

Lemma writes_only_trans id w1 w2 w3 :
  writes_only id w1 w2 -> writes_only id w2 w3 -> writes_only id w1 w3.
Proof.
  intros (I1 & G1 & C1) (I2 & G2 & C2). split; [| split].
  - intros id' Hid. rewrite (I2 id' Hid). now apply I1.
  - eapply keeps_nodes_trans; eassumption.
  - congruence.
Qed.

Lemma stores_kept_writes_only id s w s' w' :
  stores_kept s w s' w' -> writes_only id w w'.
Proof.
  intros (I & G & C). split; [| split].
  - intros id' _. now rewrite I.
  - rewrite G. apply keeps_nodes_refl.
  - exact C.
Qed.

Lemma vector_id_of_frame c fs s s' :
  unchanged_except fs s s' -> ~ In F_video_id fs -> ~ In F_user_id fs ->
  vector_id_of c s' = vector_id_of c s.
Proof.
  intros Hfr Hv Hu. unfold vector_id_of.
  pose proof (Hfr F_video_id Hv) as Ev. pose proof (Hfr F_user_id Hu) as Eu.
  simpl in Ev, Eu. now rewrite Ev, Eu.
Qed.

Ltac not_in_list := simpl; intuition discriminate.

Lemma summarize_node_writes c s w s' w' :
  summarize_node c s w = (s', w') ->
  writes_only (vector_id_of c s) w w' /\ vector_id_of c s' = vector_id_of c s.
Proof.
  intros H. split.
  - pose proof (summarize_node_stores c s w) as K. rewrite H in K.
    eapply stores_kept_writes_only, K.
  - pose proof (summarize_node_frame c s w) as F. rewrite H in F.
    eapply vector_id_of_frame; [exact F | not_in_list ..].
Qed.

Lemma classify_node_writes c s w s' w' :
  classify_node c s w = (s', w') ->
  writes_only (vector_id_of c s) w w' /\ vector_id_of c s' = vector_id_of c s.
Proof.
  intros H. split.
  - pose proof (classify_node_stores c s w) as K. rewrite H in K.
    eapply stores_kept_writes_only, K.
  - pose proof (classify_node_frame c s w) as F. rewrite H in F.
    eapply vector_id_of_frame; [exact F | not_in_list ..].
Qed.

Lemma pinecone_store_node_writes c s w s' w' :
  pinecone_store_node c s w = (s', w') ->
  writes_only (vector_id_of c s) w w' /\ vector_id_of c s' = vector_id_of c s.
Proof.
  intros H. split.
  - pose proof (pinecone_store_node_cases c s w) as P. rewrite H in P.
    destruct P as (G & C & P). split; [| split; [rewrite G; apply keeps_nodes_refl | exact C]].
    intros id' Hid.
    destruct (get_embedding c (S (calls w)) _) as [embedding | e];
      [| destruct P as [_ ->]; reflexivity].
    destruct (py_len (summary s)) as [n | e]; [| destruct P as [_ ->]; reflexivity].
    destruct (pinecone_upsert_fault c _) as [e |]; [destruct P as [_ ->]; reflexivity |].
    destruct P as (_ & metadata & -> & _).
    apply lookup_insert_ne. congruence.
  - pose proof (pinecone_store_node_frame c s w) as F. rewrite H in F.
    eapply vector_id_of_frame; [exact F | not_in_list ..].
Qed.

Lemma neo4j_store_node_writes c s w s' w' :
  neo4j_store_node c s w = (s', w') ->
  writes_only (vector_id_of c s) w w' /\ vector_id_of c s' = vector_id_of c s.
Proof.
  intros H. split.
  - rewrite neo4j_store_node_cases in H.
    destruct (neo4j_session_fault c (S (calls w))) as [e |]; inversion H; subst.
    + repeat split. apply keeps_nodes_refl.
    + repeat split. apply store_summary_query_keeps.
  - pose proof (neo4j_store_node_frame c s w) as F. rewrite H in F.
    eapply vector_id_of_frame; [exact F | not_in_list ..].
Qed.

Lemma finalize_step_writes c s w s' w' :
  finalize_step c s w = (s', w') ->
  writes_only (vector_id_of c s) w w' /\ vector_id_of c s' = vector_id_of c s.
Proof.
  rewrite finalize_step_eq. intros H. inversion H; subst.
  split; [repeat split; apply keeps_nodes_refl |].
  destruct (truthy_str (error s)); [reflexivity |].
  destruct (py_len _); reflexivity.
Qed.

Lemma runs_to_writes_only c s w final history w' :
  runs_to c s w final history w' -> writes_only (vector_id_of c s) w w'.
Proof.
  intros Hrun.
  destruct Hrun;
    repeat match goal with
      | H : summarize_node _ _ _ = _ |- _ =>
          apply summarize_node_writes in H; destruct H as [? ?]
      | H : classify_node _ _ _ = _ |- _ =>
          apply classify_node_writes in H; destruct H as [? ?]
      | H : pinecone_store_node _ _ _ = _ |- _ =>
          apply pinecone_store_node_writes in H; destruct H as [? ?]
      | H : neo4j_store_node _ _ _ = _ |- _ =>
          apply neo4j_store_node_writes in H; destruct H as [? ?]
      | H : finalize_step _ _ _ = _ |- _ =>
          apply finalize_step_writes in H; destruct H as [? ?]
      end;
    repeat match goal with
      | E : vector_id_of c ?a = vector_id_of c ?b, H : writes_only (vector_id_of c ?a) _ _
        |- _ => rewrite E in H
      end;
    repeat match goal with
      | E : vector_id_of c ?a = vector_id_of c ?b |- _ =>
          first [ rewrite E in * | clear E ]
      end;
    eauto using writes_only_refl, writes_only_trans.
Qed.

(** However a run ends, it has written at most one vector, the one keyed by
    the video and the user of the state it started from; it has removed no
    node the graph query merges on; and its steps have not touched the
    checkpoints. *)
Theorem run_writes_one_vector (c : Collaborators) (s : WorkflowState) (w : World)
  (final : WorkflowState) (history : History) (w' : World) :
  execute (workflow_graph c) s w = (Ok (final, history), w') ->
  (forall id, id <> vector_id_of c s ->
     pinecone_index w' !! id = pinecone_index w !! id)
  /\ keeps_nodes (graph_db w) (graph_db w')
  /\ checkpoints w' = checkpoints w.
Proof.
  intros Hex.
  destruct (execute_runs c s w) as (final0 & history0 & w0 & _ & Hex0 & Hrun).
  rewrite Hex in Hex0. inversion Hex0; subst.
  exact (runs_to_writes_only _ _ _ _ _ _ Hrun).
Qed.

Lemma run_writes_one_vector_witness :
  let c := scripted structured (Ok [1]) None None in
  let w' := snd (execute (workflow_graph c) demo_state empty_world) in
  pinecone_index w' !! "md5:xyz_u1" = None /\ checkpoints w' = ∅.
Proof.
  intros c w'. subst w'.
  destruct (execute (workflow_graph c) demo_state empty_world)
    as [[[final history] | e] w0] eqn:E.
  - destruct (run_writes_one_vector c demo_state empty_world final history w0 E)
      as (I & _ & C).
    cbn [snd]. split; [| exact C].
    rewrite I; [reflexivity |].
    intros H. vm_compute in H. discriminate H.
  - vm_compute in E. discriminate E.
Defined.

Lemma failed_at_error step e s : error (failed_at step e s) = Some e.
Proof. reflexivity. Qed.

(** A run that returns with the error unset has run all five steps: the
    state carries the id of the vector, the video id as the graph id and a
    creation time; the index holds the vector; and the graph holds the
    nodes merged for the state. *)
Theorem clean_run_stored_everything (c : Collaborators) (s : WorkflowState) (w : World)
  (final : WorkflowState) (history : History) (w' : World) :
  execute (workflow_graph c) s w = (Ok (final, history), w') ->
  error final = None ->
  List.map fst history = step_names
  /\ pinecone_id final = Some (vector_id_of c s)
  /\ neo4j_id final = Some (or_str (video_id s) "unknown")
  /\ (exists t, created_at final = Some t)
  /\ is_Some (pinecone_index w' !! vector_id_of c s)
  /\ merged_present (summary_params_of final) (graph_db w').
Proof.
  intros Hex Hclean.
  destruct (execute_runs c s w) as (final0 & history0 & w0 & _ & Hex0 & Hrun).
  rewrite Hex in Hex0. inversion Hex0; subst final0 history0 w0. clear Hex0.
  ways Hrun; try (rewrite Hclean in *; discriminate).
  rewrite finalize_step_eq, E4 in H5.
  destruct (py_len (py_or (summary s4) (JString ""))) as [n5 | e5];
    inversion H5; subst s5 w5; clear H5; [| discriminate Hclean].
  cbn [error set_created_at] in Hclean.
  rewrite neo4j_store_node_cases in H4.
  destruct (neo4j_session_fault c (S (calls w3))) as [e |];
    inversion H4; subst s4 w4; clear H4; [discriminate Hclean |].
  cbn [error set_neo4j_id] in Hclean.
  pose proof (pinecone_store_node_frame c s2 w2) as F3. rewrite H3 in F3. cbn [fst] in F3.
  pose proof (pinecone_store_node_cases c s2 w2) as P. rewrite H3 in P.
  destruct P as (G3 & C3 & P).
  assert (P' : s3 = set_pinecone_id (Some (vector_id_of c s2)) s2
               /\ is_Some (pinecone_index w3 !! vector_id_of c s2)).
  { destruct (get_embedding c (S (calls w2)) _) as [embedding | e];
      [| destruct P as [-> _]; discriminate Hclean].
    destruct (py_len (summary s2)) as [n | e];
      [| destruct P as [-> _]; discriminate Hclean].
    destruct (pinecone_upsert_fault c _) as [e |];
      [destruct P as [-> _]; discriminate Hclean |].
    destruct P as (-> & metadata & -> & _). split; [reflexivity |].
    rewrite lookup_insert_eq. eauto. }
  clear P. destruct P' as [-> Hin].
  destruct (summarize_node_writes _ _ _ _ _ H1) as [_ V1].
  destruct (classify_node_writes _ _ _ _ _ H2) as [_ V2].
  pose proof (summarize_node_frame c s w) as F1. rewrite H1 in F1. cbn [fst] in F1.
  pose proof (classify_node_frame c s1 w1) as F2. rewrite H2 in F2. cbn [fst] in F2.
  pose proof (F1 F_video_id ltac:(not_in_list)) as Ev1.
  pose proof (F2 F_video_id ltac:(not_in_list)) as Ev2. simpl in Ev1, Ev2.
  rewrite V2, V1 in *.
  split; [reflexivity |]. split; [reflexivity |]. split.
  { cbn. now rewrite Ev2, Ev1. }
  split; [eexists; reflexivity |]. split; [exact Hin |].
  cbn [graph_db tick set_graph_db].
  apply store_summary_query_merges.
Qed.

Lemma clean_run_stored_everything_witness :
  let c := scripted structured (Ok [1]) None None in
  exists final history w',
    execute (workflow_graph c) demo_state empty_world = (Ok (final, history), w')
    /\ pinecone_id final = Some "md5:abc_u1"
    /\ neo4j_id final = Some "abc".
Proof.
  intros c.
  destruct (execute (workflow_graph c) demo_state empty_world)
    as [[[final history] | e] w0] eqn:E.
  - exists final, history, w0. split; [reflexivity |].
    destruct (clean_run_stored_everything c demo_state empty_world final history w0 E)
      as (_ & P & N & _).
    + vm_compute in E. inversion E. reflexivity.
    + exact (conj P N).
  - vm_compute in E. discriminate E.
Defined.

(** Finalize logs the length of [summary or ''].  In a run in which the
    vector-store step completed, that length is defined when Finalize is
    reached: the vector-store step took the same length, and no step after
    it assigns the summary. *)
Theorem finalize_logs_a_defined_length (c : Collaborators) (s : WorkflowState) (w : World)
  (final : WorkflowState) (history : History) (w' : World) :
  execute (workflow_graph c) s w = (Ok (final, history), w') ->
  In "finalize" (List.map fst history) ->
  succeeded_in history "pinecone_store" ->
  exists n, py_len (py_or (summary final) (JString "")) = Ok n.
Proof.
  intros Hex Hfin (st & Hin & Hst).
  destruct (execute_runs c s w) as (final0 & history0 & w0 & _ & Hex0 & Hrun).
  rewrite Hex in Hex0. inversion Hex0; subst final0 history0 w0. clear Hex0.
  ways Hrun; simpl in Hfin; try (exfalso; intuition discriminate).
  clear Hfin.
  assert (st = s3) as ->.
  { simpl in Hin.
    repeat (destruct Hin as [Hin | Hin]; [inversion Hin; subst; try reflexivity |]);
      contradiction. }
  assert (Es5 : summary s5 = summary s4).
  { rewrite finalize_step_eq in H5. inversion H5; subst s5 w5.
    destruct (truthy_str (error s4)); [reflexivity |].
    destruct (py_len _); reflexivity. }
  rewrite Es5. clear H5 Es5.
  pose proof (neo4j_store_node_frame c s3 w3) as F4. rewrite H4 in F4. cbn [fst] in F4.
  pose proof (F4 F_summary ltac:(not_in_list)) as Es4. simpl in Es4.
  pose proof (pinecone_store_node_frame c s2 w2) as F3. rewrite H3 in F3. cbn [fst] in F3.
  pose proof (F3 F_summary ltac:(not_in_list)) as Es3. simpl in Es3.
  rewrite Es4, Es3.
  pose proof (pinecone_store_node_cases c s2 w2) as P. rewrite H3 in P.
  destruct P as (_ & _ & P).
  destruct (get_embedding c (S (calls w2)) _) as [embedding | e];
    [| destruct P as [-> _]; exfalso; apply Hst; reflexivity].
  destruct (py_len (summary s2)) as [n | e] eqn:Elen;
    [| destruct P as [-> _]; exfalso; apply Hst; reflexivity].
  unfold py_or. destruct (truthy (summary s2)); [eauto |].
  eexists. reflexivity.
Qed.

Lemma finalize_logs_a_defined_length_witness :
  let c := scripted structured (Ok [1]) None None in
  exists final history w' n,
    execute (workflow_graph c) demo_state empty_world = (Ok (final, history), w')
    /\ py_len (py_or (summary final) (JString "")) = Ok n.
Proof.
  intros c.
  destruct (execute (workflow_graph c) demo_state empty_world)
    as [[[final history] | e] w0] eqn:E.
  - destruct (finalize_logs_a_defined_length c demo_state empty_world final history w0 E)
      as [n Hn].
    + vm_compute in E. inversion E. simpl. tauto.
    + vm_compute in E. inversion E. eexists. split; [simpl; eauto 6 |]. discriminate.
    + exists final, history, w0, n. split; [reflexivity | exact Hn].
  - vm_compute in E. discriminate E.
Defined.




(** ** Updating and deleting a stored vector *)

Lemma assoc_dict_set_eq k v d : assoc k (Json.dict_set k v d) = Some v.
Proof.
  induction d as [| [k' v'] d IH]; simpl.
  - now rewrite String.eqb_refl.
  - destruct (String.eqb k k') eqn:E; simpl.
    + now rewrite String.eqb_refl.
    + now rewrite E.
Qed.

(** [update_summary] is all or nothing, and touches only the vector it is
    given.  It answers false, having changed nothing, when the vector does
    not exist.  When it answers true, the vector has the new embedding and
    the old metadata with tone, tags and key points replaced (by those of
    the new summary where it has them) and the update time added: every
    other entry, the title and the summary length among them, is the old
    one. *)
Theorem update_summary_all_or_nothing (c : Collaborators) (f : PineconeFaults)
  (vector_id : string) (summary_data : list (string * json)) (embedding : list Z)
  (w : World) :
  let ok := fst (PineconeService_update_summary c f vector_id summary_data embedding w) in
  let w' := snd (PineconeService_update_summary c f vector_id summary_data embedding w) in
  graph_db w' = graph_db w
  /\ checkpoints w' = checkpoints w
  /\ (forall id, id <> vector_id -> pinecone_index w' !! id = pinecone_index w !! id)
  /\ (pinecone_index w !! vector_id = None -> ok = false)
  /\ (ok = false -> pinecone_index w' = pinecone_index w)
  /\ (ok = true ->
      exists existing metadata,
        pinecone_index w !! vector_id = Some existing
        /\ pinecone_index w' !! vector_id
           = Some {| vec_values := embedding; vec_metadata := metadata |}
        /\ assoc "tone" metadata
           = Some (dict_get summary_data "tone"
                     (dict_get (vec_metadata existing) "tone" JNull))
        /\ assoc "tags" metadata
           = Some (dict_get summary_data "tags"
                     (dict_get (vec_metadata existing) "tags" (JArray [])))
        /\ assoc "key_points" metadata
           = Some (dict_get summary_data "key_points"
                     (dict_get (vec_metadata existing) "key_points" (JArray [])))
        /\ assoc "updated_at" metadata
           = Some (JString (isoformat c (clock c (S (calls w)))))
        /\ (forall k, ~ In k ["tone"; "tags"; "key_points"; "updated_at"] ->
              assoc k metadata = assoc k (vec_metadata existing))).
Proof.
  cbv zeta. unfold PineconeService_update_summary.
  destruct (pinecone_fetch_fault f (calls w)) as [e |].
  { cbn. repeat split; try reflexivity; intros; discriminate. }
  cbn [pinecone_index tick calls].
  destruct (pinecone_index w !! vector_id) as [existing |] eqn:Hexisting.
  2: { cbn. repeat split; try reflexivity; intros; discriminate. }
  destruct (pinecone_upsert_fault c (S (S (calls w)))) as [e |].
  { cbn. repeat split; try reflexivity; intros; discriminate. }
  cbn [fst snd graph_db checkpoints pinecone_index set_pinecone_index tick].
  split; [reflexivity |]. split; [reflexivity |]. split.
  { intros id Hid. apply lookup_insert_ne. congruence. }
  split; [discriminate |]. split; [discriminate |].
  intros _. eexists existing, _. split; [reflexivity |].
  split; [apply lookup_insert_eq |].
  cbn [vec_metadata].
  split.
  { rewrite !assoc_dict_set_ne by discriminate. apply assoc_dict_set_eq. }
  split.
  { rewrite !assoc_dict_set_ne by discriminate. apply assoc_dict_set_eq. }
  split.
  { rewrite !assoc_dict_set_ne by discriminate. apply assoc_dict_set_eq. }
  split; [apply assoc_dict_set_eq |].
  intros k Hk.
  rewrite !assoc_dict_set_ne; [reflexivity | | | |];
    intros ->; apply Hk; simpl; tauto.
Qed.

Lemma update_summary_all_or_nothing_witness :
  let c := scripted structured (Ok []) None None in
  let summary_data := [("title", JString "New"); ("tone", JString "formal")] in
  let w' := snd (PineconeService_update_summary c no_faults "v1" summary_data [2]
                   one_vector) in
  exists metadata,
    pinecone_index w' !! "v1" = Some {| vec_values := [2]; vec_metadata := metadata |}
    /\ assoc "tone" metadata = Some (JString "formal")
    /\ assoc "video_title" metadata = Some (JString "Old").
Proof.
  intros c summary_data w'.
  destruct (update_summary_all_or_nothing c no_faults "v1" summary_data [2] one_vector)
    as (_ & _ & _ & _ & _ & H).
  destruct (H eq_refl) as (existing & metadata & Hold & Hnew & Htone & _ & _ & _ & Hkeep).
  exists metadata. split; [exact Hnew |].
  vm_compute in Hold. inversion Hold; subst existing. split; [exact Htone |].
  rewrite Hkeep; [reflexivity |]. simpl. intuition discriminate.
Defined.

(** [delete_summary] answers true when the client does not raise, whether
    or not the vector existed, and the vector is then gone; it answers
    false having changed nothing; and it never touches another vector. *)
Theorem delete_summary_removes (f : PineconeFaults) (vector_id : string) (w : World) :
  let ok := fst (PineconeService_delete_summary f vector_id w) in
  let w' := snd (PineconeService_delete_summary f vector_id w) in
  (ok = true <-> pinecone_delete_fault f (calls w) = None)
  /\ (ok = true -> pinecone_index w' !! vector_id = None)
  /\ (ok = false -> pinecone_index w' = pinecone_index w)
  /\ (forall id, id <> vector_id -> pinecone_index w' !! id = pinecone_index w !! id)
  /\ graph_db w' = graph_db w
  /\ checkpoints w' = checkpoints w.
Proof.
  cbv zeta. unfold PineconeService_delete_summary.
  destruct (pinecone_delete_fault f (calls w)) as [e |]; cbn.
  - repeat split; try reflexivity; intros; discriminate.
  - repeat split; try reflexivity; try discriminate.
    + intros _. apply lookup_delete_eq.
    + intros id Hid. apply lookup_delete_ne. congruence.
Qed.

Lemma delete_summary_removes_witness :
  pinecone_index (snd (PineconeService_delete_summary no_faults "v1" one_vector)) !! "v1"
  = None.
Proof.
  apply (proj1 (proj2 (delete_summary_removes no_faults "v1" one_vector))).
  reflexivity.
Defined.

(** Deleting the vector a run has stored undoes the store: when the
    vector-store step completed on an index that did not hold the id and
    the vector it recorded is then deleted, the index is what it was before
    the step. *)
Theorem delete_undoes_vector_store (c : Collaborators) (f : PineconeFaults)
  (s : WorkflowState) (w : World) (vector_id : string) :
  let s' := fst (pinecone_store_node c s w) in
  let w' := snd (pinecone_store_node c s w) in
  error_step s' <> Some "pinecone_store" ->
  pinecone_id s' = Some vector_id ->
  pinecone_index w !! vector_id = None ->
  pinecone_delete_fault f (calls w') = None ->
  PineconeService_delete_summary f vector_id w'
  = (true, set_pinecone_index (pinecone_index w) (tick w')).
Proof.
  cbv zeta. intros Hstep Hid Hfresh Hfault.
  unfold PineconeService_delete_summary. rewrite Hfault. f_equal.
  pose proof (pinecone_store_node_cases c s w) as P.
  destruct (pinecone_store_node c s w) as [s' w']. cbn [fst snd] in *.
  destruct P as (_ & _ & P).
  destruct (get_embedding c (S (calls w)) _) as [embedding | e];
    [| destruct P as [-> _]; exfalso; apply Hstep; reflexivity].
  destruct (py_len (summary s)) as [n | e];
    [| destruct P as [-> _]; exfalso; apply Hstep; reflexivity].
  destruct (pinecone_upsert_fault c _) as [e |];
    [destruct P as [-> _]; exfalso; apply Hstep; reflexivity |].
  destruct P as (-> & metadata & Hi & _).
  cbn in Hid. inversion Hid as [Hv]. rewrite Hv in *.
  rewrite Hi, delete_insert_eq, delete_id by exact Hfresh. reflexivity.
Qed.

Lemma delete_undoes_vector_store_witness :
  let c := scripted structured (Ok [1]) None None in
  let s := set_summary (JString "Proofs") demo_state in
  pinecone_index
    (snd (PineconeService_delete_summary no_faults "md5:abc_u1"
            (snd (pinecone_store_node c s empty_world))))
  = ∅.
Proof.
  intros c s.
  rewrite (delete_undoes_vector_store c no_faults s empty_world "md5:abc_u1").
  - reflexivity.
  - vm_compute. discriminate.
  - reflexivity.
  - reflexivity.
  - reflexivity.
Defined.

(** ** The rows of the graph query *)

Lemma length_flat_map_const {A B : Type} (l : list B) (rows : list A) :
  List.length (List.flat_map (fun _ => l) rows)
  = (List.length rows * List.length l)%nat.
Proof.
  induction rows as [| x rows IH]; simpl; [reflexivity |].
  rewrite List.length_app, IH. reflexivity.
Qed.

(** [json_eqb] decides equality. *)
Lemma json_eqb_eq : forall a b : json, json_eqb a b = true -> a = b.
Proof.
  fix IH 1. intros a b.
  destruct a as [| x | x | x | xs | xs]; destruct b as [| y | y | y | ys | ys];
    simpl; try discriminate; intros H.
  - reflexivity.
  - f_equal. now apply Bool.eqb_prop.
  - f_equal. now apply String.eqb_eq.
  - f_equal. now apply String.eqb_eq.
  - f_equal. revert xs ys H. fix IHitems 1.
    intros [| x xs] [| y ys]; simpl; try discriminate; [reflexivity |].
    intros H. apply andb_prop in H. destruct H as [H1 H2].
    f_equal; [apply IH, H1 | apply IHitems, H2].
  - f_equal. revert xs ys H. fix IHmembers 1.
    intros [| [k x] xs] [| [k' y] ys]; simpl; try discriminate; [reflexivity |].
    intros H. apply andb_prop in H. destruct H as [H0 H2].
    apply andb_prop in H0. destruct H0 as [H0 H1].
    apply String.eqb_eq in H0. subst k'.
    f_equal; [f_equal; apply IH, H1 | apply IHmembers, H2].
Qed.

Lemma merged_keys_key label key :
  In (label, key) merged_keys -> In key ["video_id"; "user_id"; "name"].
Proof.
  intros H. simpl in H.
  repeat (destruct H as [H | H]; [inversion H; subst; simpl; tauto |]).
  contradiction.
Qed.

Lemma merged_keys_label label key :
  In (label, key) merged_keys -> String.eqb "KeyPoint" label = false.
Proof.
  intros H. simpl in H.
  repeat (destruct H as [H | H]; [inversion H; subst; reflexivity |]).
  contradiction.
Qed.

Lemma no_duplicates_create label props g :
  no_duplicates g ->
  (forall l k v n,
     In (l, k) merged_keys -> In n (g_nodes g) ->
     Cypher.node_matches l k v n = true ->
     Cypher.node_matches l k v
       {| node_id := g_next g; node_label := label; node_props := props |} = false) ->
  no_duplicates (snd (Cypher.create_node label props g)).
Proof.
  intros (Hids & Hnext & Huniq & Hrels) Hnew.
  unfold no_duplicates, Cypher.create_node. simpl.
  split; [| split; [| split]].
  - rewrite List.map_app. apply NoDup_app. split; [exact Hids |].
    split; [| apply NoDup_singleton].
    intros x Hx Hx'. apply list_elem_of_singleton in Hx'. subst x.
    apply list_elem_of_In, List.in_map_iff in Hx. destruct Hx as (n & Hn & Hin).
    apply Hnext in Hin. simpl in Hn. lia.
  - intros n Hin. apply List.in_app_iff in Hin. destruct Hin as [Hin | [<- | []]].
    + apply Hnext in Hin. lia.
    + simpl. lia.
  - intros l k v n1 n2 Hk H1 H2 M1 M2.
    apply List.in_app_iff in H1. apply List.in_app_iff in H2.
    destruct H1 as [H1 | [<- | []]], H2 as [H2 | [<- | []]].
    + exact (Huniq l k v n1 n2 Hk H1 H2 M1 M2).
    + rewrite (Hnew l k v n1 Hk H1 M1) in M2. discriminate M2.
    + rewrite (Hnew l k v n2 Hk H2 M2) in M1. discriminate M1.
    + reflexivity.
  - exact Hrels.
Qed.

Lemma no_duplicates_merge_node label key value g :
  no_duplicates g -> no_duplicates (snd (Cypher.merge_node label key value g)).
Proof.
  intros Hg. unfold Cypher.merge_node.
  destruct (List.find _ (g_nodes g)) as [n |] eqn:E; [exact Hg |].
  apply no_duplicates_create; [exact Hg |].
  intros l k v n Hk Hin Hm.
  apply Bool.not_true_is_false. intros Hnew.
  unfold Cypher.node_matches in Hnew. cbn in Hnew.
  apply andb_prop in Hnew. destruct Hnew as [Hl Hv].
  apply String.eqb_eq in Hl. subst l.
  destruct (String.eqb k key) eqn:Ek; [| discriminate Hv].
  apply String.eqb_eq in Ek. subst k.
  apply json_eqb_eq in Hv. subst v.
  pose proof (List.find_none _ _ E n Hin) as Hf. cbv beta in Hf. congruence.
Qed.

(** On a graph without duplicates, the node a [MERGE] of the query binds is
    the only one that matches. *)
Lemma merge_node_binds_the_only_match label key value g n :
  no_duplicates g -> In (label, key) merged_keys ->
  In n (g_nodes g) -> Cypher.node_matches label key value n = true ->
  Cypher.merge_node label key value g = (node_id n, g).
Proof.
  intros (_ & _ & Huniq & _) Hk Hin Hm. unfold Cypher.merge_node.
  destruct (List.find _ (g_nodes g)) as [n' |] eqn:E.
  - apply List.find_some in E. destruct E as [Hin' Hm'].
    now rewrite (Huniq label key value n' n Hk Hin' Hin Hm' Hm).
  - pose proof (List.find_none _ _ E n Hin) as Hf. cbv beta in Hf. congruence.
Qed.

Lemma no_duplicates_create_key_point props g :
  no_duplicates g -> no_duplicates (snd (Cypher.create_node "KeyPoint" props g)).
Proof.
  intros Hg. apply no_duplicates_create; [exact Hg |].
  intros l k v n Hk _ _. unfold Cypher.node_matches. cbn [node_label].
  now rewrite (merged_keys_label _ _ Hk).
Qed.

Lemma no_duplicates_set_prop id key value g :
  ~ In key ["video_id"; "user_id"; "name"] ->
  no_duplicates g -> no_duplicates (Cypher.set_prop id key value g).
Proof.
  intros Hkey (Hids & Hnext & Huniq & Hrels).
  unfold no_duplicates, Cypher.set_prop. simpl.
  set (f := fun n : GNode =>
              if Nat.eqb (node_id n) id
              then {| node_id := node_id n; node_label := node_label n;
                      node_props := Json.dict_set key value (node_props n) |}
              else n).
  assert (Hid : forall n, node_id (f n) = node_id n)
    by (intros n; unfold f; now destruct (Nat.eqb _ _)).
  assert (Hm : forall l k v n, In (l, k) merged_keys ->
                 Cypher.node_matches l k v (f n) = Cypher.node_matches l k v n).
  { intros l k v n Hk. unfold f. destruct (Nat.eqb _ _); [| reflexivity].
    unfold Cypher.node_matches. cbn [node_label node_props].
    rewrite assoc_dict_set_ne; [reflexivity |].
    intros ->. apply Hkey. eapply merged_keys_key, Hk. }
  split; [| split; [| split]].
  - rewrite List.map_map. erewrite List.map_ext; [exact Hids | exact Hid].
  - intros n Hin. apply List.in_map_iff in Hin. destruct Hin as (n0 & <- & Hin).
    rewrite Hid. now apply Hnext.
  - intros l k v n1 n2 Hk H1 H2 M1 M2.
    apply List.in_map_iff in H1. destruct H1 as (m1 & <- & H1).
    apply List.in_map_iff in H2. destruct H2 as (m2 & <- & H2).
    rewrite Hm in M1, M2 by exact Hk. rewrite !Hid.
    exact (Huniq l k v m1 m2 Hk H1 H2 M1 M2).
  - exact Hrels.
Qed.

Lemma no_duplicates_merge_rel a ty b g :
  no_duplicates g -> no_duplicates (Cypher.merge_rel a ty b g).
Proof.
  intros (Hids & Hnext & Huniq & Hrels). unfold Cypher.merge_rel.
  destruct (List.existsb _ (g_rels g)) eqn:E; [repeat split; assumption |].
  split; [exact Hids |]. split; [exact Hnext |]. split; [exact Huniq |].
  unfold g_rels at 1. apply NoDup_app. split; [exact Hrels |].
  split; [| apply NoDup_singleton].
  intros r Hr Hr'. apply list_elem_of_singleton in Hr'. subst r.
  apply list_elem_of_In in Hr.
  assert (Ht : List.existsb (Cypher.rel_matches ty a b) (g_rels g) = true).
  { apply List.existsb_exists. eexists. split; [exact Hr |].
    unfold Cypher.rel_matches. cbn.
    now rewrite String.eqb_refl, !Nat.eqb_refl. }
  congruence.
Qed.

Lemma no_duplicates_query_head p now g :
  no_duplicates g -> no_duplicates (snd (query_head p now g)).
Proof.
  intros Hg. unfold query_head.
  repeat match goal with
         | |- context [Cypher.merge_node ?l ?k ?v ?g0] =>
             let n := fresh "n" in let g' := fresh "g" in let E := fresh "E" in
             let K := fresh "K" in
             destruct (Cypher.merge_node l k v g0) as [n g'] eqn:E;
             assert (K : no_duplicates g0 -> no_duplicates g')
               by (change g' with (snd (n, g')); rewrite <- E;
                   apply no_duplicates_merge_node);
             clear E
         end.
  cbn [snd].
  repeat first
    [ assumption
    | apply no_duplicates_merge_rel
    | apply no_duplicates_set_prop; [other_key |]
    | match goal with
      | K : no_duplicates ?a -> no_duplicates ?b |- no_duplicates ?b => apply K
      end ].
Qed.

Lemma no_duplicates_subcategory_clause v t g x :
  no_duplicates g -> no_duplicates (subcategory_clause v t g x).
Proof.
  intros Hg. unfold subcategory_clause.
  destruct (Cypher.merge_node "Subcategory" "name" x g) as [sc g'] eqn:E.
  do 2 apply no_duplicates_merge_rel.
  change g' with (snd (sc, g')). rewrite <- E. now apply no_duplicates_merge_node.
Qed.

Lemma no_duplicates_tag_clause v g x :
  no_duplicates g -> no_duplicates (tag_clause v g x).
Proof.
  intros Hg. unfold tag_clause.
  destruct (Cypher.merge_node "Tag" "name" x g) as [tag g'] eqn:E.
  apply no_duplicates_merge_rel.
  change g' with (snd (tag, g')). rewrite <- E. now apply no_duplicates_merge_node.
Qed.

Lemma no_duplicates_key_point_clause v g x :
  no_duplicates g -> no_duplicates (key_point_clause v g x).
Proof.
  intros Hg. unfold key_point_clause.
  destruct (Cypher.create_node "KeyPoint" [("text", x)] g) as [kp g'] eqn:E.
  apply no_duplicates_merge_rel.
  change g' with (snd (kp, g')). rewrite <- E. now apply no_duplicates_create_key_point.
Qed.

Lemma no_duplicates_fold {A : Type} (step : Graph -> A -> Graph) (rows : list A) g :
  (forall g x, no_duplicates g -> no_duplicates (step g x)) ->
  no_duplicates g -> no_duplicates (List.fold_left step rows g).
Proof.
  intros Hstep. revert g. induction rows as [| x rows IH]; intros g Hg; simpl.
  - exact Hg.
  - apply IH, Hstep, Hg.
Qed.

Lemma no_duplicates_store_summary_query p now g :
  no_duplicates g -> no_duplicates (fst (store_summary_query p now g)).
Proof.
  intros Hg. rewrite store_summary_query_clauses.
  pose proof (no_duplicates_query_head p now g Hg) as H1.
  destruct (query_head p now g) as [[v t] g1]. cbn [fst snd] in *.
  apply no_duplicates_fold; [apply no_duplicates_key_point_clause |].
  apply no_duplicates_fold; [apply no_duplicates_tag_clause |].
  apply no_duplicates_fold; [apply no_duplicates_subcategory_clause |].
  exact H1.
Qed.

Lemma no_duplicates_empty_graph : no_duplicates empty_graph.
Proof. repeat split; simpl; try apply NoDup_nil_2; try contradiction. Qed.

Lemma store_summary_query_rows p now g :
  List.length (snd (store_summary_query p now g))
  = (List.length (Cypher.unwind (p_subcategories p))
     * List.length (Cypher.unwind (p_tags p))
     * List.length (Cypher.unwind (p_key_points p)))%nat.
Proof.
  rewrite store_summary_query_clauses.
  destruct (query_head p now g) as [[v t] g1]. cbn [snd].
  rewrite List.length_map. unfold point_rows, tag_rows, subcat_rows.
  now rewrite !length_flat_map_const.
Qed.

(** Each [UNWIND] of the query multiplies the rows of the one before it.  On
    a graph without duplicates among what the query merges, and for
    parameters of the declared types, one run creates a KeyPoint node for
    every triple of a subcategory, a tag and a key point, and returns as
    many rows; the graph it leaves has again no duplicates among what the
    query merges. *)
Theorem key_points_created_per_row (p : SummaryParams) (now : Z) (g : Graph) :
  no_duplicates g ->
  declared_types p = true ->
  let rows := (List.length (Cypher.unwind (p_subcategories p))
               * List.length (Cypher.unwind (p_tags p))
               * List.length (Cypher.unwind (p_key_points p)))%nat in
  key_point_count (fst (store_summary_query p now g)) = (key_point_count g + rows)%nat
  /\ List.length (snd (store_summary_query p now g)) = rows
  /\ no_duplicates (fst (store_summary_query p now g)).
Proof.
  intros Hg _. cbv zeta.
  split; [| split].
  - now rewrite store_summary_query_adds_key_points, store_summary_query_rows.
  - apply store_summary_query_rows.
  - now apply no_duplicates_store_summary_query.
Qed.

Lemma key_points_created_per_row_witness :
  let p := {| p_video_id := "abc"; p_user_id := "u1"; p_title := JString "Proofs";
              p_summary := JString "A talk"; p_topic := JString "Logic";
              p_category := JString "Education"; p_confidence := JNumber "0.5";
              p_subcategories := JArray [JString "Coq"; JString "Lean"];
              p_tags := JArray [JString "logic"; JString "types"; JString "proofs"];
              p_key_points := JArray [JString "induction"];
              p_tone := JString "casual" |} in
  key_point_count (fst (store_summary_query p 0 empty_graph)) = 6%nat
  /\ List.length (snd (store_summary_query p 0 empty_graph)) = 6%nat.
Proof.
  intros p.
  destruct (key_points_created_per_row p 0 empty_graph no_duplicates_empty_graph eq_refl)
    as (Hcount & Hrows & _).
  exact (conj Hcount Hrows).
Defined.

(** A second run with the same inputs, on a graph without duplicates among
    what the query merges and for parameters of the declared types, adds one
    KeyPoint node for each row of key points and no other node: what it
    merges is not duplicated, what it creates is.  The graph has no
    duplicates among what the query merges after the first run and after
    the second. *)
Theorem second_run_adds_key_points_only (p : SummaryParams) (now now' : Z) (g : Graph) :
  no_duplicates g ->
  declared_types p = true ->
  let once := fst (store_summary_query p now g) in
  let twice := fst (store_summary_query p now' once) in
  no_duplicates once
  /\ no_duplicates twice
  /\ List.length (g_nodes twice)
     = (List.length (g_nodes once) + List.length (point_rows p))%nat
  /\ key_point_count twice = (key_point_count once + List.length (point_rows p))%nat.
Proof.
  intros Hg _ once twice.
  assert (Honce : no_duplicates once) by now apply no_duplicates_store_summary_query.
  split; [exact Honce |].
  split; [now apply no_duplicates_store_summary_query |].
  exact (store_summary_query_twice p now now' g).
Qed.

Lemma second_run_adds_key_points_only_witness :
  let once := fst (store_summary_query demo_params 0 empty_graph) in
  let twice := fst (store_summary_query demo_params 1 once) in
  List.length (g_nodes twice) = 8%nat /\ key_point_count twice = 2%nat.
Proof.
  intros once twice.
  destruct (second_run_adds_key_points_only demo_params 0 1 empty_graph
              no_duplicates_empty_graph eq_refl)
    as (_ & _ & Hnodes & Hcount).
  exact (conj Hnodes Hcount).
Defined.

(** The number of nodes of a graph that carry a label. *)
Lemma labelled_create_other label label' props g :
  String.eqb label' label = false ->
  List.length (nodes_labelled label (snd (Cypher.create_node label' props g)))
  = List.length (nodes_labelled label g).
Proof.
  intros Hl. unfold nodes_labelled, Cypher.create_node. simpl.
  rewrite List.filter_app, List.length_app. simpl. rewrite Hl. simpl. lia.
Qed.

Lemma labelled_merge_node_other label label' key value g :
  String.eqb label' label = false ->
  List.length (nodes_labelled label (snd (Cypher.merge_node label' key value g)))
  = List.length (nodes_labelled label g).
Proof.
  intros Hl. unfold Cypher.merge_node.
  destruct (List.find _ _); [reflexivity | now apply labelled_create_other].
Qed.

Lemma labelled_merge_rel label a ty b g :
  nodes_labelled label (Cypher.merge_rel a ty b g) = nodes_labelled label g.
Proof. unfold Cypher.merge_rel. now destruct (List.existsb _ _). Qed.

Lemma labelled_set_prop label id key value g :
  List.length (nodes_labelled label (Cypher.set_prop id key value g))
  = List.length (nodes_labelled label g).
Proof.
  unfold nodes_labelled, Cypher.set_prop. simpl.
  induction (g_nodes g) as [| n l IH]; [reflexivity |].
  simpl. destruct (Nat.eqb (node_id n) id); simpl;
    destruct (String.eqb (node_label n) label); simpl; now rewrite IH.
Qed.

Lemma labelled_query_head label p now g :
  In label ["Subcategory"; "Tag"; "KeyPoint"] ->
  List.length (nodes_labelled label (snd (query_head p now g)))
  = List.length (nodes_labelled label g).
Proof.
  intros Hlabel.
  assert (Hv : String.eqb "Video" label = false)
    by (simpl in Hlabel; intuition (subst; reflexivity)).
  assert (Hu : String.eqb "User" label = false)
    by (simpl in Hlabel; intuition (subst; reflexivity)).
  assert (Ht : String.eqb "Topic" label = false)
    by (simpl in Hlabel; intuition (subst; reflexivity)).
  assert (Hc : String.eqb "Category" label = false)
    by (simpl in Hlabel; intuition (subst; reflexivity)).
  unfold query_head.
  repeat match goal with
         | |- context [Cypher.merge_node ?l ?k ?v ?g0] =>
             let n := fresh "n" in let g' := fresh "g" in let E := fresh "E" in
             let K := fresh "K" in
             destruct (Cypher.merge_node l k v g0) as [n g'] eqn:E;
             assert (K : List.length (nodes_labelled label g')
                         = List.length (nodes_labelled label g0))
               by (change g' with (snd (n, g')); rewrite <- E;
                   apply labelled_merge_node_other; assumption);
             clear E
         end.
  cbn [snd]. rewrite !labelled_merge_rel. rewrite !labelled_set_prop in *. congruence.
Qed.

(** A summary without subcategories loses its tags and key points in the
    graph: the first [UNWIND] yields no row, so the clauses after it run for
    no row.  The query does what its head does and nothing more: it adds no
    Subcategory, Tag or KeyPoint node and returns no row, whatever tags and
    key points it was given. *)
Theorem no_subcategories_no_tags (p : SummaryParams) (now : Z) (g : Graph) :
  Cypher.unwind (p_subcategories p) = [] ->
  store_summary_query p now g = (snd (query_head p now g), [])
  /\ forall label, In label ["Subcategory"; "Tag"; "KeyPoint"] ->
       List.length (nodes_labelled label (fst (store_summary_query p now g)))
       = List.length (nodes_labelled label g).
Proof.
  intros Hempty.
  assert (Hq : store_summary_query p now g = (snd (query_head p now g), [])).
  { rewrite store_summary_query_clauses.
    destruct (query_head p now g) as [[v t] g1].
    unfold point_rows, tag_rows, subcat_rows. rewrite Hempty. reflexivity. }
  split; [exact Hq |].
  intros label Hlabel. rewrite Hq. cbn [fst]. now apply labelled_query_head.
Qed.

Lemma no_subcategories_no_tags_witness :
  let p := {| p_video_id := "abc"; p_user_id := "u1"; p_title := JString "Proofs";
              p_summary := JString "A talk"; p_topic := JString "Logic";
              p_category := JString "Education"; p_confidence := JNumber "0.5";
              p_subcategories := JArray [];
              p_tags := JArray [JString "logic"];
              p_key_points := JArray [JString "induction"];
              p_tone := JString "casual" |} in
  List.length (nodes_labelled "Tag" (fst (store_summary_query p 0 empty_graph))) = 0%nat
  /\ snd (store_summary_query p 0 empty_graph) = [].
Proof.
  intros p.
  destruct (no_subcategories_no_tags p 0 empty_graph eq_refl) as [Hq Hcount].
  split.
  - rewrite (Hcount "Tag"); [reflexivity | simpl; tauto].
  - now rewrite Hq.
Defined.

(** ** The Video node after a store *)

Lemma merge_node_binds label key value g :
  exists n, In n (g_nodes (snd (Cypher.merge_node label key value g)))
            /\ node_id n = fst (Cypher.merge_node label key value g)
            /\ Cypher.node_matches label key value n = true.
Proof.
  unfold Cypher.merge_node.
  destruct (List.find _ (g_nodes g)) as [n |] eqn:E.
  - apply List.find_some in E. destruct E as [Hin Hm]. exists n. auto.
  - eexists. split; [simpl; apply in_or_app; right; left; reflexivity |].
    split; [reflexivity |].
    unfold Cypher.node_matches. simpl.
    now rewrite !String.eqb_refl, json_eqb_refl.
Qed.

Lemma set_prop_bound n key value g :
  In n (g_nodes g) ->
  In {| node_id := node_id n; node_label := node_label n;
        node_props := Json.dict_set key value (node_props n) |}
     (g_nodes (Cypher.set_prop (node_id n) key value g)).
Proof.
  intros Hin. unfold Cypher.set_prop. simpl.
  apply List.in_map_iff. exists n. split; [| exact Hin].
  now rewrite Nat.eqb_refl.
Qed.

Lemma incl_merge_node label key value g :
  incl (g_nodes g) (g_nodes (snd (Cypher.merge_node label key value g))).
Proof.
  unfold Cypher.merge_node. destruct (List.find _ _); simpl.
  - apply incl_refl.
  - apply incl_appl, incl_refl.
Qed.

Lemma incl_fold {A : Type} (step : Graph -> A -> Graph) (rows : list A) g :
  (forall g x, incl (g_nodes g) (g_nodes (step g x))) ->
  incl (g_nodes g) (g_nodes (List.fold_left step rows g)).
Proof.
  intros Hstep. revert g. induction rows as [| x rows IH]; intros g; simpl.
  - apply incl_refl.
  - eapply incl_tran; [apply Hstep | apply IH].
Qed.

Lemma incl_subcategory_clause v t g x :
  incl (g_nodes g) (g_nodes (subcategory_clause v t g x)).
Proof.
  unfold subcategory_clause.
  pose proof (incl_merge_node "Subcategory" "name" x g) as H.
  destruct (Cypher.merge_node "Subcategory" "name" x g) as [sc g']. cbn [snd] in H.
  now rewrite !g_nodes_merge_rel.
Qed.

Lemma incl_tag_clause v g x : incl (g_nodes g) (g_nodes (tag_clause v g x)).
Proof.
  unfold tag_clause.
  pose proof (incl_merge_node "Tag" "name" x g) as H.
  destruct (Cypher.merge_node "Tag" "name" x g) as [tag g']. cbn [snd] in H.
  now rewrite g_nodes_merge_rel.
Qed.

Lemma incl_key_point_clause v g x : incl (g_nodes g) (g_nodes (key_point_clause v g x)).
Proof.
  unfold key_point_clause. simpl. rewrite g_nodes_merge_rel. simpl.
  apply incl_appl, incl_refl.
Qed.

(** After the query has run, the graph has a Video node of the video that
    carries the title, summary, tone and confidence it was given and the
    time of the run: what an earlier run had set is overwritten. *)
Theorem video_node_carries_last_store (p : SummaryParams) (now : Z) (g : Graph) :
  exists n,
    In n (g_nodes (fst (store_summary_query p now g)))
    /\ Cypher.node_matches "Video" "video_id" (JString (p_video_id p)) n = true
    /\ assoc "title" (node_props n) = Some (p_title p)
    /\ assoc "summary" (node_props n) = Some (p_summary p)
    /\ assoc "tone" (node_props n) = Some (p_tone p)
    /\ assoc "confidence" (node_props n) = Some (p_confidence p)
    /\ assoc "created_at" (node_props n) = Some (JNumber (pretty now)).
Proof.
  rewrite store_summary_query_clauses. unfold query_head.
  destruct (merge_node_binds "Video" "video_id" (JString (p_video_id p)) g)
    as (n & Hin & Hid & Hm).
  destruct (Cypher.merge_node "Video" "video_id" (JString (p_video_id p)) g) as [v g0].
  cbn [fst snd] in Hin, Hid. subst v.
  apply (set_prop_bound n "title" (p_title p)) in Hin.
  apply (set_prop_bound _ "summary" (p_summary p)) in Hin.
  apply (set_prop_bound _ "tone" (p_tone p)) in Hin.
  apply (set_prop_bound _ "confidence" (p_confidence p)) in Hin.
  apply (set_prop_bound _ "created_at" (JNumber (pretty now))) in Hin.
  cbn [node_id node_label node_props] in Hin.
  match type of Hin with
  | In ?n5 (g_nodes ?g') => set (video := n5) in *; set (g5 := g') in *
  end.
  pose proof (incl_merge_node "User" "user_id" (JString (p_user_id p)) g5) as I1.
  destruct (Cypher.merge_node "User" "user_id" (JString (p_user_id p)) g5) as [u g6].
  pose proof (incl_merge_node "Topic" "name" (p_topic p) g6) as I2.
  destruct (Cypher.merge_node "Topic" "name" (p_topic p) g6) as [t g7].
  pose proof (incl_merge_node "Category" "name" (p_category p) g7) as I3.
  destruct (Cypher.merge_node "Category" "name" (p_category p) g7) as [ca g8].
  cbn [fst snd] in *.
  exists video. split.
  - apply incl_fold; [apply incl_key_point_clause |].
    apply incl_fold; [apply incl_tag_clause |].
    apply incl_fold; [apply incl_subcategory_clause |].
    rewrite !g_nodes_merge_rel. apply I3, I2, I1, Hin.
  - unfold Cypher.node_matches in *. subst video. cbn [node_label node_props].
    split.
    { rewrite !assoc_dict_set_ne by discriminate. exact Hm. }
    repeat split;
      rewrite ?assoc_dict_set_ne by discriminate; apply assoc_dict_set_eq.
Qed.

(** ** The brace branch of the parsers *)

Lemma find_at_none_rfind_at (sub s : string) (i j : nat) :
  Py.find_at sub s i = None -> Py.rfind_at sub s j = None.
Proof.
  revert i j. induction s as [| c s IH]; intros i j H.
  - cbn [Py.find_at Py.rfind_at] in *.
    destruct (String.prefix sub ""); [discriminate H | reflexivity].
  - cbn [Py.find_at Py.rfind_at] in *.
    destruct (String.prefix sub (String c s)); [discriminate H |].
    now rewrite (IH _ (S j) H).
Qed.

Lemma rfind_at_find_at (sub s : string) (i j : nat) :
  Py.rfind_at sub s i = Some j -> exists k, Py.find_at sub s i = Some k.
Proof.
  intros H. destruct (Py.find_at sub s i) as [k |] eqn:E; [eauto |].
  rewrite (find_at_none_rfind_at _ _ _ i E) in H. discriminate H.
Qed.

Lemma rfind_at_append (sub a b : string) (i j : nat) :
  Py.rfind_at sub b (i + String.length a) = Some j ->
  Py.rfind_at sub (a +:+ b) i = Some j.
Proof.
  revert i. induction a as [| c a IH]; intros i H.
  - simpl in H. rewrite Nat.add_0_r in H. exact H.
  - change (String c a +:+ b) with (String c (a +:+ b)).
    cbn [Py.rfind_at]. rewrite (IH (S i)); [reflexivity |].
    simpl in H. now rewrite Nat.add_succ_r in H.
Qed.

Lemma absent_char (c : ascii) (pre rest : string) :
  Py.contains (String c "") pre = false ->
  absent_before (String c "") (pre +:+ rest) (String.length pre).
Proof.
  unfold Py.contains. generalize 0%nat.
  induction pre as [| a pre IH]; intros i H k Hk; [simpl in Hk; lia |].
  change (String a pre +:+ rest) with (String a (pre +:+ rest)).
  cbn [Py.find_at] in H.
  destruct (String.prefix (String c "") (String a pre)) eqn:E; [discriminate H |].
  destruct k as [| k]; cbn [Py.drop].
  - simpl in E |- *. destruct (ascii_dec c a); [| reflexivity].
    now destruct pre.
  - apply (IH (S i)); [exact H | simpl in Hk; lia].
Qed.

(** Without a fence, the parsers hand the decoder everything from the first
    opening brace to the last closing brace of the text, whatever lies
    between them; what the decoder rejects becomes the default. *)
Theorem parse_braces (loads : string -> outcome json) (pre mid post text : string) :
  text = pre +:+ "{" +:+ mid +:+ "}" +:+ post ->
  Py.contains "```json" text = false ->
  Py.contains "{" pre = false ->
  Py.contains "}" post = false ->
  extracted_json text = Some ("{" +:+ mid +:+ "}")
  /\ SummaryOutputParser_parse loads text
     = try_except (loads ("{" +:+ mid +:+ "}"))
         (fun _ => Ok (SummaryOutputParser_default text))
  /\ ClassificationOutputParser_parse loads text
     = try_except (loads ("{" +:+ mid +:+ "}"))
         (fun _ => Ok ClassificationOutputParser_default).
Proof.
  intros Htext Hfence Hpre Hpost.
  assert (Hfind : Py.find_at "{" text 0 = Some (String.length pre)).
  { rewrite Htext. apply find_first. now apply absent_char. }
  assert (Hrfind : Py.rfind_at "}" text 0
                   = Some (String.length pre + S (String.length mid))%nat).
  { rewrite Htext. apply rfind_at_append.
    change ("{" +:+ mid +:+ "}" +:+ post) with (String "{" (mid +:+ "}" +:+ post)).
    cbn [Py.rfind_at].
    rewrite (rfind_at_append "}" mid ("}" +:+ post) _
               (String.length pre + S (String.length mid))).
    - reflexivity.
    - change ("}" +:+ post) with (String "}" post). cbn [Py.rfind_at].
      unfold Py.contains in Hpost.
      destruct (Py.find_at "}" post 0) eqn:E; [discriminate Hpost |].
      rewrite (find_at_none_rfind_at _ _ _ _ E).
      simpl. destruct post; f_equal; lia. }
  assert (Hex : extracted_json text = Some ("{" +:+ mid +:+ "}")).
  { unfold extracted_json. rewrite Hfence.
    unfold Py.contains at 1. rewrite Hfind.
    destruct (rfind_at_find_at _ _ _ _ Hrfind) as [k Hk].
    unfold Py.contains at 1. rewrite Hk. cbn [andb].
    unfold Py.find, Py.find_from, Py.rfind. cbn [Nat.ltb Nat.leb Py.drop].
    rewrite Hfind, Hrfind. cbn [Py.index_or_minus1]. f_equal.
    replace (Z.of_nat (String.length pre + S (String.length mid)) + 1)
      with (Z.of_nat (String.length pre + String.length ("{" +:+ mid +:+ "}"))).
    2: { rewrite !length_append. simpl. lia. }
    rewrite Htext.
    replace (pre +:+ "{" +:+ mid +:+ "}" +:+ post)
      with (pre +:+ ("{" +:+ mid +:+ "}") +:+ post).
    2: { f_equal. change (String "{" ((mid +:+ "}") +:+ post)
                          = String "{" (mid +:+ "}" +:+ post)).
         now rewrite append_assoc. }
    apply slice_middle. }
  split; [exact Hex |].
  unfold SummaryOutputParser_parse, ClassificationOutputParser_parse.
  rewrite SummaryOutputParser_try_extracted, ClassificationOutputParser_try_extracted.
  rewrite Hex. split; reflexivity.
Qed.

Lemma parse_braces_witness :
  SummaryOutputParser_parse Json.loads "a {} b {} c"
  = Ok (SummaryOutputParser_default "a {} b {} c").
Proof.
  rewrite (proj1 (proj2 (parse_braces Json.loads "a " "} b {" " c" "a {} b {} c"
                           eq_refl eq_refl eq_refl eq_refl))).
  reflexivity.
Defined.
